(** * BNG Blaster: interface registry, interface locks and LDP interface adjacencies

    A shallow embedding of [bbl_interface.c] (interface registration, the
    lock files under /run/lock, kernel binding) and of [ldp/ldp_interface.c]
    (the LDP hello job and the attachment of an LDP instance to a network
    interface), with the properties of the specification stated over it.

    The C code works on the process-wide context [g_ctx], on heap objects
    reached through pointers, and on the operating system (lock files, the
    process table, ioctl).  All of it is one explicit [state]; C functions
    are computations in a state monad whose failure value stands for
    undefined behaviour (a dereference of a dangling or null pointer). *)

From Stdlib Require Import ZArith String Ascii List Lia Bool DecimalString DecimalPos.
From stdpp Require Import gmap strings list fin_maps.

Local Open Scope Z_scope.

(** ** Constants of headers *)

(** Macros and enumerators that the two files use and that are declared in
    headers of the repository ([bbl_def.h], [bbl_io.h]).  Their values are
    not fixed by the two source files, so the development is parametric in
    them. *)
Class bbl_defs := {
  FILE_PATH_LEN : nat;          (* size of a path buffer *)
  IO_BUFFER_LEN : Z;            (* size of an I/O buffer *)
  IO_MODE_DPDK : Z;             (* enumerator of the DPDK I/O mode *)
  BBL_IF_SEND_LDP_HELLO : Z;    (* bit of the interface send mask *)
}.

(** Constants of the C library and of Linux. *)
Definition ENOENT : Z := 2.
Definition IFNAMSIZ : nat := 16.
Definition IFHWADDRLEN : nat := 6.
Definition ETH_ADDR_LEN : nat := 6.
Definition LONG_MIN : Z := - 2 ^ 63.
Definition LONG_MAX : Z := 2 ^ 63 - 1.

(** ** Machine integers *)

(** A value stored in a [uint32_t]. *)
Definition wrap32 (z : Z) : Z := z mod 2 ^ 32.

(** A value converted to [int]. *)
Definition to_int32 (z : Z) : Z := (z + 2 ^ 31) mod 2 ^ 32 - 2 ^ 31.

(** The 64-bit load [*(uint64_t * )p] of eight bytes on a little-endian
    machine. *)
Fixpoint load_le (bytes : list Z) : Z :=
  match bytes with
  | [] => 0
  | b :: rest => Z.lor (Z.land b 255) (Z.shiftl (load_le rest) 8)
  end.

(** ** The C library on strings *)

(** [snprintf(buf, size, "%s...", ...)]: at most [size - 1] characters of
    the formatted text are stored. *)
Definition snprintf (size : nat) (text : string) : string :=
  substring 0 (size - 1) text.

(** The conversion [%d] of [printf]. *)
Definition sprintf_d (z : Z) : string :=
  NilZero.string_of_int (Z.to_int z).

Definition isspace (c : ascii) : bool :=
  let n := nat_of_ascii c in
  Nat.eqb n 32 || (Nat.leb 9 n && Nat.leb n 13).

Definition digit_of (c : ascii) : option Z :=
  let n := Z.of_nat (nat_of_ascii c) in
  if (48 <=? n) && (n <=? 57) then Some (n - 48) else None.

Fixpoint skip_space (s : string) : string :=
  match s with
  | String c rest => if isspace c then skip_space rest else s
  | EmptyString => s
  end.

Fixpoint scan_digits (acc : Z) (s : string) : Z :=
  match s with
  | String c rest =>
      match digit_of c with
      | Some d => scan_digits (10 * acc + d) rest
      | None => acc
      end
  | EmptyString => acc
  end.

Definition starts_with_digit (s : string) : bool :=
  match s with
  | String c _ => match digit_of c with Some _ => true | None => false end
  | EmptyString => false
  end.

(** [strtol] clamps to the range of [long]. *)
Definition strtol_clamp (z : Z) : Z := Z.max LONG_MIN (Z.min LONG_MAX z).

(** [fscanf(f, "%d", &v) == 1] on a file with the given content, and the
    value stored then: white space is skipped, an optional sign and at least
    one digit are read.  As in glibc the digits are converted by [strtol]
    and the [long] is stored into the [int]. *)
Definition fscanf_d (content : string) : option Z :=
  let number (neg : bool) (s : string) :=
    if starts_with_digit s
    then Some (to_int32 (strtol_clamp (if neg then - scan_digits 0 s else scan_digits 0 s)))
    else None in
  match skip_space content with
  | String c rest =>
      if Ascii.eqb c "-" then number true rest
      else if Ascii.eqb c "+" then number false rest
      else number false (String c rest)
  | EmptyString => None
  end.

(** ** Data model *)

(** A pointer to a heap object is its index in the arena of its type; the
    null pointer is [None]. *)
Abbreviation ptr := nat (only parsing).

(** [bbl_link_config_s], one element of the chain [g_ctx->config.link_config].
    [lc_mac_next] are the two bytes that follow the array [mac] in the
    structure: the 64-bit load in [bbl_interface_add] reads them.
    [lc_lag] is the reference to an aggregation group. *)
Record bbl_link_config := {
  lc_interface : string;
  lc_io_mode : Z;
  lc_mac : list Z;
  lc_mac_next : list Z;
  lc_lag : option Z;
}.

(** The callbacks that the two files hand to the timer engine. *)
Inductive timer_cb := bbl_interface_rate_job_cb | ldp_interface_hello_job_cb.

(** [timer_s], a record of the timer engine. *)
Record timer_s := {
  timer_name : string;
  timer_sec : Z;
  timer_nsec : Z;
  timer_periodic : bool;
  timer_data : ptr;
  timer_cb_fn : timer_cb;
}.

(** [bbl_interface_s]. *)
Record bbl_interface := {
  if_name : string;
  if_pcap_index : Z;
  if_mac : list Z;
  if_ifindex : Z;
  if_config : option bbl_link_config;
  if_io_rx_buf : option Z;          (* size of the buffer, once allocated *)
  if_io_tx_buf : option Z;
  if_io_mode : Z;
  if_lag : option Z;
  if_rate_job : option ptr;
}.

(** The record [calloc] returns: every field is zero. *)
Definition bbl_interface_zero : bbl_interface :=
  {| if_name := ""; if_pcap_index := 0; if_mac := replicate ETH_ADDR_LEN 0;
     if_ifindex := 0; if_config := None; if_io_rx_buf := None;
     if_io_tx_buf := None; if_io_mode := 0; if_lag := None;
     if_rate_job := None |}.

(** [bbl_network_interface_s], as far as the LDP code uses it. *)
Record bbl_network_interface := {
  nif_name : string;
  nif_send_requests : Z;            (* uint32_t *)
  nif_ldp_adjacency : option ptr;
}.

(** [bbl_network_config_s], as far as the LDP code uses it. *)
Record bbl_network_config := {
  nc_ldp_instance_id : Z;
}.

(** [ldp_config_s]: the hello interval, "the instance's configured
    interval". *)
Record ldp_config := {
  ldp_hello_interval : Z;
}.

(** [ldp_instance_s]. *)
Record ldp_instance := {
  inst_config : ldp_config;
  inst_adjacencies : option ptr;
}.

(** Modelled from the spec: the states of an adjacency, whose declaration is
    not part of the two files.  "States: DOWN (no Hello activity yet),
    HELLO_ACTIVE, OPERATIONAL"; an adjacency "starts in DOWN", which is taken
    to be the zero value. *)
Inductive ldp_adjacency_state := DOWN | HELLO_ACTIVE | OPERATIONAL.

(** [ldp_adjacency_s]: the fields that [ldp_interface_init] assigns, the
    handle of the hello timer and the state (see above). *)
Record ldp_adjacency := {
  adj_next : option ptr;
  adj_instance : option ptr;
  adj_interface : option ptr;
  adj_hello_timer : option ptr;
  adj_state : ldp_adjacency_state;
}.

Definition ldp_adjacency_zero : ldp_adjacency :=
  {| adj_next := None; adj_instance := None; adj_interface := None;
     adj_hello_timer := None; adj_state := DOWN |}.

(** An invocation of the macro [LOG], one constructor per call site with
    the arguments of its format string. *)
Inductive log_id := ERROR | LDP.

Inductive log_msg :=
| Interface_in_use (interface_name : string) (lock_pid : Z) (lock_path : string)
| Invalid_interface_lock_file (lock_path : string)
| Failed_to_open_interface_lock_file (lock_path : string) (errno : Z)
| Getting_MAC_address_error (errno : Z) (interface_name : string)
| Get_interface_index_error (errno : Z) (interface_name : string)
| No_memory_for_interface (interface_name : string)
| Failed_to_add_link_duplicate (interface_name : string)
| Failed_to_add_link (interface_name : string)
| Add_network_interface_to_LDP_instance (interface_name : string) (instance_id : Z).

(** The result of a system call: success with a value, or -1 with [errno]. *)
Inductive sysret (A : Type) :=
| SysOk (a : A)
| SysErr (errno : Z).
Arguments SysOk {A} a.
Arguments SysErr {A} errno.

(** The operating system as the code observes it. [os_files] holds the files
    that [fopen(path, "r")] opens, with their content; the other fields
    answer the calls whose outcome the code tests, and [os_remove] the call
    whose outcome it ignores. *)
Record os_state := {
  os_pid : Z;                                        (* getpid() *)
  os_files : gmap string string;
  os_fopen_w : string -> sysret unit;                (* fopen(path, "w") *)
  os_stat : string -> sysret unit;                   (* stat(path, &sts) *)
  os_siocgifhwaddr : string -> sysret (list Z);      (* sa_data of SIOCGIFHWADDR *)
  os_siocgifindex : string -> sysret Z;              (* ifr_ifindex of SIOCGIFINDEX *)
  os_io_open : string -> Z -> bool;                  (* the I/O backend can be opened *)
  os_remove : string -> sysret unit;                 (* remove(path) of an existing file *)
}.

(** The fields of [g_ctx] that the code uses. *)
Record bbl_ctx := {
  interface_qhead : list ptr;                        (* CIRCLEQ, head first *)
  pcap_index : Z;                                    (* pcap.index, uint32_t *)
  interface_lock_force : bool;                       (* config.interface_lock_force *)
  link_config : list bbl_link_config;                (* config.link_config *)
  lag_groups : list Z;
  timer_root : list timer_s;
}.

(** The heap: one arena per structure, and the number of interface records
    that [calloc] still delivers before memory is exhausted. *)
Record heap := {
  calloc_left : nat;
  interfaces : list bbl_interface;
  network_interfaces : list bbl_network_interface;
  ldp_instances : list ldp_instance;
  ldp_adjacencies : list ldp_adjacency;
}.

Record state := {
  g_ctx : bbl_ctx;
  mem : heap;
  os : os_state;
  log : list (log_id * log_msg);
}.

(** *** Field updates *)

Definition set_interface_qhead (f : list ptr -> list ptr) (s : state) : state :=
  {| g_ctx := {| interface_qhead := f (interface_qhead (g_ctx s));
                 pcap_index := pcap_index (g_ctx s);
                 interface_lock_force := interface_lock_force (g_ctx s);
                 link_config := link_config (g_ctx s);
                 lag_groups := lag_groups (g_ctx s);
                 timer_root := timer_root (g_ctx s) |};
     mem := mem s; os := os s; log := log s |}.

Definition set_pcap_index (f : Z -> Z) (s : state) : state :=
  {| g_ctx := {| interface_qhead := interface_qhead (g_ctx s);
                 pcap_index := f (pcap_index (g_ctx s));
                 interface_lock_force := interface_lock_force (g_ctx s);
                 link_config := link_config (g_ctx s);
                 lag_groups := lag_groups (g_ctx s);
                 timer_root := timer_root (g_ctx s) |};
     mem := mem s; os := os s; log := log s |}.

Definition set_timer_root (f : list timer_s -> list timer_s) (s : state) : state :=
  {| g_ctx := {| interface_qhead := interface_qhead (g_ctx s);
                 pcap_index := pcap_index (g_ctx s);
                 interface_lock_force := interface_lock_force (g_ctx s);
                 link_config := link_config (g_ctx s);
                 lag_groups := lag_groups (g_ctx s);
                 timer_root := f (timer_root (g_ctx s)) |};
     mem := mem s; os := os s; log := log s |}.

Definition set_interfaces (f : list bbl_interface -> list bbl_interface) (s : state) : state :=
  {| g_ctx := g_ctx s;
     mem := {| calloc_left := calloc_left (mem s);
               interfaces := f (interfaces (mem s));
               network_interfaces := network_interfaces (mem s);
               ldp_instances := ldp_instances (mem s);
               ldp_adjacencies := ldp_adjacencies (mem s) |};
     os := os s; log := log s |}.

Definition set_network_interfaces
    (f : list bbl_network_interface -> list bbl_network_interface) (s : state) : state :=
  {| g_ctx := g_ctx s;
     mem := {| calloc_left := calloc_left (mem s);
               interfaces := interfaces (mem s);
               network_interfaces := f (network_interfaces (mem s));
               ldp_instances := ldp_instances (mem s);
               ldp_adjacencies := ldp_adjacencies (mem s) |};
     os := os s; log := log s |}.

Definition set_ldp_instances (f : list ldp_instance -> list ldp_instance) (s : state) : state :=
  {| g_ctx := g_ctx s;
     mem := {| calloc_left := calloc_left (mem s);
               interfaces := interfaces (mem s);
               network_interfaces := network_interfaces (mem s);
               ldp_instances := f (ldp_instances (mem s));
               ldp_adjacencies := ldp_adjacencies (mem s) |};
     os := os s; log := log s |}.

Definition set_ldp_adjacencies (f : list ldp_adjacency -> list ldp_adjacency) (s : state) : state :=
  {| g_ctx := g_ctx s;
     mem := {| calloc_left := calloc_left (mem s);
               interfaces := interfaces (mem s);
               network_interfaces := network_interfaces (mem s);
               ldp_instances := ldp_instances (mem s);
               ldp_adjacencies := f (ldp_adjacencies (mem s)) |};
     os := os s; log := log s |}.

Definition set_os_files (f : gmap string string -> gmap string string) (s : state) : state :=
  {| g_ctx := g_ctx s; mem := mem s;
     os := {| os_pid := os_pid (os s);
              os_files := f (os_files (os s));
              os_fopen_w := os_fopen_w (os s);
              os_stat := os_stat (os s);
              os_siocgifhwaddr := os_siocgifhwaddr (os s);
              os_siocgifindex := os_siocgifindex (os s);
              os_io_open := os_io_open (os s);
              os_remove := os_remove (os s) |};
     log := log s |}.

Definition set_calloc_left (f : nat -> nat) (s : state) : state :=
  {| g_ctx := g_ctx s;
     mem := {| calloc_left := f (calloc_left (mem s));
               interfaces := interfaces (mem s);
               network_interfaces := network_interfaces (mem s);
               ldp_instances := ldp_instances (mem s);
               ldp_adjacencies := ldp_adjacencies (mem s) |};
     os := os s; log := log s |}.

Definition set_log (f : list (log_id * log_msg) -> list (log_id * log_msg)) (s : state) : state :=
  {| g_ctx := g_ctx s; mem := mem s; os := os s; log := f (log s) |}.

(** ** The monad of C functions *)

(** A C function is a state transformer; [None] is undefined behaviour. *)
Definition M (A : Type) : Type := state -> option (A * state).

Definition ret {A} (a : A) : M A := fun s => Some (a, s).

Definition bind {A B} (m : M A) (k : A -> M B) : M B :=
  fun s => match m s with
           | Some (a, s') => k a s'
           | None => None
           end.

Definition gets {A} (f : state -> A) : M A := fun s => Some (f s, s).

Definition modify (f : state -> state) : M unit := fun s => Some (tt, f s).

Definition undefined {A} : M A := fun _ => None.

Notation "'let*' x ':=' m 'in' k" := (bind m (fun x => k))
  (at level 10, x name, m at level 100, k at level 200).
Notation "m ;; k" := (bind m (fun _ => k))
  (at level 100, k at level 200, right associativity).

(** The macro [LOG]: the invocation is recorded at the end of the trace. *)
Definition LOG (id : log_id) (msg : log_msg) : M unit :=
  modify (set_log (fun l => l ++ [(id, msg)])).

(** Reads and writes through pointers. *)
Definition deref {A} (arena : state -> list A) (p : ptr) : M A :=
  fun s => match arena s !! p with
           | Some a => Some (a, s)
           | None => None
           end.

Definition interface_at (p : ptr) : M bbl_interface :=
  deref (fun s => interfaces (mem s)) p.

Definition interface_upd (p : ptr) (f : bbl_interface -> bbl_interface) : M unit :=
  let* i := interface_at p in
  modify (set_interfaces (fun l => <[p := f i]> l)).

Definition network_interface_at (p : ptr) : M bbl_network_interface :=
  deref (fun s => network_interfaces (mem s)) p.

Definition network_interface_upd (p : ptr)
    (f : bbl_network_interface -> bbl_network_interface) : M unit :=
  let* i := network_interface_at p in
  modify (set_network_interfaces (fun l => <[p := f i]> l)).

Definition ldp_instance_at (p : ptr) : M ldp_instance :=
  deref (fun s => ldp_instances (mem s)) p.

Definition ldp_instance_upd (p : ptr) (f : ldp_instance -> ldp_instance) : M unit :=
  let* i := ldp_instance_at p in
  modify (set_ldp_instances (fun l => <[p := f i]> l)).

Definition ldp_adjacency_at (p : ptr) : M ldp_adjacency :=
  deref (fun s => ldp_adjacencies (mem s)) p.

Definition ldp_adjacency_upd (p : ptr) (f : ldp_adjacency -> ldp_adjacency) : M unit :=
  let* a := ldp_adjacency_at p in
  modify (set_ldp_adjacencies (fun l => <[p := f a]> l)).

Definition timer_at (p : ptr) : M timer_s :=
  deref (fun s => timer_root (g_ctx s)) p.

(** *** Assignments to the fields of an interface *)

Definition with_if_name (v : string) (i : bbl_interface) : bbl_interface :=
  {| if_name := v; if_pcap_index := if_pcap_index i; if_mac := if_mac i;
     if_ifindex := if_ifindex i; if_config := if_config i;
     if_io_rx_buf := if_io_rx_buf i; if_io_tx_buf := if_io_tx_buf i;
     if_io_mode := if_io_mode i; if_lag := if_lag i; if_rate_job := if_rate_job i |}.

Definition with_if_pcap_index (v : Z) (i : bbl_interface) : bbl_interface :=
  {| if_name := if_name i; if_pcap_index := v; if_mac := if_mac i;
     if_ifindex := if_ifindex i; if_config := if_config i;
     if_io_rx_buf := if_io_rx_buf i; if_io_tx_buf := if_io_tx_buf i;
     if_io_mode := if_io_mode i; if_lag := if_lag i; if_rate_job := if_rate_job i |}.

Definition with_if_mac (v : list Z) (i : bbl_interface) : bbl_interface :=
  {| if_name := if_name i; if_pcap_index := if_pcap_index i; if_mac := v;
     if_ifindex := if_ifindex i; if_config := if_config i;
     if_io_rx_buf := if_io_rx_buf i; if_io_tx_buf := if_io_tx_buf i;
     if_io_mode := if_io_mode i; if_lag := if_lag i; if_rate_job := if_rate_job i |}.

Definition with_if_ifindex (v : Z) (i : bbl_interface) : bbl_interface :=
  {| if_name := if_name i; if_pcap_index := if_pcap_index i; if_mac := if_mac i;
     if_ifindex := v; if_config := if_config i;
     if_io_rx_buf := if_io_rx_buf i; if_io_tx_buf := if_io_tx_buf i;
     if_io_mode := if_io_mode i; if_lag := if_lag i; if_rate_job := if_rate_job i |}.

Definition with_if_config (v : option bbl_link_config) (i : bbl_interface) : bbl_interface :=
  {| if_name := if_name i; if_pcap_index := if_pcap_index i; if_mac := if_mac i;
     if_ifindex := if_ifindex i; if_config := v;
     if_io_rx_buf := if_io_rx_buf i; if_io_tx_buf := if_io_tx_buf i;
     if_io_mode := if_io_mode i; if_lag := if_lag i; if_rate_job := if_rate_job i |}.

Definition with_if_io_rx_buf (v : option Z) (i : bbl_interface) : bbl_interface :=
  {| if_name := if_name i; if_pcap_index := if_pcap_index i; if_mac := if_mac i;
     if_ifindex := if_ifindex i; if_config := if_config i;
     if_io_rx_buf := v; if_io_tx_buf := if_io_tx_buf i;
     if_io_mode := if_io_mode i; if_lag := if_lag i; if_rate_job := if_rate_job i |}.

Definition with_if_io_tx_buf (v : option Z) (i : bbl_interface) : bbl_interface :=
  {| if_name := if_name i; if_pcap_index := if_pcap_index i; if_mac := if_mac i;
     if_ifindex := if_ifindex i; if_config := if_config i;
     if_io_rx_buf := if_io_rx_buf i; if_io_tx_buf := v;
     if_io_mode := if_io_mode i; if_lag := if_lag i; if_rate_job := if_rate_job i |}.

Definition with_if_io_mode (v : Z) (i : bbl_interface) : bbl_interface :=
  {| if_name := if_name i; if_pcap_index := if_pcap_index i; if_mac := if_mac i;
     if_ifindex := if_ifindex i; if_config := if_config i;
     if_io_rx_buf := if_io_rx_buf i; if_io_tx_buf := if_io_tx_buf i;
     if_io_mode := v; if_lag := if_lag i; if_rate_job := if_rate_job i |}.

Definition with_if_lag (v : option Z) (i : bbl_interface) : bbl_interface :=
  {| if_name := if_name i; if_pcap_index := if_pcap_index i; if_mac := if_mac i;
     if_ifindex := if_ifindex i; if_config := if_config i;
     if_io_rx_buf := if_io_rx_buf i; if_io_tx_buf := if_io_tx_buf i;
     if_io_mode := if_io_mode i; if_lag := v; if_rate_job := if_rate_job i |}.

Definition with_if_rate_job (v : option ptr) (i : bbl_interface) : bbl_interface :=
  {| if_name := if_name i; if_pcap_index := if_pcap_index i; if_mac := if_mac i;
     if_ifindex := if_ifindex i; if_config := if_config i;
     if_io_rx_buf := if_io_rx_buf i; if_io_tx_buf := if_io_tx_buf i;
     if_io_mode := if_io_mode i; if_lag := if_lag i; if_rate_job := v |}.

(** ** bbl_interface.c *)

Section bbl_interface_c.
Context `{defs : bbl_defs}.

(** Modelled from the spec: [timer_add_periodic] of the timer engine, which
    is not part of the two files.  "schedule(kind: one-shot|periodic,
    interval, user_data, callback)": a periodic record is added to the timer
    root and its handle is stored through [ptimer]. *)
Definition timer_add_periodic (ptimer : ptr -> M unit) (name : string)
    (sec nsec : Z) (data : ptr) (cb : timer_cb) : M unit :=
  let* t := gets (fun s => length (timer_root (g_ctx s))) in
  modify (set_timer_root (fun l => l ++
    [{| timer_name := name; timer_sec := sec; timer_nsec := nsec;
        timer_periodic := true; timer_data := data; timer_cb_fn := cb |}])) ;;
  ptimer t.

(** Modelled from the spec: [bbl_lag_interface_add] of the link-aggregation
    manager, which is not part of the two files.  "an interface registration
    that references a non-existent or not-yet-created group fails"; otherwise
    the interface records its group. *)
Definition bbl_lag_interface_add (interface : ptr) (link_config : bbl_link_config) : M bool :=
  match lc_lag link_config with
  | None => ret true
  | Some group =>
      let* groups := gets (fun s => lag_groups (g_ctx s)) in
      if existsb (Z.eqb group) groups
      then interface_upd interface (with_if_lag (Some group)) ;; ret true
      else ret false
  end.

(** Modelled from the spec: [bbl_io_add_interface] of the I/O backends, which
    is not part of the two files.  "initialize(interface) -> ok|Error": the
    outcome is the operating system's answer for the name and the mode of
    the interface. *)
Definition bbl_io_add_interface (interface : ptr) : M bool :=
  let* i := interface_at interface in
  gets (fun s => os_io_open (os s) (if_name i) (if_io_mode i)).

(** The text that [snprintf] stores in [lock_path]. *)
Definition lock_path_of (interface_name : string) : string :=
  snprintf FILE_PATH_LEN ("/run/lock/bngblaster_" ++ interface_name ++ ".lock").

(** The text that [snprintf] stores in [proc_pid_path]. *)
Definition proc_pid_path_of (lock_pid : Z) : string :=
  snprintf FILE_PATH_LEN ("/proc/" ++ sprintf_d lock_pid).

(** [stat(path, &sts) == -1 && errno == ENOENT] *)
Definition stat_is_enoent (r : sysret unit) : bool :=
  match r with
  | SysErr errno => errno =? ENOENT
  | SysOk _ => false
  end.

(** [bbl_interface_lock].  The first part, on an existing lock file, yields
    [false] where the C function returns false from inside the block. *)
Definition bbl_interface_lock (interface_name : string) : M bool :=
  let* pid := gets (fun s => os_pid (os s)) in
  let lock_path := lock_path_of interface_name in
  let* lock_file := gets (fun s => os_files (os s) !! lock_path) in
  let* force := gets (fun s => interface_lock_force (g_ctx s)) in
  let invalid :=
    LOG ERROR (Invalid_interface_lock_file lock_path) ;;
    ret force in
  let* go_on :=
    match lock_file with
    | Some content =>
        (* lock file exists *)
        match fscanf_d content with
        | Some lock_pid =>
            if 1 <? lock_pid then
              let proc_pid_path := proc_pid_path_of lock_pid in
              let* sts := gets (fun s => os_stat (os s) proc_pid_path) in
              if negb (stat_is_enoent sts) then
                LOG ERROR (Interface_in_use interface_name lock_pid lock_path) ;;
                ret force
              else ret true
            else invalid
        | None => invalid
        end
    | None => ret true
    end in
  if negb go_on then ret false
  else
    (* create lock file *)
    let lock_pid := pid in
    let* opened := gets (fun s => os_fopen_w (os s) lock_path) in
    match opened with
    | SysErr errno =>
        LOG ERROR (Failed_to_open_interface_lock_file lock_path errno) ;;
        ret false
    | SysOk _ =>
        (* fopen truncates, fprintf writes, fclose flushes *)
        modify (set_os_files (fun files => <[lock_path := sprintf_d lock_pid]> files)) ;;
        ret true
    end.

(** [remove(path)], whose result the caller does not look at: the file is
    gone when the call succeeds and stays when it fails. *)
Definition remove (path : string) : M unit :=
  let* removed := gets (fun s => os_remove (os s) path) in
  match removed with
  | SysOk _ => modify (set_os_files (fun files => delete path files))
  | SysErr _ => ret tt
  end.

(** [bbl_interface_unlock_all]: [CIRCLEQ_FOREACH] over the registry. *)
Fixpoint unlock_each (q : list ptr) : M unit :=
  match q with
  | [] => ret tt
  | interface :: rest =>
      let* i := interface_at interface in
      remove (lock_path_of (if_name i)) ;;
      unlock_each rest
  end.

Definition bbl_interface_unlock_all : M unit :=
  let* q := gets (fun s => interface_qhead (g_ctx s)) in
  unlock_each q.

(** [bbl_interface_set_kernel_info] *)
Definition bbl_interface_set_kernel_info (interface : ptr) : M bool :=
  let* i := interface_at interface in
  if if_io_mode i =? IO_MODE_DPDK then
    (* This will not work for DPDK bound interfaces. *)
    ret true
  else
    let ifr_name := snprintf IFNAMSIZ (if_name i) in
    let* hw := gets (fun s => os_siocgifhwaddr (os s) ifr_name) in
    match hw with
    | SysErr errno =>
        LOG ERROR (Getting_MAC_address_error errno (if_name i)) ;;
        ret false
    | SysOk sa_data =>
        interface_upd interface (with_if_mac (take IFHWADDRLEN sa_data)) ;;
        let* idx := gets (fun s => os_siocgifindex (os s) ifr_name) in
        match idx with
        | SysErr errno =>
            LOG ERROR (Get_interface_index_error errno (if_name i)) ;;
            ret false
        | SysOk ifr_ifindex =>
            interface_upd interface (with_if_ifindex ifr_ifindex) ;;
            ret true
        end
    end.

(** [calloc(1, sizeof(bbl_interface_s))]: a fresh zeroed record at the end of
    the arena, or the null pointer when memory is exhausted. *)
Definition calloc_interface : M (option ptr) :=
  let* left := gets (fun s => calloc_left (mem s)) in
  match left with
  | O => ret None
  | S n =>
      let* p := gets (fun s => length (interfaces (mem s))) in
      modify (set_calloc_left (fun _ => n)) ;;
      modify (set_interfaces (fun l => l ++ [bbl_interface_zero])) ;;
      ret (Some p)
  end.

(** [bbl_interface_add].  The result is the interface, or [None] for NULL. *)
Definition bbl_interface_add (interface_name : string) (link_config : bbl_link_config)
    : M (option ptr) :=
  let* allocated := calloc_interface in
  match allocated with
  | None =>
      LOG ERROR (No_memory_for_interface interface_name) ;;
      ret None
  | Some interface =>
      interface_upd interface (with_if_name interface_name) ;;
      let* index := gets (fun s => pcap_index (g_ctx s)) in
      modify (set_pcap_index (fun n => wrap32 (n + 1))) ;;
      interface_upd interface (with_if_pcap_index index) ;;
      let* locked := bbl_interface_lock interface_name in
      if negb locked then ret None
      else
        modify (set_interface_qhead (fun q => q ++ [interface])) ;;
        let* bound := bbl_interface_set_kernel_info interface in
        if negb bound then ret None
        else
          interface_upd interface (with_if_config (Some link_config)) ;;
          interface_upd interface (with_if_io_rx_buf (Some IO_BUFFER_LEN)) ;;
          interface_upd interface (with_if_io_tx_buf (Some IO_BUFFER_LEN)) ;;
          interface_upd interface (with_if_io_mode (lc_io_mode link_config)) ;;
          (if negb (Z.land (load_le (lc_mac link_config ++ lc_mac_next link_config))
                           0xffffffffffff00 =? 0)
           then interface_upd interface (with_if_mac (take ETH_ADDR_LEN (lc_mac link_config)))
           else ret tt) ;;
          let* lag := bbl_lag_interface_add interface link_config in
          if negb lag then ret None
          else
            let* io := bbl_io_add_interface interface in
            if negb io then ret None
            else
              (* Timer to compute periodic rates. *)
              timer_add_periodic
                (fun t => interface_upd interface (with_if_rate_job (Some t)))
                "Rate Computation" 1 0 interface bbl_interface_rate_job_cb ;;
              ret (Some interface)
  end.

(** [bbl_interface_get]: [CIRCLEQ_FOREACH] with [strcmp]. *)
Fixpoint interface_find (interface_name : string) (q : list ptr) : M (option ptr) :=
  match q with
  | [] => ret None
  | interface :: rest =>
      let* i := interface_at interface in
      if String.eqb (if_name i) interface_name then ret (Some interface)
      else interface_find interface_name rest
  end.

Definition bbl_interface_get (interface_name : string) : M (option ptr) :=
  let* q := gets (fun s => interface_qhead (g_ctx s)) in
  interface_find interface_name q.

(** The static function [bbl_interface_init] (lines 198-218): the loop over
    the chain of link configurations, [links_add] being the loop from a
    given element of the chain.  The second function of that name (lines
    229-250) runs this loop between [bbl_lag_add] and the functions that add
    the access, network and a10nsp interfaces, none of which is part of the
    two files; it is not embedded. *)
Fixpoint links_add (chain : list bbl_link_config) : M bool :=
  match chain with
  | [] => ret true
  | link_config :: next =>
      let* found := bbl_interface_get (lc_interface link_config) in
      match found with
      | Some _ =>
          LOG ERROR (Failed_to_add_link_duplicate (lc_interface link_config)) ;;
          ret false
      | None =>
          let* interface := bbl_interface_add (lc_interface link_config) link_config in
          match interface with
          | None =>
              LOG ERROR (Failed_to_add_link (lc_interface link_config)) ;;
              ret false
          | Some _ => links_add next
          end
      end
  end.

Definition bbl_interface_init : M bool :=
  let* chain := gets (fun s => link_config (g_ctx s)) in
  links_add chain.

End bbl_interface_c.

(** ** ldp/ldp_interface.c *)

Definition with_nif_send_requests (v : Z) (i : bbl_network_interface) : bbl_network_interface :=
  {| nif_name := nif_name i; nif_send_requests := v;
     nif_ldp_adjacency := nif_ldp_adjacency i |}.

Definition with_nif_ldp_adjacency (v : option ptr) (i : bbl_network_interface)
    : bbl_network_interface :=
  {| nif_name := nif_name i; nif_send_requests := nif_send_requests i;
     nif_ldp_adjacency := v |}.

Definition with_inst_adjacencies (v : option ptr) (i : ldp_instance) : ldp_instance :=
  {| inst_config := inst_config i; inst_adjacencies := v |}.

Definition with_adj_next (v : option ptr) (a : ldp_adjacency) : ldp_adjacency :=
  {| adj_next := v; adj_instance := adj_instance a; adj_interface := adj_interface a;
     adj_hello_timer := adj_hello_timer a; adj_state := adj_state a |}.

Definition with_adj_instance (v : option ptr) (a : ldp_adjacency) : ldp_adjacency :=
  {| adj_next := adj_next a; adj_instance := v; adj_interface := adj_interface a;
     adj_hello_timer := adj_hello_timer a; adj_state := adj_state a |}.

Definition with_adj_interface (v : option ptr) (a : ldp_adjacency) : ldp_adjacency :=
  {| adj_next := adj_next a; adj_instance := adj_instance a; adj_interface := v;
     adj_hello_timer := adj_hello_timer a; adj_state := adj_state a |}.

Definition with_adj_hello_timer (v : option ptr) (a : ldp_adjacency) : ldp_adjacency :=
  {| adj_next := adj_next a; adj_instance := adj_instance a;
     adj_interface := adj_interface a; adj_hello_timer := v; adj_state := adj_state a |}.

Definition with_adj_state (v : ldp_adjacency_state) (a : ldp_adjacency) : ldp_adjacency :=
  {| adj_next := adj_next a; adj_instance := adj_instance a;
     adj_interface := adj_interface a; adj_hello_timer := adj_hello_timer a;
     adj_state := v |}.

Section ldp_interface_c.
Context `{defs : bbl_defs}.

(** [ldp_interface_hello_job]: [timer->data] is the adjacency, whose
    interface gets the bit in its send mask. *)
Definition ldp_interface_hello_job (timer : ptr) : M unit :=
  let* t := timer_at timer in
  let adjacency := timer_data t in
  let* a := ldp_adjacency_at adjacency in
  match adj_interface a with
  | None => undefined
  | Some interface =>
      network_interface_upd interface
        (fun i => with_nif_send_requests
                    (wrap32 (Z.lor (nif_send_requests i) BBL_IF_SEND_LDP_HELLO)) i)
  end.

(** Modelled from the spec: [ldp_hello_start], which is not part of the two
    files.  "arms a periodic Hello timer scoped to that adjacency", "Hello
    timer armed at the instance's configured interval", whose firing is
    [ldp_interface_hello_job]; and "DOWN -> HELLO_ACTIVE on adjacency
    creation (Hello timer armed immediately)". *)
Definition ldp_hello_start (config : ldp_config) (adjacency : ptr) : M unit :=
  timer_add_periodic
    (fun t => ldp_adjacency_upd adjacency (with_adj_hello_timer (Some t)))
    "LDP hello" (ldp_hello_interval config) 0 adjacency ldp_interface_hello_job_cb ;;
  ldp_adjacency_upd adjacency (with_adj_state HELLO_ACTIVE).

(** [calloc(1, sizeof(ldp_adjacency_s))]: a fresh zeroed record at the end
    of the arena, or the null pointer when memory is exhausted. *)
Definition calloc_adjacency : M (option ptr) :=
  let* left := gets (fun s => calloc_left (mem s)) in
  match left with
  | O => ret None
  | S n =>
      let* p := gets (fun s => length (ldp_adjacencies (mem s))) in
      modify (set_calloc_left (fun _ => n)) ;;
      modify (set_ldp_adjacencies (fun l => l ++ [ldp_adjacency_zero])) ;;
      ret (Some p)
  end.

(** [ldp_interface_init].  The result of [calloc] is used unchecked: on
    the null pointer the assignment to [adjacency->next] is undefined
    behaviour. *)
Definition ldp_interface_init (interface : ptr) (interface_config : bbl_network_config)
    (instance : ptr) : M bool :=
  let* inst := ldp_instance_at instance in
  let config := inst_config inst in
  let* i := network_interface_at interface in
  LOG LDP (Add_network_interface_to_LDP_instance
             (nif_name i) (nc_ldp_instance_id interface_config)) ;;
  let* allocated := calloc_adjacency in
  match allocated with
  | None => undefined
  | Some adjacency =>
      ldp_adjacency_upd adjacency (with_adj_next (inst_adjacencies inst)) ;;
      ldp_instance_upd instance (with_inst_adjacencies (Some adjacency)) ;;
      ldp_adjacency_upd adjacency (with_adj_instance (Some instance)) ;;
      ldp_adjacency_upd adjacency (with_adj_interface (Some interface)) ;;
      network_interface_upd interface (with_nif_ldp_adjacency (Some adjacency)) ;;
      ldp_hello_start config adjacency ;;
      ret true
  end.

(** The adjacency collection of an instance: the pointers met from [head]
    along [next], at most [fuel] of them. *)
Fixpoint adjacency_chain (fuel : nat) (arena : list ldp_adjacency) (head : option ptr)
    : option (list ptr) :=
  match head with
  | None => Some []
  | Some a =>
      match fuel with
      | O => None
      | S fuel' =>
          match arena !! a with
          | None => None
          | Some adj => cons a <$> adjacency_chain fuel' arena (adj_next adj)
          end
      end
  end.

(** *** The events of the adjacency engine *)

(** Modelled from the spec: the receipt of a valid peer Hello, which is not
    part of the two files.  "HELLO_ACTIVE -> OPERATIONAL on receipt of a
    valid peer Hello". *)
Definition ldp_peer_hello (adjacency : ptr) : M unit :=
  ldp_adjacency_upd adjacency
    (fun a => match adj_state a with
              | HELLO_ACTIVE => with_adj_state OPERATIONAL a
              | _ => a
              end).

(** Modelled from the spec: the expiry of the hold timer, which is not part
    of the two files.  "OPERATIONAL -> HELLO_ACTIVE ... when the hold timer
    expires without a refreshing peer Hello". *)
Definition ldp_hold_expired (adjacency : ptr) : M unit :=
  ldp_adjacency_upd adjacency
    (fun a => match adj_state a with
              | OPERATIONAL => with_adj_state HELLO_ACTIVE a
              | _ => a
              end).

(** [bbl_interface_rate_job] recomputes the rates in [interface->stats],
    which the embedding does not carry: of the job only the dereferences
    remain. *)
Definition bbl_interface_rate_job (timer : ptr) : M unit :=
  let* t := timer_at timer in
  let* _ := interface_at (timer_data t) in
  ret tt.

Inductive event :=
| Attach (interface : ptr) (interface_config : bbl_network_config) (instance : ptr)
| Timer_fired (timer : ptr)
| Peer_hello (adjacency : ptr)
| Hold_expired (adjacency : ptr).

(** One turn of the event loop. *)
Definition step (e : event) : M unit :=
  match e with
  | Attach interface interface_config instance =>
      ldp_interface_init interface interface_config instance ;; ret tt
  | Timer_fired timer =>
      let* t := timer_at timer in
      match timer_cb_fn t with
      | ldp_interface_hello_job_cb => ldp_interface_hello_job timer
      | bbl_interface_rate_job_cb => bbl_interface_rate_job timer
      end
  | Peer_hello adjacency => ldp_peer_hello adjacency
  | Hold_expired adjacency => ldp_hold_expired adjacency
  end.

Fixpoint run (events : list event) : M unit :=
  match events with
  | [] => ret tt
  | e :: rest => step e ;; run rest
  end.

(** [k] firings of the timer, nothing in between. *)
Fixpoint fire (k : nat) (timer : ptr) : M unit :=
  match k with
  | O => ret tt
  | S k' => ldp_interface_hello_job timer ;; fire k' timer
  end.

End ldp_interface_c.

(** ** Notions used in the statements *)

Section notions.
Context `{defs : bbl_defs}.

(** The operating system but for its files. *)
Definition same_os_but_files (o o' : os_state) : Prop :=
  os_pid o' = os_pid o /\ os_fopen_w o' = os_fopen_w o /\ os_stat o' = os_stat o
  /\ os_siocgifhwaddr o' = os_siocgifhwaddr o
  /\ os_siocgifindex o' = os_siocgifindex o /\ os_io_open o' = os_io_open o
  /\ os_remove o' = os_remove o.

(** Both lookups of [bbl_interface_set_kernel_info] succeed for the name. *)
Definition kernel_lookups_ok (o : os_state) (interface_name : string) : bool :=
  match os_siocgifhwaddr o (snprintf IFNAMSIZ interface_name) with
  | SysOk _ =>
      match os_siocgifindex o (snprintf IFNAMSIZ interface_name) with
      | SysOk _ => true
      | SysErr _ => false
      end
  | SysErr _ => false
  end.

(** The log entry of a failed kernel binding of the interface. *)
Definition kernel_binding_error (interface_name : string) (entry : log_id * log_msg)
    : Prop :=
  exists e, entry = (ERROR, Getting_MAC_address_error e interface_name)
            \/ entry = (ERROR, Get_interface_index_error e interface_name).

(** The link has no aggregation group, or its group exists. *)
Definition lag_known (s : state) (link_config : bbl_link_config) : bool :=
  match lc_lag link_config with
  | None => true
  | Some group => existsb (Z.eqb group) (lag_groups (g_ctx s))
  end.

(** The interface behind a registry entry has the given name,
    [strcmp(interface->name, interface_name) == 0]. *)
Definition is_named (interface_name : string) (s : state) (p : ptr) : bool :=
  match interfaces (mem s) !! p with
  | Some i => String.eqb (if_name i) interface_name
  | None => false
  end.

(** The entries of the registry with the given name. *)
Definition entries_named (interface_name : string) (s : state) : list ptr :=
  List.filter (is_named interface_name s) (interface_qhead (g_ctx s)).

(** Every entry of the registry points into the arena. *)
Definition registry_valid (s : state) : Prop :=
  Forall (fun p => (p < length (interfaces (mem s)))%nat) (interface_qhead (g_ctx s)).

(** The process identifier that a lock file records, if any:
    [fscanf(lock_file, "%d", &lock_pid) == 1 && lock_pid > 1]. *)
Definition recorded_pid (content : string) : option Z :=
  match fscanf_d content with
  | Some lock_pid => if 1 <? lock_pid then Some lock_pid else None
  | None => None
  end.

(** The process is in the process table:
    [!(stat(proc_pid_path, &sts) == -1 && errno == ENOENT)]. *)
Definition process_alive (o : os_state) (pid : Z) : bool :=
  negb (stat_is_enoent (os_stat o (proc_pid_path_of pid))).

(** The state after [bbl_interface_lock] has written the lock file. *)
Definition lock_written (interface_name : string) (s : state) : state :=
  set_os_files
    (fun files => <[lock_path_of interface_name := sprintf_d (os_pid (os s))]> files) s.

(** The state after one more [LOG]. *)
Definition logged (id : log_id) (msg : log_msg) (s : state) : state :=
  set_log (fun l => l ++ [(id, msg)]) s.

(** The interface whose send mask has got the hello bit. *)
Definition hello_requested (ni : bbl_network_interface) : bbl_network_interface :=
  with_nif_send_requests (wrap32 (Z.lor (nif_send_requests ni) BBL_IF_SEND_LDP_HELLO)) ni.

(** The adjacency that [ldp_interface_init] leaves in the arena, and the
    timer record of its hello timer. *)
Definition attached_adjacency (s : state) (interface instance : ptr) (inst : ldp_instance)
    : ldp_adjacency :=
  {| adj_next := inst_adjacencies inst;
     adj_instance := Some instance;
     adj_interface := Some interface;
     adj_hello_timer := Some (length (timer_root (g_ctx s)));
     adj_state := HELLO_ACTIVE |}.

Definition hello_timer (s : state) (inst : ldp_instance) : timer_s :=
  {| timer_name := "LDP hello";
     timer_sec := ldp_hello_interval (inst_config inst);
     timer_nsec := 0;
     timer_periodic := true;
     timer_data := length (ldp_adjacencies (mem s));
     timer_cb_fn := ldp_interface_hello_job_cb |}.

(** The state of the adjacency behind a pointer. *)
Definition adjacency_state_at (s : state) (a : ptr) : option ldp_adjacency_state :=
  adj_state <$> ldp_adjacencies (mem s) !! a.

End notions.

(** ** Example values *)

(** Values of the header constants for the examples. *)
Definition example_defs : bbl_defs :=
  {| FILE_PATH_LEN := 128; IO_BUFFER_LEN := 2048; IO_MODE_DPDK := 3;
     BBL_IF_SEND_LDP_HELLO := 1024 |}.

(** A machine with the interface eth0 and the processes 1 and 1234; this
    process is 4711. *)
Definition example_os (files : gmap string string) (fopen_w : string -> sysret unit)
    : os_state :=
  {| os_pid := 4711;
     os_files := files;
     os_fopen_w := fopen_w;
     os_stat := fun path =>
       if String.eqb path "/proc/1234" || String.eqb path "/proc/1"
       then SysOk tt else SysErr ENOENT;
     os_siocgifhwaddr := fun name =>
       if String.eqb name "eth0" then SysOk [2; 0; 0; 0; 0; 1; 0; 0; 0; 0; 0; 0; 0; 0]
       else SysErr 19;
     os_siocgifindex := fun name =>
       if String.eqb name "eth0" then SysOk 2 else SysErr 19;
     os_io_open := fun _ _ => true;
     os_remove := fun _ => SysOk tt |}.

Definition example_link (name : string) (mode : Z) : bbl_link_config :=
  {| lc_interface := name; lc_io_mode := mode; lc_mac := [0; 0; 0; 0; 0; 0];
     lc_mac_next := [0; 0]; lc_lag := None |}.

(** The state at startup: nothing registered yet. *)
Definition example_state (force : bool) (o : os_state) : state :=
  {| g_ctx := {| interface_qhead := []; pcap_index := 0;
                 interface_lock_force := force;
                 link_config := [example_link "eth0" 0];
                 lag_groups := []; timer_root := [] |};
     mem := {| calloc_left := 4; interfaces := []; network_interfaces := [];
               ldp_instances := []; ldp_adjacencies := [] |};
     os := o;
     log := [] |}.

(** The lock file of eth0 with the given content. *)
Definition eth0_lock_file (content : string) : gmap string string :=
  {[ "/run/lock/bngblaster_eth0.lock"%string := content ]}.

Definition writable : string -> sysret unit := fun _ => SysOk tt.
Definition read_only : string -> sysret unit := fun _ => SysErr 13.

(** A network interface eth0 and an LDP instance with a hello interval of
    five seconds, before and after the instance is attached to eth0. *)
Definition example_network_interface : bbl_network_interface :=
  {| nif_name := "eth0"; nif_send_requests := 0; nif_ldp_adjacency := None |}.

Definition example_ldp_instance : ldp_instance :=
  {| inst_config := {| ldp_hello_interval := 5 |}; inst_adjacencies := None |}.

Definition example_network_config : bbl_network_config :=
  {| nc_ldp_instance_id := 1 |}.

Definition example_ldp_state : state :=
  {| g_ctx := g_ctx (example_state false (example_os empty writable));
     mem := {| calloc_left := 4; interfaces := [];
               network_interfaces := [example_network_interface];
               ldp_instances := [example_ldp_instance];
               ldp_adjacencies := [] |};
     os := example_os empty writable;
     log := [] |}.

Definition example_attached : state :=
  match ldp_interface_init 0 example_network_config 0
          example_ldp_state with
  | Some (_, s) => s
  | None => example_ldp_state
  end.

(** The number that [scan_digits] reads from the digits of a decimal
    numeral, after [acc]. *)
Fixpoint uint_value (acc : Z) (d : Decimal.uint) : Z :=
  match d with
  | Decimal.Nil => acc
  | Decimal.D0 l => uint_value (10 * acc + 0) l
  | Decimal.D1 l => uint_value (10 * acc + 1) l
  | Decimal.D2 l => uint_value (10 * acc + 2) l
  | Decimal.D3 l => uint_value (10 * acc + 3) l
  | Decimal.D4 l => uint_value (10 * acc + 4) l
  | Decimal.D5 l => uint_value (10 * acc + 5) l
  | Decimal.D6 l => uint_value (10 * acc + 6) l
  | Decimal.D7 l => uint_value (10 * acc + 7) l
  | Decimal.D8 l => uint_value (10 * acc + 8) l
  | Decimal.D9 l => uint_value (10 * acc + 9) l
  end.

(** ** Notions used in the further properties *)

Section further_notions.
Context `{defs : bbl_defs}.

(** What every run of [bbl_interface_add] that got its record from [calloc]
    leaves behind, whatever it returns: one more record in the arena, with
    the name and the packet-capture index, one packet-capture index used
    up; the configuration and the LDP heap are as before. *)
Definition registration_attempted (interface_name : string) (s s1 : state)
    (i' : bbl_interface) : Prop :=
  calloc_left (mem s) = S (calloc_left (mem s1))
  /\ pcap_index (g_ctx s1) = wrap32 (pcap_index (g_ctx s) + 1)
  /\ same_os_but_files (os s) (os s1)
  /\ interface_lock_force (g_ctx s1) = interface_lock_force (g_ctx s)
  /\ link_config (g_ctx s1) = link_config (g_ctx s)
  /\ lag_groups (g_ctx s1) = lag_groups (g_ctx s)
  /\ network_interfaces (mem s1) = network_interfaces (mem s)
  /\ ldp_instances (mem s1) = ldp_instances (mem s)
  /\ ldp_adjacencies (mem s1) = ldp_adjacencies (mem s)
  /\ interfaces (mem s1) = interfaces (mem s) ++ [i']
  /\ if_name i' = interface_name
  /\ if_pcap_index i' = pcap_index (g_ctx s).

(** Two records of an interface that differ at most in the hardware address
    and in the index. *)
Definition same_but_kernel_fields (i i' : bbl_interface) : Prop :=
  if_name i' = if_name i /\ if_pcap_index i' = if_pcap_index i
  /\ if_config i' = if_config i /\ if_io_rx_buf i' = if_io_rx_buf i
  /\ if_io_tx_buf i' = if_io_tx_buf i /\ if_io_mode i' = if_io_mode i
  /\ if_lag i' = if_lag i /\ if_rate_job i' = if_rate_job i.

(** The record of the timer that computes the rates of an interface. *)
Definition rate_timer (interface : ptr) : timer_s :=
  {| timer_name := "Rate Computation"; timer_sec := 1; timer_nsec := 0;
     timer_periodic := true; timer_data := interface;
     timer_cb_fn := bbl_interface_rate_job_cb |}.

(** The names behind the registry, head first. *)
Definition registered_names (s : state) : list (option string) :=
  map (fun p => if_name <$> interfaces (mem s) !! p) (interface_qhead (g_ctx s)).

(** Every registered interface holds its lock: its lock file records this
    process. *)
Definition locks_held (s : state) : Prop :=
  forall p i, In p (interface_qhead (g_ctx s)) ->
    interfaces (mem s) !! p = Some i ->
    os_files (os s) !! lock_path_of (if_name i) = Some (sprintf_d (os_pid (os s))).

End further_notions.

(** A later state of process 4711 on the example machine, with the files
    of [s1] and the process itself in the process table. *)
Definition relock_example (s1 : state) : state :=
  {| g_ctx := g_ctx s1; mem := mem s1;
     os := {| os_pid := 4711; os_files := os_files (os s1); os_fopen_w := writable;
              os_stat := fun _ => SysOk tt;
              os_siocgifhwaddr := os_siocgifhwaddr (os s1);
              os_siocgifindex := os_siocgifindex (os s1);
              os_io_open := os_io_open (os s1);
              os_remove := os_remove (os s1) |};
     log := log s1 |}.

(** The startup state when [calloc] can deliver [left] records, the state
    after the registration of eth0 and the state after the release of the
    locks, on a machine [o]. *)
Definition startup_example (left : nat) (o : os_state) : state :=
  set_calloc_left (fun _ => left) (example_state false o).

Definition registered_example (left : nat) (o : os_state) : state :=
  match bbl_interface_add (defs := example_defs) "eth0" (example_link "eth0" 0)
          (startup_example left o) with
  | Some (_, s1) => s1
  | None => startup_example left o
  end.

Definition released_example (left : nat) (o : os_state) : state :=
  match bbl_interface_unlock_all (defs := example_defs) (registered_example left o) with
  | Some (_, s2) => s2
  | None => registered_example left o
  end.

(** The example machine with this process in the process table and with a
    lock directory in which no file can be removed. *)
Definition sticky_os : os_state :=
  {| os_pid := 4711; os_files := empty; os_fopen_w := writable;
     os_stat := fun _ => SysOk tt;
     os_siocgifhwaddr := os_siocgifhwaddr (example_os empty writable);
     os_siocgifindex := os_siocgifindex (example_os empty writable);
     os_io_open := os_io_open (example_os empty writable);
     os_remove := fun _ => SysErr 13 |}.



(** A registry with eth0 and eth1. *)
Definition two_registered : state :=
  set_interface_qhead (fun _ => [0%nat; 1%nat])
    (set_interfaces
       (fun _ => [with_if_name "eth0" bbl_interface_zero;
                  with_if_name "eth1" bbl_interface_zero])
       (example_state false (example_os empty writable))).

Section release_notions.
Context `{defs : bbl_defs}.

(** The lock paths of the interfaces behind the pointers of a list. *)
Definition lock_paths_of (m : heap) (q : list ptr) : list string :=
  omap (fun p => (fun i => lock_path_of (if_name i)) <$> interfaces m !! p) q.

(** The lock paths of the registered interfaces. *)
Definition registered_lock_paths (s : state) : list string :=
  lock_paths_of (mem s) (interface_qhead (g_ctx s)).

(** [remove] succeeds on the path. *)
Definition removable (o : os_state) (path : string) : bool :=
  match os_remove o path with
  | SysOk _ => true
  | SysErr _ => false
  end.

(** The packet-capture indexes follow the registry: the next index is the
    number of registry entries, and the entry at position [k] has index
    [k]. *)
Definition pcap_numbered (s : state) : Prop :=
  pcap_index (g_ctx s) = Z.of_nat (length (interface_qhead (g_ctx s)))
  /\ forall k p i,
       interface_qhead (g_ctx s) !! k = Some p ->
       interfaces (mem s) !! p = Some i ->
       if_pcap_index i = Z.of_nat k.

End release_notions.

(** eth0 and eth1 registered, with their lock files and another file, on a
    machine that refuses to remove the lock file of eth1. *)
Definition two_locked : state :=
  {| g_ctx := g_ctx two_registered;
     mem := mem two_registered;
     os := {| os_pid := 4711;
              os_files :=
                <[lock_path_of (defs := example_defs) "eth0" := "4711"%string]>
                  (<[lock_path_of (defs := example_defs) "eth1" := "4711"%string]>
                     (<["/run/lock/other.lock"%string := "1"%string]> empty));
              os_fopen_w := writable;
              os_stat := os_stat (os two_registered);
              os_siocgifhwaddr := os_siocgifhwaddr (os two_registered);
              os_siocgifindex := os_siocgifindex (os two_registered);
              os_io_open := os_io_open (os two_registered);
              os_remove := fun path =>
                if String.eqb path "/run/lock/bngblaster_eth1.lock"
                then SysErr 13 else SysOk tt |};
     log := log two_registered |}.

(** ** Notions of the LDP references *)

(** The interface that the firing of a hello timer addresses,
    [timer->data->interface], when every pointer on the way points into its
    arena. *)
Definition hello_target (timer : ptr) (s : state) : option ptr :=
  match timer_root (g_ctx s) !! timer with
  | None => None
  | Some t =>
      match ldp_adjacencies (mem s) !! timer_data t with
      | None => None
      | Some a =>
          match adj_interface a with
          | None => None
          | Some interface =>
              if (interface <? length (network_interfaces (mem s)))%nat
              then Some interface else None
          end
      end
  end.

(** Every armed timer can fire: the adjacency of a hello timer is in the
    arena and has its interface, which is in the arena; the interface of a
    rate timer is in the arena. *)
Definition timers_wf (s : state) : Prop :=
  forall k t,
    timer_root (g_ctx s) !! k = Some t ->
    match timer_cb_fn t with
    | ldp_interface_hello_job_cb =>
        exists a interface,
          ldp_adjacencies (mem s) !! timer_data t = Some a
          /\ adj_interface a = Some interface
          /\ (interface < length (network_interfaces (mem s)))%nat
    | bbl_interface_rate_job_cb =>
        (timer_data t < length (interfaces (mem s)))%nat
    end.

(** The number of adjacencies, and of timers, that an event creates. *)
Definition created (e : event) : nat :=
  match e with
  | Attach _ _ _ => 1
  | _ => 0
  end.

(** The pointers of an event are in range, for arenas of the given sizes,
    and [calloc], which can still deliver [left] records, has memory for
    the adjacency of an attachment. *)
Definition event_in_range (nifs insts adjs timers left : nat) (e : event) : bool :=
  match e with
  | Attach interface _ instance =>
      (interface <? nifs)%nat && (instance <? insts)%nat && (0 <? left)%nat
  | Timer_fired timer => (timer <? timers)%nat
  | Peer_hello adjacency => (adjacency <? adjs)%nat
  | Hold_expired adjacency => (adjacency <? adjs)%nat
  end.

(** The pointers of every event of a run are in range when the event
    occurs, and every attachment finds memory; an attachment adds one
    adjacency and one timer, and uses up one record of [calloc]. *)
Fixpoint events_in_range (nifs insts adjs timers left : nat) (events : list event)
    : bool :=
  match events with
  | [] => true
  | e :: rest =>
      event_in_range nifs insts adjs timers left e
      && events_in_range nifs insts (created e + adjs) (created e + timers)
           (left - created e) rest
  end.

(** The references of the LDP objects agree: the adjacency of a network
    interface refers back to the interface, and the adjacency collection of
    an instance is a chain through the arena that ends, whose members refer
    back to the instance. *)
Definition ldp_consistent (s : state) : Prop :=
  (forall n ni a,
      network_interfaces (mem s) !! n = Some ni ->
      nif_ldp_adjacency ni = Some a ->
      exists adj, ldp_adjacencies (mem s) !! a = Some adj /\ adj_interface adj = Some n)
  /\ (forall k inst,
        ldp_instances (mem s) !! k = Some inst ->
        exists l,
          adjacency_chain (length (ldp_adjacencies (mem s))) (ldp_adjacencies (mem s))
            (inst_adjacencies inst) = Some l
          /\ forall a, In a l ->
               exists adj, ldp_adjacencies (mem s) !! a = Some adj
                           /\ adj_instance adj = Some k).

Section hello_notions.
Context `{defs : bbl_defs}.

(** The state in which the interface has got the hello bit in its send
    mask. *)
Definition request_hello (interface : ptr) (s : state) : state :=
  set_network_interfaces (fun l => alter hello_requested interface l) s.

End hello_notions.

(** A link configuration of eth0 whose hardware address 02:00:00:00:00:00
    has its first byte set only. *)
Definition first_byte_link : bbl_link_config :=
  {| lc_interface := "eth0"; lc_io_mode := 0; lc_mac := [2; 0; 0; 0; 0; 0];
     lc_mac_next := [0; 0]; lc_lag := None |}.

(** * Properties *)

(** ** The C library on concrete texts *)

Example fscanf_d_pid : fscanf_d "4711" = Some 4711.
Proof. reflexivity. Qed.

Example fscanf_d_space_sign : fscanf_d "  -12 rest" = Some (-12).
Proof. reflexivity. Qed.

Example fscanf_d_garbage : fscanf_d "garbage" = None.
Proof. reflexivity. Qed.

Example fscanf_d_empty : fscanf_d "" = None.
Proof. reflexivity. Qed.

Example fscanf_d_overflow : fscanf_d "4294967297" = Some 1.
Proof. reflexivity. Qed.

Example sprintf_d_pid : sprintf_d 4711 = "4711"%string.
Proof. reflexivity. Qed.

Example snprintf_truncates : snprintf 4 "abcdef" = "abc"%string.
Proof. reflexivity. Qed.

Example eth0_lock_path :
  lock_path_of (defs := example_defs) "eth0" = "/run/lock/bngblaster_eth0.lock"%string.
Proof. reflexivity. Qed.

Example eth0_registered :
  (fun r => (fst r, os_files (os (snd r)) !! "/run/lock/bngblaster_eth0.lock"%string,
             interface_qhead (g_ctx (snd r))))
    <$> bbl_interface_add (defs := example_defs) "eth0" (example_link "eth0" 0)
          (example_state false (example_os empty writable))
  = Some (Some 0%nat, Some "4711"%string, [0%nat]).
Proof. vm_compute. reflexivity. Qed.


(** ** Lists as arenas, the monad, the C library *)

Lemma snoc_lookup {A} (l : list A) (x : A) : (l ++ [x]) !! length l = Some x.
Proof. induction l; simpl; auto. Qed.

Lemma snoc_insert {A} (l : list A) (x y : A) : <[length l := y]> (l ++ [x]) = l ++ [y].
Proof. induction l; simpl; f_equal; auto. Qed.

Lemma bind_inv {A B} (m : M A) (k : A -> M B) (s : state) (r : B * state) :
  bind m k s = Some r -> exists a s', m s = Some (a, s') /\ k a s' = Some r.
Proof.
  unfold bind. destruct (m s) as [[a s']|]; [|discriminate].
  intros Hk. exists a, s'. split; [reflexivity | exact Hk].
Qed.



Ltac unfold_monad :=
  unfold interface_upd, network_interface_upd, ldp_instance_upd, ldp_adjacency_upd,
    interface_at, network_interface_at, ldp_instance_at, ldp_adjacency_at,
    timer_at, deref, LOG, gets, modify, ret, undefined, bind.

Ltac unfold_setters :=
  unfold set_log, set_os_files, set_interfaces, set_interface_qhead,
    set_pcap_index, set_timer_root, set_calloc_left, set_network_interfaces,
    set_ldp_instances, set_ldp_adjacencies in *;
  cbn in *.

(** Closes a goal [Some (b, s') = Some (?b, set_log (fun l => l ++ ?msgs) _)]
    once the computation on the left has been run. *)
Ltac close_spec :=
  solve [ (exists true + exists false);
          ((eexists; unfold_setters; rewrite <- ?app_assoc; reflexivity)
           + (exists []; unfold_setters; rewrite ?app_nil_r; reflexivity)) ].

Section lock_properties.
Context `{defs : bbl_defs}.

(** The paths through [bbl_interface_lock], for a state [g], [o] and a name. *)
Ltac lock_cases g o interface_name :=
  unfold bbl_interface_lock, bind, gets, ret, LOG, modify;
  cbn [os g_ctx os_files os_pid];
  destruct (os_files o !! lock_path_of interface_name) as [content0|] eqn:Hfile;
  [ destruct (fscanf_d content0) as [lock_pid0|] eqn:Hscan;
    [ destruct (1 <? lock_pid0) eqn:Hpid;
      [ cbn [os];
        destruct (stat_is_enoent (os_stat o (proc_pid_path_of lock_pid0))) eqn:Hstat;
        cbn | ] | ] | ];
  try (destruct (interface_lock_force g) eqn:Hforce; cbn);
  try (destruct (os_fopen_w o (lock_path_of interface_name)) as [[]|errno0] eqn:Hopen).

(** What [bbl_interface_lock] does to the state: it logs, and when it
    returns true it has written the process identifier into the lock file;
    nothing else changes. *)
Lemma bbl_interface_lock_spec (interface_name : string) (s : state) :
  exists (b : bool) (msgs : list (log_id * log_msg)),
    bbl_interface_lock interface_name s =
      Some (b, set_log (fun l => l ++ msgs)
                 (if b
                  then set_os_files
                         (fun files => <[lock_path_of interface_name :=
                                           sprintf_d (os_pid (os s))]> files) s
                  else s)).
Proof.
  destruct s as [g m o lg]. lock_cases g o interface_name; close_spec.
Qed.

(** The outcome of [bbl_interface_lock] depends on the operating system and
    on the force flag only. *)
Lemma bbl_interface_lock_cong (interface_name : string) (s s' : state) (b : bool)
    (s1 : state) :
  os s = os s' ->
  interface_lock_force (g_ctx s) = interface_lock_force (g_ctx s') ->
  bbl_interface_lock interface_name s = Some (b, s1) ->
  exists s1', bbl_interface_lock interface_name s' = Some (b, s1')
              /\ os s1' = os s1
              /\ (log s' = log s -> log s1' = log s1).
Proof.
  destruct s as [g m o lg], s' as [g' m' o' lg']. cbn [os g_ctx log].
  intros <- Hforce'.
  unfold bbl_interface_lock, bind, gets, ret, LOG, modify.
  cbn [os g_ctx os_files os_pid]. rewrite <- Hforce'.
  lock_cases g o interface_name; intros [= <- <-];
    (eexists; split; [reflexivity|]; split; [reflexivity|]);
    cbn; intros ->; reflexivity.
Qed.

(** [bbl_interface_lock] returns true only after [fopen(lock_path, "w")]
    succeeded. *)
Lemma bbl_interface_lock_true_fopen (interface_name : string) (s s1 : state) :
  bbl_interface_lock interface_name s = Some (true, s1) ->
  os_fopen_w (os s) (lock_path_of interface_name) = SysOk tt.
Proof.
  destruct s as [g m o lg].
  lock_cases g o interface_name; intros [= <-]; reflexivity.
Qed.

(** With [fopen(lock_path, "w")] failing, [bbl_interface_lock] returns false
    and leaves the files as they are. *)
Lemma bbl_interface_lock_fopen_error (interface_name : string) (s : state) (e : Z) :
  os_fopen_w (os s) (lock_path_of interface_name) = SysErr e ->
  exists s1, bbl_interface_lock interface_name s = Some (false, s1)
             /\ os s1 = os s.
Proof.
  destruct s as [g m o lg]. cbn [os]. intros Hw.
  lock_cases g o interface_name; try congruence; eexists; split; reflexivity.
Qed.

Lemma recorded_pid_Some (content : string) (pid : Z) :
  recorded_pid content = Some pid ->
  fscanf_d content = Some pid /\ (1 <? pid) = true.
Proof.
  unfold recorded_pid. destruct (fscanf_d content) as [lock_pid|]; [|discriminate].
  destruct (1 <? lock_pid) eqn:Hpid; [|discriminate].
  intros [= <-]. auto.
Qed.

Lemma recorded_pid_None (content : string) :
  recorded_pid content = None ->
  fscanf_d content = None
  \/ exists lock_pid, fscanf_d content = Some lock_pid /\ (1 <? lock_pid) = false.
Proof.
  unfold recorded_pid. destruct (fscanf_d content) as [lock_pid|]; [|auto].
  destruct (1 <? lock_pid) eqn:Hpid; [discriminate|]. eauto.
Qed.

Ltac run_lock :=
  unfold bbl_interface_lock, bind, gets, ret, LOG, modify;
  cbn [os g_ctx os_files os_pid].

(** No lock file: the lock is taken. *)
Lemma lock_absent (interface_name : string) (s : state) :
  os_files (os s) !! lock_path_of interface_name = None ->
  os_fopen_w (os s) (lock_path_of interface_name) = SysOk tt ->
  bbl_interface_lock interface_name s = Some (true, lock_written interface_name s).
Proof.
  intros Hnone Hw. run_lock. rewrite Hnone. cbn. rewrite Hw. reflexivity.
Qed.

(** The lock file records a process that is gone: the lock is taken, and
    nothing is logged. *)
Lemma lock_dead_holder (interface_name : string) (s : state) (content : string)
    (pid : Z) :
  os_files (os s) !! lock_path_of interface_name = Some content ->
  recorded_pid content = Some pid ->
  process_alive (os s) pid = false ->
  os_fopen_w (os s) (lock_path_of interface_name) = SysOk tt ->
  bbl_interface_lock interface_name s = Some (true, lock_written interface_name s).
Proof.
  intros Hsome [Hscan Hpid]%recorded_pid_Some Halive Hw.
  unfold process_alive in Halive. apply negb_false_iff in Halive.
  run_lock. rewrite Hsome, Hscan, Hpid. cbn. rewrite Halive. cbn.
  rewrite Hw. reflexivity.
Qed.

(** The same lock file when it cannot be opened for writing: the lock is
    refused and the failure of [fopen] is logged. *)
Lemma lock_dead_holder_unwritable (interface_name : string) (s : state)
    (content : string) (pid errno : Z) :
  os_files (os s) !! lock_path_of interface_name = Some content ->
  recorded_pid content = Some pid ->
  process_alive (os s) pid = false ->
  os_fopen_w (os s) (lock_path_of interface_name) = SysErr errno ->
  bbl_interface_lock interface_name s =
    Some (false, logged ERROR
                   (Failed_to_open_interface_lock_file (lock_path_of interface_name) errno)
                   s).
Proof.
  intros Hsome [Hscan Hpid]%recorded_pid_Some Halive Hw.
  unfold process_alive in Halive. apply negb_false_iff in Halive.
  run_lock. rewrite Hsome, Hscan, Hpid. cbn. rewrite Halive. cbn.
  rewrite Hw. reflexivity.
Qed.

(** The lock file records a process that is alive. *)
Lemma lock_live_holder (interface_name : string) (s : state) (content : string)
    (pid : Z) :
  os_files (os s) !! lock_path_of interface_name = Some content ->
  recorded_pid content = Some pid ->
  process_alive (os s) pid = true ->
  let s_log := logged ERROR
                 (Interface_in_use interface_name pid (lock_path_of interface_name)) s in
  bbl_interface_lock interface_name s =
    match interface_lock_force (g_ctx s), os_fopen_w (os s) (lock_path_of interface_name) with
    | false, _ => Some (false, s_log)
    | true, SysOk _ => Some (true, lock_written interface_name s_log)
    | true, SysErr errno =>
        Some (false, logged ERROR
                       (Failed_to_open_interface_lock_file
                          (lock_path_of interface_name) errno) s_log)
    end.
Proof.
  intros Hsome [Hscan Hpid]%recorded_pid_Some Halive.
  unfold process_alive in Halive. apply negb_true_iff in Halive.
  run_lock. rewrite Hsome, Hscan, Hpid. cbn. rewrite Halive. cbn.
  destruct (interface_lock_force (g_ctx s)); cbn; [|reflexivity].
  destruct (os_fopen_w (os s) (lock_path_of interface_name)); reflexivity.
Qed.

(** The lock file records no process. *)
Lemma lock_invalid_file (interface_name : string) (s : state) (content : string) :
  os_files (os s) !! lock_path_of interface_name = Some content ->
  recorded_pid content = None ->
  let s_log := logged ERROR
                 (Invalid_interface_lock_file (lock_path_of interface_name)) s in
  bbl_interface_lock interface_name s =
    match interface_lock_force (g_ctx s), os_fopen_w (os s) (lock_path_of interface_name) with
    | false, _ => Some (false, s_log)
    | true, SysOk _ => Some (true, lock_written interface_name s_log)
    | true, SysErr errno =>
        Some (false, logged ERROR
                       (Failed_to_open_interface_lock_file
                          (lock_path_of interface_name) errno) s_log)
    end.
Proof.
  intros Hsome [Hscan|(lock_pid & Hscan & Hpid)]%recorded_pid_None;
    run_lock; rewrite Hsome, Hscan, ?Hpid; cbn;
    (destruct (interface_lock_force (g_ctx s)); cbn; [|reflexivity]);
    destruct (os_fopen_w (os s) (lock_path_of interface_name)); reflexivity.
Qed.

End lock_properties.

Section kernel_binding_properties.
Context `{defs : bbl_defs}.

Ltac run_kernel_info :=
  unfold bbl_interface_set_kernel_info; unfold_monad.

(** An interface in DPDK mode: nothing is asked of the kernel. *)
Lemma set_kernel_info_dpdk (interface : ptr) (s : state) (i : bbl_interface) :
  interfaces (mem s) !! interface = Some i ->
  if_io_mode i = IO_MODE_DPDK ->
  bbl_interface_set_kernel_info interface s = Some (true, s).
Proof.
  intros Hi Hmode. run_kernel_info. rewrite Hi, Hmode, Z.eqb_refl. reflexivity.
Qed.

(** The lookup of the hardware address fails. *)
Lemma set_kernel_info_hwaddr_error (interface : ptr) (s : state) (i : bbl_interface)
    (e : Z) :
  interfaces (mem s) !! interface = Some i ->
  if_io_mode i <> IO_MODE_DPDK ->
  os_siocgifhwaddr (os s) (snprintf IFNAMSIZ (if_name i)) = SysErr e ->
  bbl_interface_set_kernel_info interface s =
    Some (false, set_log (fun l => l ++ [(ERROR, Getting_MAC_address_error e (if_name i))]) s).
Proof.
  intros Hi Hmode Hhw. run_kernel_info.
  rewrite Hi. apply Z.eqb_neq in Hmode. rewrite Hmode, Hhw. reflexivity.
Qed.

(** The lookup of the interface index fails, after the hardware address has
    been stored. *)
Lemma set_kernel_info_ifindex_error (interface : ptr) (s : state) (i : bbl_interface)
    (sa_data : list Z) (e : Z) :
  interfaces (mem s) !! interface = Some i ->
  if_io_mode i <> IO_MODE_DPDK ->
  os_siocgifhwaddr (os s) (snprintf IFNAMSIZ (if_name i)) = SysOk sa_data ->
  os_siocgifindex (os s) (snprintf IFNAMSIZ (if_name i)) = SysErr e ->
  bbl_interface_set_kernel_info interface s =
    Some (false,
          set_log (fun l => l ++ [(ERROR, Get_interface_index_error e (if_name i))])
            (set_interfaces
               (fun l => <[interface := with_if_mac (take IFHWADDRLEN sa_data) i]> l) s)).
Proof.
  intros Hi Hmode Hhw Hidx. run_kernel_info.
  rewrite Hi. apply Z.eqb_neq in Hmode. rewrite Hmode, Hhw, Hi.
  unfold_setters. rewrite Hidx. reflexivity.
Qed.

(** Both lookups succeed. *)
Lemma set_kernel_info_ok (interface : ptr) (s : state) (i : bbl_interface)
    (sa_data : list Z) (ifr_ifindex : Z) :
  interfaces (mem s) !! interface = Some i ->
  if_io_mode i <> IO_MODE_DPDK ->
  os_siocgifhwaddr (os s) (snprintf IFNAMSIZ (if_name i)) = SysOk sa_data ->
  os_siocgifindex (os s) (snprintf IFNAMSIZ (if_name i)) = SysOk ifr_ifindex ->
  bbl_interface_set_kernel_info interface s =
    Some (true,
          set_interfaces
            (fun l => <[interface := with_if_ifindex ifr_ifindex
                                       (with_if_mac (take IFHWADDRLEN sa_data) i)]> l) s).
Proof.
  intros Hi Hmode Hhw Hidx. run_kernel_info.
  rewrite Hi. apply Z.eqb_neq in Hmode. rewrite Hmode, Hhw, Hi.
  unfold_setters. rewrite Hidx. cbn.
  rewrite list_lookup_insert_eq by (eapply lookup_lt_Some; eassumption).
  unfold_setters. rewrite list_insert_insert_eq. reflexivity.
Qed.

(** In every case the record of the interface is the only part of the heap
    that changes, and its name stays.  Outside the DPDK mode the function
    returns true only when both lookups have succeeded. *)
Lemma set_kernel_info_spec (interface : ptr) (s : state) (i : bbl_interface) :
  interfaces (mem s) !! interface = Some i ->
  exists (b : bool) (msgs : list (log_id * log_msg)) (i' : bbl_interface),
    bbl_interface_set_kernel_info interface s =
      Some (b, set_log (fun l => l ++ msgs)
                 (set_interfaces (fun l => <[interface := i']> l) s))
    /\ if_name i' = if_name i
    /\ (b = true -> if_io_mode i <> IO_MODE_DPDK ->
        kernel_lookups_ok (os s) (if_name i) = true).
Proof.
  destruct s as [g [c ifs nifs insts adjs] o lg]. cbn [mem interfaces]. intros Hi.
  assert (Hlt : (interface < length ifs)%nat) by (eapply lookup_lt_Some; eassumption).
  run_kernel_info. unfold_setters. rewrite Hi. unfold kernel_lookups_ok.
  destruct (if_io_mode i =? IO_MODE_DPDK) eqn:Hmode.
  - exists true, [], i. rewrite list_insert_id by exact Hi. rewrite app_nil_r.
    apply Z.eqb_eq in Hmode. repeat split; auto; congruence.
  - cbn.
    destruct (os_siocgifhwaddr o (snprintf IFNAMSIZ (if_name i))) as [sa_data|e]; cbn.
    + rewrite Hi. cbn.
      destruct (os_siocgifindex o (snprintf IFNAMSIZ (if_name i)))
        as [ifr_ifindex|e]; cbn.
      * rewrite list_lookup_insert_eq by exact Hlt. cbn.
        rewrite list_insert_insert_eq.
        eexists true, [], _. rewrite app_nil_r. repeat split; reflexivity.
      * eexists false, _, _. repeat split; try reflexivity; discriminate.
    + eexists false, _, i. rewrite list_insert_id by exact Hi.
      repeat split; auto; discriminate.
Qed.

End kernel_binding_properties.

Section registration_properties.
Context `{defs : bbl_defs}.

Local Arguments snprintf : simpl never.
Local Arguments sprintf_d : simpl never.
Local Arguments wrap32 : simpl never.
Local Arguments load_le : simpl never.
Local Arguments Z.land : simpl never.
Local Arguments bbl_interface_lock : simpl never.
Local Arguments bbl_interface_set_kernel_info : simpl never.

Ltac exec :=
  repeat first [ rewrite snoc_lookup | rewrite snoc_insert | progress cbn ].

(** Runs [bbl_interface_set_kernel_info] on the record at the end of the
    arena. *)
Ltac exec_kernel_info bound :=
  match goal with
  | |- context [bbl_interface_set_kernel_info (length ?l) ?st] =>
      let Hk := fresh "Hk" in
      let msgs := fresh "msgs" in
      let i' := fresh "i'" in
      destruct (set_kernel_info_spec (length l) st _ (snoc_lookup l _))
        as (bound & msgs & i' & Hk & Hname & Hbound);
      rewrite Hk; clear Hk
  end.

(** A registration that returns the interface has gone through every step
    of [bbl_interface_add]. *)
Lemma bbl_interface_add_success (interface_name : string) (link_config : bbl_link_config)
    (s s1 : state) (p : ptr) :
  bbl_interface_add interface_name link_config s = Some (Some p, s1) ->
  p = length (interfaces (mem s))
  /\ interface_qhead (g_ctx s1) = interface_qhead (g_ctx s) ++ [p]
  /\ os_files (os s1) =
       <[lock_path_of interface_name := sprintf_d (os_pid (os s))]> (os_files (os s))
  /\ os_fopen_w (os s) (lock_path_of interface_name) = SysOk tt
  /\ same_os_but_files (os s) (os s1)
  /\ interface_lock_force (g_ctx s1) = interface_lock_force (g_ctx s)
  /\ (IO_MODE_DPDK <> 0 -> kernel_lookups_ok (os s) interface_name = true)
  /\ exists i', interfaces (mem s1) = interfaces (mem s) ++ [i']
                /\ if_name i' = interface_name.
Proof.
  unfold bbl_interface_add, calloc_interface.
  destruct s as [[q pi force lcs lags timers] [left ifs nifs insts adjs] o lg].
  unfold_monad. cbn.
  destruct left as [|n]; [discriminate|].
  unfold_setters. exec.
  match goal with
  | |- context [bbl_interface_lock ?n ?st] =>
      destruct (bbl_interface_lock n st) as [[locked s_lock]|] eqn:Hlock;
      [ destruct (bbl_interface_lock_spec n st) as (locked' & msgs & Hspec);
        rewrite Hspec in Hlock; injection Hlock as <- <-
      | discriminate ]
  end.
  destruct locked'; [|discriminate].
  apply bbl_interface_lock_true_fopen in Hspec. cbn in Hspec.
  unfold_setters. exec.
  exec_kernel_info bound.
  destruct bound; [|discriminate].
  assert (Hkernel : IO_MODE_DPDK <> 0 -> kernel_lookups_ok o interface_name = true)
    by (intros Hdpdk; apply (Hbound eq_refl); cbn; congruence).
  clear Hbound. unfold_setters. exec.
  destruct (negb _); exec;
    (unfold bbl_lag_interface_add, bbl_io_add_interface, timer_add_periodic;
     unfold_monad; unfold_setters; exec;
     destruct (lc_lag link_config) as [group|]; exec;
     [destruct (existsb _ lags); exec; [|discriminate] |];
     (destruct (os_io_open o _ _); exec; [|discriminate]);
     intros [= <- <-]; cbn;
     repeat split; try reflexivity; try assumption;
     eexists; (split; [reflexivity | exact Hname])).
Qed.

(** A registration whose lock succeeds and whose kernel binding fails:
    [bbl_interface_add] returns NULL after the interface has been put at the
    tail of the registry and the lock file has been written.  The mode of
    the record is still the zero of [calloc] when the kernel is asked, so
    the mode of the link configuration plays no part. *)
Lemma bbl_interface_add_kernel_failure (interface_name : string)
    (link_config : bbl_link_config) (s s_lock : state) :
  calloc_left (mem s) <> O ->
  bbl_interface_lock interface_name s = Some (true, s_lock) ->
  IO_MODE_DPDK <> 0 ->
  kernel_lookups_ok (os s) interface_name = false ->
  exists s1 i' entry,
    bbl_interface_add interface_name link_config s = Some (None, s1)
    /\ interface_qhead (g_ctx s1) =
         interface_qhead (g_ctx s) ++ [length (interfaces (mem s))]
    /\ os_files (os s1) =
         <[lock_path_of interface_name := sprintf_d (os_pid (os s))]> (os_files (os s))
    /\ interfaces (mem s1) = interfaces (mem s) ++ [i']
    /\ if_name i' = interface_name
    /\ log s1 = log s_lock ++ [entry]
    /\ kernel_binding_error interface_name entry.
Proof.
  intros Hleft Hlock Hdpdk Hfail.
  unfold bbl_interface_add, calloc_interface.
  destruct s as [[q pi force lcs lags timers] [left ifs nifs insts adjs] o lg].
  cbn in Hleft, Hfail. unfold_monad. cbn.
  destruct left as [|n]; [congruence|].
  unfold_setters. exec.
  match goal with
  | |- context [bbl_interface_lock ?n ?st] =>
      pose proof (fun H1 H2 => bbl_interface_lock_cong n _ st _ _ H1 H2 Hlock) as Hc;
      destruct (Hc eq_refl eq_refl) as (s_lock' & Hlock' & Hos & Hlog); clear Hc;
      destruct (bbl_interface_lock_spec n st) as (locked' & msgs & Hspec);
      rewrite Hspec in Hlock'; injection Hlock' as -> <-; rewrite Hspec
  end.
  specialize (Hlog eq_refl). cbn in Hlog.
  unfold_setters. exec.
  unfold kernel_lookups_ok in Hfail.
  assert (Hmode : if_io_mode (with_if_pcap_index pi
                    (with_if_name interface_name bbl_interface_zero)) <> IO_MODE_DPDK)
    by (cbn; congruence).
  destruct (os_siocgifhwaddr o (snprintf IFNAMSIZ interface_name))
    as [sa_data|e] eqn:Hhw.
  - destruct (os_siocgifindex o (snprintf IFNAMSIZ interface_name))
      as [ifr_ifindex|e] eqn:Hidx; [discriminate|].
    erewrite set_kernel_info_ifindex_error;
      [ | apply snoc_lookup | exact Hmode | exact Hhw | exact Hidx ].
    unfold_setters. exec.
    eexists _, _, _. split; [reflexivity|]. cbn. rewrite ?snoc_insert.
    repeat split;
      first [ reflexivity | rewrite Hlog; reflexivity
            | exists e; right; reflexivity ].
  - erewrite set_kernel_info_hwaddr_error;
      [ | apply snoc_lookup | exact Hmode | exact Hhw ].
    unfold_setters. exec.
    eexists _, _, _. split; [reflexivity|]. cbn. rewrite ?snoc_insert.
    repeat split;
      first [ reflexivity | rewrite Hlog; reflexivity
            | exists e; left; reflexivity ].
Qed.

(** Were [IO_MODE_DPDK] the zero enumerator, the zeroed record would pass for a
    DPDK interface and no registration would ask the kernel: the index of a
    registered interface would be the zero of [calloc]. *)
Lemma bbl_interface_add_mode_zero (interface_name : string)
    (link_config : bbl_link_config) (s s1 : state) (p : ptr) :
  IO_MODE_DPDK = 0 ->
  bbl_interface_add interface_name link_config s = Some (Some p, s1) ->
  exists i, interfaces (mem s1) !! p = Some i /\ if_ifindex i = 0.
Proof.
  intros Hdpdk.
  unfold bbl_interface_add, calloc_interface.
  destruct s as [[q pi force lcs lags timers] [left ifs nifs insts adjs] o lg].
  unfold_monad. cbn.
  destruct left as [|n]; [discriminate|].
  unfold_setters. exec.
  match goal with
  | |- context [bbl_interface_lock ?n ?st] =>
      destruct (bbl_interface_lock_spec n st) as (locked & msgs & ->)
  end.
  destruct locked; [|discriminate].
  unfold_setters. exec.
  erewrite set_kernel_info_dpdk; [ | apply snoc_lookup | cbn; congruence ].
  unfold_setters. exec.
  destruct (negb _); exec;
    (unfold bbl_lag_interface_add, bbl_io_add_interface, timer_add_periodic;
     unfold_monad; unfold_setters; exec;
     destruct (lc_lag link_config) as [group|]; exec;
     [destruct (existsb _ lags); exec; [|discriminate] |];
     (destruct (os_io_open o _ _); exec; [|discriminate]);
     intros [= <- <-]; cbn; rewrite snoc_lookup;
     eexists; split; reflexivity).
Qed.

(** [bbl_interface_unlock_all] removes the lock file of every registered
    interface whose [remove] succeeds, creates no file and keeps every file
    whose [remove] fails; nothing else changes. *)
Lemma unlock_each_spec (q : list ptr) (s s' : state) :
  unlock_each q s = Some (tt, s') ->
  g_ctx s' = g_ctx s /\ mem s' = mem s /\ log s' = log s
  /\ same_os_but_files (os s) (os s')
  /\ (forall path, os_files (os s) !! path = None -> os_files (os s') !! path = None)
  /\ (forall p i, In p q -> interfaces (mem s) !! p = Some i ->
        os_remove (os s) (lock_path_of (if_name i)) = SysOk tt ->
        os_files (os s') !! lock_path_of (if_name i) = None)
  /\ (forall path e, os_remove (os s) path = SysErr e ->
        os_files (os s') !! path = os_files (os s) !! path).
Proof.
  revert s. induction q as [|a q IH]; intros s.
  - cbn. unfold ret. intros [= <-]. unfold same_os_but_files.
    repeat split; auto. intros p i [].
  - cbn [unlock_each]. intros Hrun.
    apply bind_inv in Hrun as (i & s0 & Hat & Hrun).
    unfold interface_at, deref in Hat.
    destruct (interfaces (mem s) !! a) as [ia|] eqn:Ha; [|discriminate].
    injection Hat as <- <-.
    apply bind_inv in Hrun as ([] & s_del & Hdel & Hrun).
    unfold remove, bind, gets in Hdel.
    apply IH in Hrun as (Hg & Hm & Hl & Hos & Hnone & Hq & Hkept).
    destruct (os_remove (os s) (lock_path_of (if_name ia))) as [[]|e] eqn:Hremove;
      unfold modify, ret in Hdel; injection Hdel as <-;
      unfold same_os_but_files in *; cbn in *.
    + repeat split; try tauto.
      * intros path Hpath. apply Hnone.
        destruct (decide (lock_path_of (if_name ia) = path)) as [->|Hne].
        -- apply lookup_delete_eq.
        -- rewrite lookup_delete_ne by exact Hne. exact Hpath.
      * intros p i [<-|Hin] Hp Hok.
        -- rewrite Ha in Hp. injection Hp as <-.
           apply Hnone. apply lookup_delete_eq.
        -- eapply Hq; eassumption.
      * intros path e Hfail. rewrite (Hkept path e Hfail).
        apply lookup_delete_ne. congruence.
    + repeat split; try tauto.
      intros p i [<-|Hin] Hp Hok.
      * rewrite Ha in Hp. injection Hp as <-. congruence.
      * eapply Hq; eassumption.
Qed.

(** With the force flag set, [bbl_interface_lock] returns true as soon as the
    lock file can be opened for writing. *)
Lemma lock_force_writable (interface_name : string) (s : state) :
  interface_lock_force (g_ctx s) = true ->
  os_fopen_w (os s) (lock_path_of interface_name) = SysOk tt ->
  exists msgs,
    bbl_interface_lock interface_name s =
      Some (true, set_log (fun l => l ++ msgs) (lock_written interface_name s)).
Proof.
  intros Hforce Hw.
  destruct (bbl_interface_lock_spec interface_name s) as (b & msgs & Hspec).
  destruct b; [exists msgs; exact Hspec|].
  exfalso. revert Hspec. unfold bbl_interface_lock, bind, gets, ret, LOG, modify.
  cbn [os g_ctx os_files os_pid]. rewrite Hforce.
  destruct (os_files (os s) !! lock_path_of interface_name) as [content|].
  - destruct (fscanf_d content) as [lock_pid|].
    + destruct (1 <? lock_pid).
      * destruct (stat_is_enoent _); cbn; rewrite Hw; discriminate.
      * cbn. rewrite Hw. discriminate.
    + cbn. rewrite Hw. discriminate.
  - cbn. rewrite Hw. discriminate.
Qed.

Lemma lock_written_file (interface_name : string) (s : state) :
  os_files (os (lock_written interface_name s)) !! lock_path_of interface_name
    = Some (sprintf_d (os_pid (os s))).
Proof. unfold lock_written. cbn. apply lookup_insert_eq. Qed.

(** A registration goes through when memory is left, the lock is taken, the
    kernel knows the interface (or nothing is looked up), the aggregation
    group exists and the I/O backend opens. *)
Lemma bbl_interface_add_succeeds (interface_name : string)
    (link_config : bbl_link_config) (s s_lock : state) :
  calloc_left (mem s) <> O ->
  bbl_interface_lock interface_name s = Some (true, s_lock) ->
  IO_MODE_DPDK = 0 \/ kernel_lookups_ok (os s) interface_name = true ->
  lag_known s link_config = true ->
  os_io_open (os s) interface_name (lc_io_mode link_config) = true ->
  exists s1,
    bbl_interface_add interface_name link_config s
      = Some (Some (length (interfaces (mem s))), s1).
Proof.
  intros Hleft Hlock Hkernel Hlag Hio.
  unfold bbl_interface_add, calloc_interface.
  destruct s as [[q pi force lcs lags timers] [left ifs nifs insts adjs] o lg].
  unfold lag_known in Hlag. cbn in Hleft, Hkernel, Hlag, Hio. unfold_monad. cbn.
  destruct left as [|n]; [congruence|].
  unfold_setters. exec.
  match goal with
  | |- context [bbl_interface_lock ?n ?st] =>
      pose proof (fun H1 H2 => bbl_interface_lock_cong n _ st _ _ H1 H2 Hlock) as Hc;
      destruct (Hc eq_refl eq_refl) as (s_lock' & Hlock' & _ & _); clear Hc;
      destruct (bbl_interface_lock_spec n st) as (locked' & msgs & Hspec);
      rewrite Hspec in Hlock'; injection Hlock' as -> <-; rewrite Hspec
  end.
  unfold_setters. exec.
  assert (Hbound : exists i',
    bbl_interface_set_kernel_info (length ifs)
      {| g_ctx := {| interface_qhead := q ++ [length ifs]; pcap_index := wrap32 (pi + 1);
                     interface_lock_force := force; link_config := lcs;
                     lag_groups := lags; timer_root := timers |};
         mem := {| calloc_left := n;
                   interfaces := ifs ++ [with_if_pcap_index pi
                                           (with_if_name interface_name bbl_interface_zero)];
                   network_interfaces := nifs; ldp_instances := insts;
                   ldp_adjacencies := adjs |};
         os := {| os_pid := os_pid o;
                  os_files := <[lock_path_of interface_name := sprintf_d (os_pid o)]>
                                (os_files o);
                  os_fopen_w := os_fopen_w o; os_stat := os_stat o;
                  os_siocgifhwaddr := os_siocgifhwaddr o;
                  os_siocgifindex := os_siocgifindex o;
                  os_io_open := os_io_open o; os_remove := os_remove o |};
         log := lg ++ msgs |}
    = Some (true,
        {| g_ctx := {| interface_qhead := q ++ [length ifs]; pcap_index := wrap32 (pi + 1);
                       interface_lock_force := force; link_config := lcs;
                       lag_groups := lags; timer_root := timers |};
           mem := {| calloc_left := n;
                     interfaces := ifs ++ [i'];
                     network_interfaces := nifs; ldp_instances := insts;
                     ldp_adjacencies := adjs |};
           os := {| os_pid := os_pid o;
                    os_files := <[lock_path_of interface_name := sprintf_d (os_pid o)]>
                                  (os_files o);
                    os_fopen_w := os_fopen_w o; os_stat := os_stat o;
                    os_siocgifhwaddr := os_siocgifhwaddr o;
                    os_siocgifindex := os_siocgifindex o;
                    os_io_open := os_io_open o; os_remove := os_remove o |};
           log := lg ++ msgs |})
    /\ if_name i' = interface_name /\ if_lag i' = None).
  { destruct (Z.eq_dec IO_MODE_DPDK 0) as [Hzero|Hdpdk].
    - erewrite set_kernel_info_dpdk; [ | apply snoc_lookup | cbn; congruence ].
      eexists. split; [reflexivity|]. split; reflexivity.
    - destruct Hkernel as [Hzero|Hkernel]; [congruence|].
      unfold kernel_lookups_ok in Hkernel.
      destruct (os_siocgifhwaddr o (snprintf IFNAMSIZ interface_name))
        as [sa_data|e] eqn:Hhw; [|discriminate].
      destruct (os_siocgifindex o (snprintf IFNAMSIZ interface_name))
        as [ifr_ifindex|e] eqn:Hidx; [|discriminate].
      erewrite set_kernel_info_ok;
        [ | apply snoc_lookup | cbn; congruence | exact Hhw | exact Hidx ].
      unfold_setters. exec.
      eexists. split; [reflexivity|]. split; reflexivity. }
  destruct Hbound as (i' & -> & Hname & Hnolag).
  unfold_setters. exec.
  destruct (negb _); exec;
    unfold bbl_lag_interface_add, bbl_io_add_interface, timer_add_periodic;
    unfold_monad; unfold_setters; exec;
    destruct (lc_lag link_config) as [group|]; exec;
    rewrite ?Hlag; exec; rewrite ?Hname, ?Hio; exec;
    eexists; reflexivity.
Qed.

(** What a registration that returned the interface has found. *)
Lemma bbl_interface_add_success_conditions (interface_name : string)
    (link_config : bbl_link_config) (s s1 : state) (p : ptr) :
  bbl_interface_add interface_name link_config s = Some (Some p, s1) ->
  lag_known s link_config = true
  /\ os_io_open (os s) interface_name (lc_io_mode link_config) = true
  /\ calloc_left (mem s) = S (calloc_left (mem s1))
  /\ lag_groups (g_ctx s1) = lag_groups (g_ctx s).
Proof.
  unfold bbl_interface_add, calloc_interface, lag_known.
  destruct s as [[q pi force lcs lags timers] [left ifs nifs insts adjs] o lg].
  unfold_monad. cbn.
  destruct left as [|n]; [discriminate|].
  unfold_setters. exec.
  match goal with
  | |- context [bbl_interface_lock ?n ?st] =>
      destruct (bbl_interface_lock_spec n st) as (locked & msgs & ->)
  end.
  destruct locked; [|discriminate].
  unfold_setters. exec.
  exec_kernel_info bound.
  destruct bound; [|discriminate].
  clear Hbound. unfold_setters. exec.
  destruct (negb _); exec;
    unfold bbl_lag_interface_add, bbl_io_add_interface, timer_add_periodic;
    unfold_monad; unfold_setters; exec;
    destruct (lc_lag link_config) as [group|]; exec;
    try (destruct (existsb _ lags); exec; [|discriminate]);
    rewrite ?Hname;
    (destruct (os_io_open o _ _) eqn:Hio; exec; [|discriminate]);
    intros [= <- <-]; cbn; repeat split; reflexivity.
Qed.

End registration_properties.

(** ** Interface locks *)

Section lock_claims.
Context `{defs : bbl_defs}.

(** C5 (as amended).  On an existing lock file: when the file records a
    process that is no longer alive, the lock is taken by rewriting the file
    with the identifier of this process, and nothing is logged.  When the
    content is no process identifier (nothing that "%d" reads, or a number
    that is not above 1), the error is logged and the lock fails, unless the
    force flag is set: then the file is rewritten with the identifier of this
    process.  Every rewriting needs the lock file to be opened for writing:
    when that [fopen] fails, its error is logged, the lock fails and the
    file keeps its content. *)
Theorem lock_on_stale_or_invalid_file (interface_name : string) (s : state)
    (content : string) :
  os_files (os s) !! lock_path_of interface_name = Some content ->
  (forall pid,
      recorded_pid content = Some pid ->
      process_alive (os s) pid = false ->
      match os_fopen_w (os s) (lock_path_of interface_name) with
      | SysOk _ =>
          exists s1, bbl_interface_lock interface_name s = Some (true, s1)
                     /\ os_files (os s1) !! lock_path_of interface_name
                          = Some (sprintf_d (os_pid (os s)))
                     /\ log s1 = log s
      | SysErr errno =>
          exists s1, bbl_interface_lock interface_name s = Some (false, s1)
                     /\ os_files (os s1) = os_files (os s)
                     /\ log s1 = log s ++
                          [(ERROR, Failed_to_open_interface_lock_file
                                     (lock_path_of interface_name) errno)]
      end)
  /\ (recorded_pid content = None ->
      interface_lock_force (g_ctx s) = false ->
      bbl_interface_lock interface_name s =
        Some (false,
              logged ERROR (Invalid_interface_lock_file (lock_path_of interface_name)) s))
  /\ (recorded_pid content = None ->
      interface_lock_force (g_ctx s) = true ->
      match os_fopen_w (os s) (lock_path_of interface_name) with
      | SysOk _ =>
          exists s1, bbl_interface_lock interface_name s = Some (true, s1)
                     /\ os_files (os s1) !! lock_path_of interface_name
                          = Some (sprintf_d (os_pid (os s)))
                     /\ log s1 = log s ++
                          [(ERROR, Invalid_interface_lock_file (lock_path_of interface_name))]
      | SysErr errno =>
          exists s1, bbl_interface_lock interface_name s = Some (false, s1)
                     /\ os_files (os s1) = os_files (os s)
                     /\ log s1 = log s ++
                          [(ERROR, Invalid_interface_lock_file (lock_path_of interface_name));
                           (ERROR, Failed_to_open_interface_lock_file
                                     (lock_path_of interface_name) errno)]
      end).
Proof.
  intros Hfile. split; [|split].
  - intros pid Hrec Hdead.
    destruct (os_fopen_w (os s) (lock_path_of interface_name)) as [[]|errno] eqn:Hw.
    + exists (lock_written interface_name s). split; [|split].
      * eapply lock_dead_holder; eassumption.
      * apply lock_written_file.
      * reflexivity.
    + eexists. split; [eapply lock_dead_holder_unwritable; eassumption|].
      split; reflexivity.
  - intros Hrec Hforce.
    pose proof (lock_invalid_file _ _ _ Hfile Hrec) as Hlock.
    cbn zeta in Hlock. rewrite Hforce in Hlock. exact Hlock.
  - intros Hrec Hforce.
    pose proof (lock_invalid_file _ _ _ Hfile Hrec) as Hlock.
    cbn zeta in Hlock. rewrite Hforce in Hlock.
    destruct (os_fopen_w (os s) (lock_path_of interface_name)) as [[]|errno] eqn:Hw.
    + eexists. split; [exact Hlock|]. split.
      * cbn. apply lookup_insert_eq.
      * reflexivity.
    + eexists. split; [exact Hlock|]. split.
      * reflexivity.
      * cbn. rewrite <- app_assoc. reflexivity.
Qed.

End lock_claims.

(** *** The lock on concrete machines *)

(** C5, counterexample.  The lock file of eth0 holds a text that is no
    process identifier and the force flag is not set: the lock fails, the
    error is logged and the file keeps its content.  The lock file records
    the dead process 999: the lock is taken and nothing is logged.  The same
    lock file cannot be opened for writing: the lock fails. *)
Lemma invalid_lock_file_fails_without_force :
  let s := example_state false (example_os (eth0_lock_file "garbage") writable) in
  let stale w := example_state false (example_os (eth0_lock_file "999") w) in
  (recorded_pid "garbage" = None
   /\ (fun r => (fst r,
                 os_files (os (snd r)) !! "/run/lock/bngblaster_eth0.lock"%string,
                 log (snd r)))
        <$> bbl_interface_lock (defs := example_defs) "eth0" s
      = Some (false, Some "garbage"%string,
              [(ERROR, Invalid_interface_lock_file "/run/lock/bngblaster_eth0.lock")]))
  /\ (recorded_pid "999" = Some 999
      /\ process_alive (defs := example_defs) (os (stale writable)) 999 = false
      /\ (fun r => (fst r, log (snd r)))
           <$> bbl_interface_lock (defs := example_defs) "eth0" (stale writable)
         = Some (true, []))
  /\ (fun r => (fst r,
                os_files (os (snd r)) !! "/run/lock/bngblaster_eth0.lock"%string,
                log (snd r)))
       <$> bbl_interface_lock (defs := example_defs) "eth0" (stale read_only)
     = Some (false, Some "999"%string,
             [(ERROR, Failed_to_open_interface_lock_file
                        "/run/lock/bngblaster_eth0.lock" 13)]).
Proof. vm_compute. repeat split. Qed.

(** C5, witness: a lock file that records the dead process 999, and a lock
    file with an invalid content, without and with the force flag, each on
    a lock file that can and that cannot be opened for writing. *)
Lemma lock_on_stale_or_invalid_file_witness :
  let stale w := example_state false (example_os (eth0_lock_file "999") w) in
  let invalid force w :=
    example_state force (example_os (eth0_lock_file "garbage") w) in
  let path := lock_path_of (defs := example_defs) "eth0" in
  (exists s1, bbl_interface_lock (defs := example_defs) "eth0" (stale writable)
              = Some (true, s1)
              /\ os_files (os s1) !! path = Some (sprintf_d 4711)
              /\ log s1 = [])
  /\ (exists s1, bbl_interface_lock (defs := example_defs) "eth0" (stale read_only)
                 = Some (false, s1)
                 /\ os_files (os s1) = eth0_lock_file "999"
                 /\ log s1 = [] ++ [(ERROR, Failed_to_open_interface_lock_file path 13)])
  /\ bbl_interface_lock (defs := example_defs) "eth0" (invalid false writable)
     = Some (false, logged ERROR (Invalid_interface_lock_file path) (invalid false writable))
  /\ (exists s1, bbl_interface_lock (defs := example_defs) "eth0" (invalid true writable)
                 = Some (true, s1)
                 /\ os_files (os s1) !! path = Some (sprintf_d 4711)
                 /\ log s1 = [] ++ [(ERROR, Invalid_interface_lock_file path)])
  /\ (exists s1, bbl_interface_lock (defs := example_defs) "eth0" (invalid true read_only)
                 = Some (false, s1)
                 /\ os_files (os s1) = eth0_lock_file "garbage"
                 /\ log s1 = [] ++ [(ERROR, Invalid_interface_lock_file path);
                                    (ERROR, Failed_to_open_interface_lock_file path 13)]).
Proof.
  intros stale invalid path. split; [|split; [|split; [|split]]].
  - apply (proj1 (lock_on_stale_or_invalid_file (defs := example_defs) "eth0"
                    (stale writable) "999"%string eq_refl) 999); vm_compute; reflexivity.
  - apply (proj1 (lock_on_stale_or_invalid_file (defs := example_defs) "eth0"
                    (stale read_only) "999"%string eq_refl) 999); vm_compute; reflexivity.
  - apply (proj1 (proj2 (lock_on_stale_or_invalid_file (defs := example_defs) "eth0"
                    (invalid false writable) "garbage"%string eq_refl)));
      vm_compute; reflexivity.
  - apply (proj2 (proj2 (lock_on_stale_or_invalid_file (defs := example_defs) "eth0"
                    (invalid true writable) "garbage"%string eq_refl)));
      vm_compute; reflexivity.
  - apply (proj2 (proj2 (lock_on_stale_or_invalid_file (defs := example_defs) "eth0"
                    (invalid true read_only) "garbage"%string eq_refl)));
      vm_compute; reflexivity.
Defined.

(** ** Registration *)

Section registration_claims.
Context `{defs : bbl_defs}.


(** C10.  A registration whose lock succeeds and whose kernel binding then
    fails (the lookup of the hardware address or of the interface index)
    returns NULL, and yet the interface is at the tail of the registry and
    the lock file holds the process identifier of this process: neither is
    rolled back.  The last entry of the log is the error of the lookup. *)
Theorem registration_is_not_rolled_back (interface_name : string)
    (link_config : bbl_link_config) (s s_lock : state) :
  calloc_left (mem s) <> O ->
  bbl_interface_lock interface_name s = Some (true, s_lock) ->
  IO_MODE_DPDK <> 0 ->
  kernel_lookups_ok (os s) interface_name = false ->
  exists s1 p i entry,
    bbl_interface_add interface_name link_config s = Some (None, s1)
    /\ p = length (interfaces (mem s))
    /\ interface_qhead (g_ctx s1) = interface_qhead (g_ctx s) ++ [p]
    /\ interfaces (mem s1) !! p = Some i /\ if_name i = interface_name
    /\ os_files (os s1) !! lock_path_of interface_name = Some (sprintf_d (os_pid (os s)))
    /\ last (log s1) = Some entry
    /\ kernel_binding_error interface_name entry.
Proof.
  intros Hleft Hlock Hdpdk Hfail.
  destruct (bbl_interface_add_kernel_failure interface_name link_config s s_lock
              Hleft Hlock Hdpdk Hfail)
    as (s1 & i' & entry & Hadd & Hq & Hfiles & Hifs & Hname & Hlog & Herr).
  exists s1, (length (interfaces (mem s))), i', entry.
  repeat split; try assumption.
  - rewrite Hifs. apply snoc_lookup.
  - rewrite Hfiles. apply lookup_insert_eq.
  - rewrite Hlog. apply last_snoc.
Qed.

(** C6, the defect.  A link configured for the DPDK mode is bound to the
    kernel all the same: [bbl_interface_add] calls
    [bbl_interface_set_kernel_info] before it stores the mode of the link
    configuration in the interface, whose mode is still zero.  When the
    kernel does not know the name the registration fails with the error of
    the lookup. *)
Theorem dpdk_link_is_bound_to_the_kernel (interface_name : string)
    (link_config : bbl_link_config) (s s_lock : state) :
  lc_io_mode link_config = IO_MODE_DPDK ->
  IO_MODE_DPDK <> 0 ->
  calloc_left (mem s) <> O ->
  bbl_interface_lock interface_name s = Some (true, s_lock) ->
  kernel_lookups_ok (os s) interface_name = false ->
  exists s1 entry,
    bbl_interface_add interface_name link_config s = Some (None, s1)
    /\ last (log s1) = Some entry
    /\ kernel_binding_error interface_name entry.
Proof.
  intros _ Hdpdk Hleft Hlock Hfail.
  destruct (bbl_interface_add_kernel_failure interface_name link_config s s_lock
              Hleft Hlock Hdpdk Hfail)
    as (s1 & i' & entry & Hadd & _ & _ & _ & _ & Hlog & Herr).
  exists s1, entry. repeat split; try assumption.
  rewrite Hlog. apply last_snoc.
Qed.

(** For an interface not in DPDK mode, the registration that returns the
    interface has resolved both the hardware address and the index. *)
Lemma registration_binds_kernel (interface_name : string)
    (link_config : bbl_link_config) (s s1 : state) (p : ptr) :
  IO_MODE_DPDK <> 0 ->
  bbl_interface_add interface_name link_config s = Some (Some p, s1) ->
  kernel_lookups_ok (os s) interface_name = true.
Proof.
  intros Hdpdk Hadd.
  apply bbl_interface_add_success in Hadd as (_ & _ & _ & _ & _ & _ & Hk & _).
  exact (Hk Hdpdk).
Qed.

End registration_claims.



(** C10, witness: the registration of eth7, which the kernel does not
    know. *)
Lemma registration_is_not_rolled_back_witness :
  exists s1 p i entry,
    bbl_interface_add (defs := example_defs) "eth7" (example_link "eth7" 0)
      (example_state false (example_os empty writable)) = Some (None, s1)
    /\ p = 0%nat
    /\ interface_qhead (g_ctx s1) = [] ++ [p]
    /\ interfaces (mem s1) !! p = Some i /\ if_name i = "eth7"%string
    /\ os_files (os s1) !! lock_path_of (defs := example_defs) "eth7"
         = Some (sprintf_d 4711)
    /\ last (log s1) = Some entry
    /\ kernel_binding_error "eth7" entry.
Proof.
  eapply (registration_is_not_rolled_back (defs := example_defs) "eth7"
            (example_link "eth7" 0) (example_state false (example_os empty writable))).
  - vm_compute. discriminate.
  - vm_compute. reflexivity.
  - vm_compute. discriminate.
  - vm_compute. reflexivity.
Defined.

(** C6, witness: the registration of the DPDK port 0000:00:08.0, which has
    no kernel device. *)
Lemma dpdk_link_is_bound_to_the_kernel_witness :
  exists s1 entry,
    bbl_interface_add (defs := example_defs) "0000:00:08.0" (example_link "0000:00:08.0" 3)
      (example_state false (example_os empty writable)) = Some (None, s1)
    /\ last (log s1) = Some entry
    /\ kernel_binding_error "0000:00:08.0" entry.
Proof.
  eapply (dpdk_link_is_bound_to_the_kernel (defs := example_defs) "0000:00:08.0"
            (example_link "0000:00:08.0" 3)
            (example_state false (example_os empty writable))).
  - vm_compute. reflexivity.
  - vm_compute. discriminate.
  - vm_compute. discriminate.
  - vm_compute. reflexivity.
  - vm_compute. reflexivity.
Defined.

(** The same registration succeeds once the mode is in place when the kernel
    is asked: [bbl_interface_set_kernel_info] itself skips the lookups for an
    interface in DPDK mode. *)
Example dpdk_interface_is_not_bound :
  let i := with_if_io_mode 3 (with_if_name "0000:00:08.0" bbl_interface_zero) in
  let s := set_interfaces (fun _ => [i]) (example_state false (example_os empty writable)) in
  bbl_interface_set_kernel_info (defs := example_defs) 0%nat s = Some (true, s).
Proof. vm_compute. reflexivity. Qed.

(** ** The registry and duplicate names *)

Section registry_properties.
Context `{defs : bbl_defs}.

(** [bbl_interface_get] on a registry whose entries are all valid: the first
    entry with the name, and the state is as before. *)
Lemma interface_find_run (interface_name : string) (q : list ptr) (s : state) :
  Forall (fun p => (p < length (interfaces (mem s)))%nat) q ->
  interface_find interface_name q s
    = Some (head (List.filter (is_named interface_name s) q), s).
Proof.
  induction q as [|a q IH]; intros Hvalid; [reflexivity|].
  apply Forall_cons in Hvalid as [Ha Hq].
  apply lookup_lt_is_Some in Ha as [i Hi].
  cbn [interface_find List.filter]. unfold bind, interface_at, deref, is_named.
  rewrite Hi. destruct (String.eqb (if_name i) interface_name); [reflexivity|].
  apply IH. exact Hq.
Qed.

(** [bbl_interface_get] returns NULL: it has walked the whole registry and
    found no entry with the name. *)
Lemma interface_find_none (interface_name : string) (q : list ptr) (s s' : state) :
  interface_find interface_name q s = Some (None, s') ->
  s' = s
  /\ Forall (fun p => (p < length (interfaces (mem s)))%nat) q
  /\ List.filter (is_named interface_name s) q = [].
Proof.
  induction q as [|a q IH]; cbn [interface_find List.filter].
  - unfold ret. intros [= <-]. auto.
  - unfold bind, interface_at, deref, is_named.
    destruct (interfaces (mem s) !! a) as [i|] eqn:Hi; [|discriminate].
    destruct (String.eqb (if_name i) interface_name); [discriminate|].
    intros Hrun. apply IH in Hrun as (-> & Hq & Hnone).
    split; [reflexivity|]. split; [|exact Hnone].
    apply Forall_cons. split; [|exact Hq].
    eapply lookup_lt_Some. exact Hi.
Qed.

Lemma bbl_interface_get_none (interface_name : string) (s s' : state) :
  bbl_interface_get interface_name s = Some (None, s') ->
  s' = s /\ registry_valid s /\ entries_named interface_name s = [].
Proof.
  unfold bbl_interface_get, bind, gets. apply interface_find_none.
Qed.

Lemma bbl_interface_get_found (interface_name : string) (s : state) :
  registry_valid s ->
  entries_named interface_name s <> [] ->
  exists p, bbl_interface_get interface_name s = Some (Some p, s).
Proof.
  intros Hvalid Hsome. unfold bbl_interface_get, bind, gets.
  rewrite (interface_find_run _ _ _ Hvalid).
  fold (entries_named interface_name s).
  destruct (entries_named interface_name s) as [|p l]; [congruence|].
  exists p. reflexivity.
Qed.

(** A registration that returns the interface adds one entry with its name
    to a valid registry and leaves the other entries as they are. *)
Lemma bbl_interface_add_registry (interface_name : string)
    (link_config : bbl_link_config) (s s1 : state) (p : ptr) :
  registry_valid s ->
  bbl_interface_add interface_name link_config s = Some (Some p, s1) ->
  registry_valid s1
  /\ forall name, entries_named name s1 =
                  entries_named name s ++
                    (if String.eqb interface_name name then [p] else []).
Proof.
  intros Hvalid Hadd.
  apply bbl_interface_add_success in Hadd
    as (Hp & Hq & _ & _ & _ & _ & _ & i' & Hifs & Hname).
  unfold registry_valid, entries_named in *. rewrite Hq, Hifs. split.
  - apply Forall_app. split.
    + eapply Forall_impl; [exact Hvalid|]. cbn. intros x Hx.
      rewrite length_app. lia.
    + apply Forall_cons. split; [|apply Forall_nil; exact I].
      rewrite length_app, Hp. cbn. lia.
  - intros name. rewrite List.filter_app. f_equal.
    + apply List.filter_ext_in. intros a Ha.
      apply list_elem_of_In in Ha.
      rewrite Forall_forall in Hvalid. specialize (Hvalid a Ha).
      unfold is_named. rewrite Hifs, lookup_app_l by exact Hvalid. reflexivity.
    + cbn. unfold is_named. rewrite Hifs, Hp, snoc_lookup, Hname.
      destruct (String.eqb interface_name name); reflexivity.
Qed.

(** The first turn of a loop that returns true. *)
Lemma links_add_cons_true (link_config : bbl_link_config)
    (chain : list bbl_link_config) (s s1 : state) :
  links_add (link_config :: chain) s = Some (true, s1) ->
  exists p s',
    bbl_interface_get (lc_interface link_config) s = Some (None, s)
    /\ bbl_interface_add (lc_interface link_config) link_config s = Some (Some p, s')
    /\ links_add chain s' = Some (true, s1).
Proof.
  cbn [links_add]. intros Hrun.
  apply bind_inv in Hrun as (found & s0 & Hget & Hrun).
  destruct found as [?|].
  - apply bind_inv in Hrun as ([] & s_log & _ & Hret). discriminate.
  - pose proof (bbl_interface_get_none _ _ _ Hget) as (-> & _).
    apply bind_inv in Hrun as (added & s' & Hadd & Hrun).
    destruct added as [p|].
    + exists p, s'. auto.
    + apply bind_inv in Hrun as ([] & s_log & _ & Hret). discriminate.
Qed.

(** The loop on a chain continues where the loop on its first part stopped. *)
Lemma links_add_app (chain more : list bbl_link_config) (s s1 : state) :
  links_add chain s = Some (true, s1) ->
  links_add (chain ++ more) s = links_add more s1.
Proof.
  revert s. induction chain as [|link_config chain IH]; intros s Hrun.
  - cbn in Hrun. unfold ret in Hrun. injection Hrun as <-. reflexivity.
  - apply links_add_cons_true in Hrun as (p & s' & Hget & Hadd & Hrest).
    cbn [app links_add]. unfold bind at 1. rewrite Hget.
    unfold bind at 1. rewrite Hadd. apply IH. exact Hrest.
Qed.

(** A name that is registered once stays registered once while the loop
    goes on. *)
Lemma links_add_keeps_entry (chain : list bbl_link_config) (s s1 : state)
    (name : string) :
  links_add chain s = Some (true, s1) ->
  registry_valid s ->
  length (entries_named name s) = 1%nat ->
  registry_valid s1 /\ length (entries_named name s1) = 1%nat.
Proof.
  revert s. induction chain as [|link_config chain IH]; intros s Hrun Hvalid Hone.
  - cbn in Hrun. unfold ret in Hrun. injection Hrun as <-. auto.
  - apply links_add_cons_true in Hrun as (p & s' & Hget & Hadd & Hrest).
    apply bbl_interface_get_none in Hget as (_ & _ & Hnone).
    destruct (bbl_interface_add_registry _ _ _ _ _ Hvalid Hadd) as (Hvalid' & Hentries).
    apply (IH s' Hrest Hvalid').
    rewrite Hentries.
    destruct (String.eqb (lc_interface link_config) name) eqn:Heq.
    + apply String.eqb_eq in Heq. subst name. rewrite Hnone in Hone. discriminate.
    + rewrite app_nil_r. exact Hone.
Qed.

(** After a loop that returns true every name of the chain is registered
    exactly once. *)
Lemma links_add_registers_once (chain : list bbl_link_config) (s s1 : state)
    (name : string) :
  links_add chain s = Some (true, s1) ->
  In name (map lc_interface chain) ->
  registry_valid s1 /\ length (entries_named name s1) = 1%nat.
Proof.
  revert s. induction chain as [|link_config chain IH]; intros s Hrun Hin; [destruct Hin|].
  apply links_add_cons_true in Hrun as (p & s' & Hget & Hadd & Hrest).
  apply bbl_interface_get_none in Hget as (_ & Hvalid & Hnone).
  destruct (bbl_interface_add_registry _ _ _ _ _ Hvalid Hadd) as (Hvalid' & Hentries).
  destruct (String.eqb (lc_interface link_config) name) eqn:Heq.
  - apply String.eqb_eq in Heq. subst name.
    apply (links_add_keeps_entry chain s' s1 _ Hrest Hvalid').
    rewrite Hentries, Hnone, String.eqb_refl. reflexivity.
  - destruct Hin as [Hhead|Hin].
    + apply String.eqb_neq in Heq. congruence.
    + exact (IH s' Hrest Hin).
Qed.

(** C1.  When the loop of [bbl_interface_init] has registered a first part
    of the chain of link configurations, among them the name N, and the next
    link configuration has the name N again, the loop returns false with the
    error of a duplicate link configuration and changes nothing but the log:
    the registry holds exactly one entry with the name N.  So does
    [bbl_interface_init] on a configuration with that chain. *)
Theorem duplicate_registration_is_rejected (registered rest : list bbl_link_config)
    (duplicate : bbl_link_config) (s s1 : state) :
  links_add registered s = Some (true, s1) ->
  In (lc_interface duplicate) (map lc_interface registered) ->
  let s2 := logged ERROR (Failed_to_add_link_duplicate (lc_interface duplicate)) s1 in
  links_add (registered ++ duplicate :: rest) s = Some (false, s2)
  /\ (link_config (g_ctx s) = registered ++ duplicate :: rest ->
      bbl_interface_init s = Some (false, s2))
  /\ interface_qhead (g_ctx s2) = interface_qhead (g_ctx s1)
  /\ interfaces (mem s2) = interfaces (mem s1)
  /\ length (entries_named (lc_interface duplicate) s2) = 1%nat.
Proof.
  intros Hrun Hin s2.
  destruct (links_add_registers_once _ _ _ _ Hrun Hin) as (Hvalid & Hone).
  assert (Hloop : links_add (registered ++ duplicate :: rest) s = Some (false, s2)).
  { rewrite (links_add_app _ _ _ _ Hrun). cbn [links_add].
    destruct (bbl_interface_get_found (lc_interface duplicate) s1 Hvalid) as (p & Hget).
    - intros Hnil. rewrite Hnil in Hone. discriminate.
    - unfold bind at 1. rewrite Hget. reflexivity. }
  split; [exact Hloop|].
  split; [|split; [reflexivity|split; [reflexivity|exact Hone]]].
  intros Hchain. unfold bbl_interface_init, bind, gets. rewrite Hchain. exact Hloop.
Qed.

End registry_properties.

(** C1, witness: eth0 twice in the chain of link configurations. *)
Lemma duplicate_registration_is_rejected_witness :
  exists s1,
    let s2 := logged ERROR (Failed_to_add_link_duplicate "eth0") s1 in
    links_add (defs := example_defs) ([example_link "eth0" 0] ++ example_link "eth0" 0 :: [])
      (example_state false (example_os empty writable)) = Some (false, s2)
    /\ length (entries_named "eth0" s2) = 1%nat.
Proof.
  eexists.
  edestruct (duplicate_registration_is_rejected (defs := example_defs)
               [example_link "eth0" 0] [] (example_link "eth0" 0)
               (example_state false (example_os empty writable)))
    as (Hloop & _ & _ & _ & Hone).
  - vm_compute. reflexivity.
  - vm_compute. left. reflexivity.
  - split; [exact Hloop | exact Hone].
Defined.

Example eth0_twice :
  (fun r => (fst r, interface_qhead (g_ctx (snd r)), log (snd r)))
    <$> bbl_interface_init (defs := example_defs)
          (set_log (fun l => l)
             {| g_ctx := {| interface_qhead := []; pcap_index := 0;
                            interface_lock_force := false;
                            link_config := [example_link "eth0" 0; example_link "eth0" 0];
                            lag_groups := []; timer_root := [] |};
                mem := mem (example_state false (example_os empty writable));
                os := example_os empty writable; log := [] |})
  = Some (false, [0%nat], [(ERROR, Failed_to_add_link_duplicate "eth0")]).
Proof. vm_compute. reflexivity. Qed.

(** ** The LDP hello job *)

(** The send mask is a [uint32_t]: setting the bit twice is setting it once. *)
Lemma send_mask_or_idempotent (x h : Z) :
  wrap32 (Z.lor (wrap32 (Z.lor x h)) h) = wrap32 (Z.lor x h).
Proof.
  unfold wrap32. rewrite <- !Z.land_ones by lia.
  apply Z.bits_inj'. intros n Hn.
  rewrite !Z.land_spec, !Z.lor_spec, !Z.land_spec, !Z.lor_spec.
  destruct (Z.testbit x n), (Z.testbit h n), (Z.testbit (Z.ones 32) n); reflexivity.
Qed.

(** After the bit has been set, the mask holds it. *)
Lemma send_mask_or_holds (x h : Z) :
  Z.land (wrap32 (Z.lor x h)) (wrap32 h) = wrap32 h.
Proof.
  unfold wrap32. rewrite <- !Z.land_ones by lia.
  apply Z.bits_inj'. intros n Hn.
  rewrite !Z.land_spec, !Z.lor_spec.
  destruct (Z.testbit x n), (Z.testbit h n), (Z.testbit (Z.ones 32) n); reflexivity.
Qed.

Section hello_job_properties.
Context `{defs : bbl_defs}.

(** The hello job on valid pointers. *)
Lemma ldp_interface_hello_job_run (timer : ptr) (s : state) (t : timer_s)
    (a : ldp_adjacency) (interface : ptr) (ni : bbl_network_interface) :
  timer_root (g_ctx s) !! timer = Some t ->
  ldp_adjacencies (mem s) !! timer_data t = Some a ->
  adj_interface a = Some interface ->
  network_interfaces (mem s) !! interface = Some ni ->
  ldp_interface_hello_job timer s =
    Some (tt, set_network_interfaces (fun l => <[interface := hello_requested ni]> l) s).
Proof.
  intros Ht Ha Hi Hni. unfold ldp_interface_hello_job. unfold_monad.
  rewrite Ht, Ha, Hi, Hni. reflexivity.
Qed.

(** A hello job that returns has found valid pointers. *)
Lemma ldp_interface_hello_job_inv (timer : ptr) (s s1 : state) :
  ldp_interface_hello_job timer s = Some (tt, s1) ->
  exists t a interface ni,
    timer_root (g_ctx s) !! timer = Some t
    /\ ldp_adjacencies (mem s) !! timer_data t = Some a
    /\ adj_interface a = Some interface
    /\ network_interfaces (mem s) !! interface = Some ni
    /\ s1 = set_network_interfaces (fun l => <[interface := hello_requested ni]> l) s.
Proof.
  unfold ldp_interface_hello_job. unfold_monad.
  destruct (timer_root (g_ctx s) !! timer) as [t|] eqn:Ht; [|discriminate].
  destruct (ldp_adjacencies (mem s) !! timer_data t) as [a|] eqn:Ha; [|discriminate].
  destruct (adj_interface a) as [interface|] eqn:Hi; [|discriminate].
  destruct (network_interfaces (mem s) !! interface) as [ni|] eqn:Hni; [|discriminate].
  intros [= <-]. exists t, a, interface, ni. auto.
Qed.

Lemma hello_requested_idempotent (ni : bbl_network_interface) :
  hello_requested (hello_requested ni) = hello_requested ni.
Proof.
  unfold hello_requested, with_nif_send_requests. cbn.
  rewrite send_mask_or_idempotent. reflexivity.
Qed.

(** The hello job is idempotent. *)
Lemma ldp_interface_hello_job_idempotent (timer : ptr) (s s1 : state) :
  ldp_interface_hello_job timer s = Some (tt, s1) ->
  ldp_interface_hello_job timer s1 = Some (tt, s1).
Proof.
  intros Hrun.
  apply ldp_interface_hello_job_inv in Hrun
    as (t & a & interface & ni & Ht & Ha & Hi & Hni & ->).
  assert (Hlt : (interface < length (network_interfaces (mem s)))%nat)
    by (eapply lookup_lt_Some; exact Hni).
  erewrite ldp_interface_hello_job_run; [ | exact Ht | exact Ha | exact Hi | ].
  - unfold_setters. rewrite list_insert_insert_eq, hello_requested_idempotent.
    reflexivity.
  - cbn. apply list_lookup_insert_eq. exact Hlt.
Qed.

(** C2.  For an adjacency whose hello timer fires (the pointers of the timer
    and of the adjacency being valid), any number k >= 1 of firings with
    nothing in between leaves the state that one firing leaves: the hello
    job is idempotent, and the send mask of the interface of the adjacency
    holds the hello bit, set once. *)
Theorem hello_firings_coalesce (timer : ptr) (k : nat) (s s1 : state) :
  (1 <= k)%nat ->
  ldp_interface_hello_job timer s = Some (tt, s1) ->
  fire k timer s = Some (tt, s1)
  /\ ldp_interface_hello_job timer s1 = Some (tt, s1)
  /\ exists t a interface ni1,
       timer_root (g_ctx s) !! timer = Some t
       /\ ldp_adjacencies (mem s) !! timer_data t = Some a
       /\ adj_interface a = Some interface
       /\ network_interfaces (mem s1) !! interface = Some ni1
       /\ Z.land (nif_send_requests ni1) (wrap32 BBL_IF_SEND_LDP_HELLO)
            = wrap32 BBL_IF_SEND_LDP_HELLO.
Proof.
  intros Hk Hrun.
  pose proof (ldp_interface_hello_job_idempotent _ _ _ Hrun) as Hidem.
  split; [|split; [exact Hidem|]].
  - destruct k as [|k]; [lia|]. clear Hk.
    cbn [fire]. unfold bind at 1. rewrite Hrun.
    induction k as [|k IH]; [reflexivity|].
    cbn [fire]. unfold bind at 1. rewrite Hidem. exact IH.
  - apply ldp_interface_hello_job_inv in Hrun
      as (t & a & interface & ni & Ht & Ha & Hi & Hni & ->).
    exists t, a, interface, (hello_requested ni).
    repeat split; try assumption.
    + cbn. apply list_lookup_insert_eq. eapply lookup_lt_Some. exact Hni.
    + cbn. apply send_mask_or_holds.
Qed.

(** C8.  A hello job that returns has changed the send mask of the
    interface of the adjacency and nothing else: the context, the log, the
    operating system, the registry interfaces, the instances and all
    adjacencies (their states among them) are as before, as are the other
    network interfaces and the other fields of that interface. *)
Theorem hello_job_frame (timer : ptr) (s s1 : state) :
  ldp_interface_hello_job timer s = Some (tt, s1) ->
  exists t a interface ni,
    timer_root (g_ctx s) !! timer = Some t
    /\ ldp_adjacencies (mem s) !! timer_data t = Some a
    /\ adj_interface a = Some interface
    /\ network_interfaces (mem s) !! interface = Some ni
    /\ g_ctx s1 = g_ctx s /\ os s1 = os s /\ log s1 = log s
    /\ interfaces (mem s1) = interfaces (mem s)
    /\ ldp_instances (mem s1) = ldp_instances (mem s)
    /\ ldp_adjacencies (mem s1) = ldp_adjacencies (mem s)
    /\ calloc_left (mem s1) = calloc_left (mem s)
    /\ network_interfaces (mem s1) =
         <[interface :=
             {| nif_name := nif_name ni;
                nif_send_requests :=
                  wrap32 (Z.lor (nif_send_requests ni) BBL_IF_SEND_LDP_HELLO);
                nif_ldp_adjacency := nif_ldp_adjacency ni |}]>
           (network_interfaces (mem s))
    /\ (forall other, other <> interface ->
          network_interfaces (mem s1) !! other = network_interfaces (mem s) !! other).
Proof.
  intros Hrun.
  apply ldp_interface_hello_job_inv in Hrun
    as (t & a & interface & ni & Ht & Ha & Hi & Hni & ->).
  exists t, a, interface, ni. cbn.
  repeat split; try assumption; try reflexivity.
  intros other Hother. apply list_lookup_insert_ne. congruence.
Qed.

End hello_job_properties.

(** ** The attachment of an LDP instance to a network interface *)

Section attach_properties.
Context `{defs : bbl_defs}.

Ltac exec :=
  repeat first [ rewrite snoc_lookup | rewrite snoc_insert | progress cbn ].

(** [ldp_interface_init] on valid pointers and with memory for the
    adjacency, in full. *)
Lemma ldp_interface_init_run (interface : ptr) (interface_config : bbl_network_config)
    (instance : ptr) (s : state) (inst : ldp_instance) (ni : bbl_network_interface) :
  ldp_instances (mem s) !! instance = Some inst ->
  network_interfaces (mem s) !! interface = Some ni ->
  calloc_left (mem s) <> O ->
  exists s1,
    ldp_interface_init interface interface_config instance s = Some (true, s1)
    /\ ldp_adjacencies (mem s1) = ldp_adjacencies (mem s) ++ [attached_adjacency s interface instance inst]
    /\ ldp_instances (mem s1) =
         <[instance := with_inst_adjacencies (Some (length (ldp_adjacencies (mem s)))) inst]>
           (ldp_instances (mem s))
    /\ network_interfaces (mem s1) =
         <[interface := with_nif_ldp_adjacency (Some (length (ldp_adjacencies (mem s)))) ni]>
           (network_interfaces (mem s))
    /\ timer_root (g_ctx s1) = timer_root (g_ctx s) ++ [hello_timer s inst]
    /\ log s1 = log s ++
         [(LDP, Add_network_interface_to_LDP_instance
                  (nif_name ni) (nc_ldp_instance_id interface_config))]
    /\ interface_qhead (g_ctx s1) = interface_qhead (g_ctx s)
    /\ interfaces (mem s1) = interfaces (mem s)
    /\ os s1 = os s
    /\ calloc_left (mem s) = S (calloc_left (mem s1)).
Proof.
  intros Hinst Hni Hleft.
  unfold ldp_interface_init, ldp_hello_start, timer_add_periodic, calloc_adjacency,
    attached_adjacency, hello_timer.
  destruct s as [[q pi force lcs lags timers] [left ifs nifs insts adjs] o lg].
  cbn in Hinst, Hni, Hleft. destruct left as [|n]; [congruence|].
  unfold_monad. unfold_setters. rewrite Hinst. cbn. rewrite Hni. exec.
  rewrite Hinst. exec. rewrite Hni. exec.
  eexists. split; [reflexivity|]. cbn. repeat split; reflexivity.
Qed.

(** Without memory for the adjacency [ldp_interface_init] does not return:
    the null pointer that [calloc] gave is dereferenced. *)
Lemma ldp_interface_init_out_of_memory (interface : ptr)
    (interface_config : bbl_network_config) (instance : ptr) (s : state) :
  calloc_left (mem s) = O ->
  ldp_interface_init interface interface_config instance s = None.
Proof.
  intros Hleft.
  unfold ldp_interface_init, calloc_adjacency.
  destruct s as [[q pi force lcs lags timers] [left ifs nifs insts adjs] o lg].
  cbn in Hleft. subst left.
  unfold_monad. unfold_setters.
  destruct (insts !! instance); [|reflexivity]. cbn.
  destruct (nifs !! interface); reflexivity.
Qed.

End attach_properties.

Section attach_claims.
Context `{defs : bbl_defs}.

(** A chain of adjacencies is not touched by an allocation. *)
Lemma adjacency_chain_extend (fuel : nat) (arena : list ldp_adjacency)
    (x : ldp_adjacency) (head : option ptr) (l : list ptr) :
  adjacency_chain fuel arena head = Some l ->
  adjacency_chain fuel (arena ++ [x]) head = Some l.
Proof.
  revert head l. induction fuel as [|fuel IH]; intros [a|] l; cbn; try discriminate; auto.
  destruct (arena !! a) as [adj|] eqn:Ha; [|discriminate].
  rewrite (lookup_app_l_Some _ _ _ _ Ha).
  destruct (adjacency_chain fuel arena (adj_next adj)) as [l'|] eqn:Hrest; [|discriminate].
  rewrite (IH _ _ Hrest). auto.
Qed.

(** [ldp_interface_init] returns only on valid pointers. *)
Lemma ldp_interface_init_inv (interface : ptr) (interface_config : bbl_network_config)
    (instance : ptr) (s : state) (r : bool * state) :
  ldp_interface_init interface interface_config instance s = Some r ->
  exists inst ni,
    ldp_instances (mem s) !! instance = Some inst
    /\ network_interfaces (mem s) !! interface = Some ni
    /\ calloc_left (mem s) <> O.
Proof.
  intros Hrun.
  assert (Hleft : calloc_left (mem s) <> O).
  { intros Hzero.
    rewrite (ldp_interface_init_out_of_memory _ _ _ _ Hzero) in Hrun. discriminate. }
  revert Hrun. unfold ldp_interface_init. intros Hrun.
  apply bind_inv in Hrun as (inst & s0 & Hinst & Hrun).
  unfold ldp_instance_at, deref in Hinst.
  destruct (ldp_instances (mem s) !! instance) as [inst0|] eqn:Hi; [|discriminate].
  injection Hinst as <- <-.
  apply bind_inv in Hrun as (ni & s0 & Hni & Hrun).
  unfold network_interface_at, deref in Hni.
  destruct (network_interfaces (mem s) !! interface) as [ni0|] eqn:Hn; [|discriminate].
  eauto.
Qed.

(** C7.  Attaching an LDP instance to a network interface (both pointers
    valid, and memory for the adjacency) returns true and allocates exactly
    one adjacency, at the end of the arena.  The new adjacency is the head
    of the collection of the instance, its [next] being the old head; it
    points back to the instance and to the interface; the interface points
    to it; and a periodic timer with the hello interval of the instance, the
    adjacency as its data and the hello job as its callback is armed and
    kept in the adjacency. *)
Theorem attach_creates_adjacency (interface : ptr) (interface_config : bbl_network_config)
    (instance : ptr) (s : state) (inst : ldp_instance) (ni : bbl_network_interface) :
  ldp_instances (mem s) !! instance = Some inst ->
  network_interfaces (mem s) !! interface = Some ni ->
  calloc_left (mem s) <> O ->
  let a := length (ldp_adjacencies (mem s)) in
  exists s1 adj t,
    ldp_interface_init interface interface_config instance s = Some (true, s1)
    /\ ldp_adjacencies (mem s1) = ldp_adjacencies (mem s) ++ [adj]
    /\ inst_adjacencies <$> ldp_instances (mem s1) !! instance = Some (Some a)
    /\ adj_next adj = inst_adjacencies inst
    /\ (forall fuel l,
          adjacency_chain fuel (ldp_adjacencies (mem s)) (inst_adjacencies inst) = Some l ->
          adjacency_chain (S fuel) (ldp_adjacencies (mem s1)) (Some a) = Some (a :: l))
    /\ adj_instance adj = Some instance
    /\ adj_interface adj = Some interface
    /\ nif_ldp_adjacency <$> network_interfaces (mem s1) !! interface = Some (Some a)
    /\ adj_hello_timer adj = Some t
    /\ timer_root (g_ctx s) !! t = None
    /\ timer_root (g_ctx s1) !! t =
         Some {| timer_name := "LDP hello";
                 timer_sec := ldp_hello_interval (inst_config inst);
                 timer_nsec := 0;
                 timer_periodic := true;
                 timer_data := a;
                 timer_cb_fn := ldp_interface_hello_job_cb |}.
Proof.
  intros Hinst Hni Hleft a. subst a.
  destruct (ldp_interface_init_run interface interface_config instance s inst ni
              Hinst Hni Hleft)
    as (s1 & Hrun & Hadjs & Hinsts & Hnifs & Htimers & _).
  exists s1, (attached_adjacency s interface instance inst),
    (length (timer_root (g_ctx s))).
  split; [exact Hrun|]. split; [exact Hadjs|].
  split; [|split; [reflexivity|split; [|split; [reflexivity|split; [reflexivity|]]]]].
  - rewrite Hinsts, list_lookup_insert_eq by (eapply lookup_lt_Some; exact Hinst).
    reflexivity.
  - intros fuel l Hchain. rewrite Hadjs. cbn [adjacency_chain].
    rewrite snoc_lookup. cbn [attached_adjacency adj_next].
    rewrite (adjacency_chain_extend _ _ _ _ _ Hchain). reflexivity.
  - split; [|split; [reflexivity|split]].
    + rewrite Hnifs, list_lookup_insert_eq by (eapply lookup_lt_Some; exact Hni).
      reflexivity.
    + apply lookup_ge_None. lia.
    + rewrite Htimers. apply snoc_lookup.
Qed.

(** One turn of the event loop makes an adjacency operational only by the
    receipt of a peer Hello for it. *)
Lemma step_operational (e : event) (s s1 : state) (a : ptr) :
  step e s = Some (tt, s1) ->
  adjacency_state_at s1 a = Some OPERATIONAL ->
  adjacency_state_at s a = Some OPERATIONAL \/ e = Peer_hello a.
Proof.
  unfold adjacency_state_at.
  destruct e as [interface interface_config instance|timer|b|b]; cbn [step]; intros Hstep Hop.
  - apply bind_inv in Hstep as (r & s' & Hinit & Hret).
    unfold ret in Hret. injection Hret as <-.
    destruct (ldp_interface_init_inv _ _ _ _ _ Hinit)
      as (inst & ni & Hinst & Hni & Hleft).
    destruct (ldp_interface_init_run interface interface_config instance s inst ni
                Hinst Hni Hleft) as (s1 & Hrun & Hadjs & _).
    rewrite Hrun in Hinit. injection Hinit as _ <-.
    rewrite Hadjs in Hop. left.
    destruct (decide (a < length (ldp_adjacencies (mem s)))%nat) as [Hlt|Hge].
    + rewrite lookup_app_l in Hop by exact Hlt. exact Hop.
    + destruct (decide (a = length (ldp_adjacencies (mem s)))) as [->|Hne].
      * rewrite snoc_lookup in Hop. discriminate.
      * rewrite lookup_ge_None_2 in Hop; [discriminate|].
        rewrite length_app. cbn. lia.
  - apply bind_inv in Hstep as (t & s0 & Hat & Hstep).
    unfold timer_at, deref in Hat.
    destruct (timer_root (g_ctx s) !! timer) as [t0|] eqn:Ht; [|discriminate].
    injection Hat as <- <-. left.
    destruct (timer_cb_fn t0).
    + unfold bbl_interface_rate_job, timer_at, interface_at, deref, ret, bind in Hstep.
      rewrite Ht in Hstep.
      destruct (interfaces (mem s) !! timer_data t0); [|discriminate].
      injection Hstep as <-. exact Hop.
    + apply ldp_interface_hello_job_inv in Hstep as (? & ? & ? & ? & _ & _ & _ & _ & ->).
      exact Hop.
  - unfold ldp_peer_hello, ldp_adjacency_upd, ldp_adjacency_at, deref, modify, bind
      in Hstep.
    destruct (ldp_adjacencies (mem s) !! b) as [adj|] eqn:Hb; [|discriminate].
    injection Hstep as <-. cbn in Hop.
    destruct (decide (b = a)) as [->|Hne]; [right; reflexivity|left].
    rewrite list_lookup_insert_ne in Hop by exact Hne. exact Hop.
  - unfold ldp_hold_expired, ldp_adjacency_upd, ldp_adjacency_at, deref, modify, bind
      in Hstep.
    destruct (ldp_adjacencies (mem s) !! b) as [adj|] eqn:Hb; [|discriminate].
    injection Hstep as <-. cbn in Hop. left.
    destruct (decide (b = a)) as [->|Hne].
    + rewrite list_lookup_insert_eq in Hop by (eapply lookup_lt_Some; exact Hb).
      rewrite Hb. destruct (adj_state adj); cbn in *; congruence.
    + rewrite list_lookup_insert_ne in Hop by exact Hne. exact Hop.
Qed.

(** One turn of the event loop never puts an adjacency into the state
    DOWN: an attachment leaves its new adjacency HELLO_ACTIVE, and the
    transitions of the older adjacencies are between HELLO_ACTIVE and
    OPERATIONAL. *)
Lemma step_not_down (e : event) (s s1 : state) (a : ptr) :
  step e s = Some (tt, s1) ->
  adjacency_state_at s a <> Some DOWN ->
  adjacency_state_at s1 a <> Some DOWN.
Proof.
  unfold adjacency_state_at.
  destruct e as [interface interface_config instance|timer|b|b]; cbn [step];
    intros Hstep Hbefore.
  - apply bind_inv in Hstep as (r & s' & Hinit & Hret).
    unfold ret in Hret. injection Hret as <-.
    destruct (ldp_interface_init_inv _ _ _ _ _ Hinit)
      as (inst & ni & Hinst & Hni & Hleft).
    destruct (ldp_interface_init_run interface interface_config instance s inst ni
                Hinst Hni Hleft) as (s1 & Hrun & Hadjs & _).
    rewrite Hrun in Hinit. injection Hinit as _ <-.
    rewrite Hadjs.
    destruct (decide (a < length (ldp_adjacencies (mem s)))%nat) as [Hlt|Hge].
    + rewrite lookup_app_l by exact Hlt. exact Hbefore.
    + destruct (decide (a = length (ldp_adjacencies (mem s)))) as [->|Hne].
      * rewrite snoc_lookup. discriminate.
      * rewrite lookup_ge_None_2; [discriminate|].
        rewrite length_app. cbn. lia.
  - apply bind_inv in Hstep as (t & s0 & Hat & Hstep).
    unfold timer_at, deref in Hat.
    destruct (timer_root (g_ctx s) !! timer) as [t0|] eqn:Ht; [|discriminate].
    injection Hat as <- <-.
    destruct (timer_cb_fn t0).
    + unfold bbl_interface_rate_job, timer_at, interface_at, deref, ret, bind in Hstep.
      rewrite Ht in Hstep.
      destruct (interfaces (mem s) !! timer_data t0); [|discriminate].
      injection Hstep as <-. exact Hbefore.
    + apply ldp_interface_hello_job_inv in Hstep as (? & ? & ? & ? & _ & _ & _ & _ & ->).
      exact Hbefore.
  - unfold ldp_peer_hello, ldp_adjacency_upd, ldp_adjacency_at, deref, modify, bind
      in Hstep.
    destruct (ldp_adjacencies (mem s) !! b) as [adj|] eqn:Hb; [|discriminate].
    injection Hstep as <-. cbn.
    destruct (decide (b = a)) as [->|Hne].
    + rewrite list_lookup_insert_eq by (eapply lookup_lt_Some; exact Hb).
      rewrite Hb in Hbefore. destruct (adj_state adj); cbn in *; congruence.
    + rewrite list_lookup_insert_ne by exact Hne. exact Hbefore.
  - unfold ldp_hold_expired, ldp_adjacency_upd, ldp_adjacency_at, deref, modify, bind
      in Hstep.
    destruct (ldp_adjacencies (mem s) !! b) as [adj|] eqn:Hb; [|discriminate].
    injection Hstep as <-. cbn.
    destruct (decide (b = a)) as [->|Hne].
    + rewrite list_lookup_insert_eq by (eapply lookup_lt_Some; exact Hb).
      rewrite Hb in Hbefore. destruct (adj_state adj); cbn in *; congruence.
    + rewrite list_lookup_insert_ne by exact Hne. exact Hbefore.
Qed.

Lemma run_not_down (events : list event) (s s1 : state) (a : ptr) :
  run events s = Some (tt, s1) ->
  adjacency_state_at s a <> Some DOWN ->
  adjacency_state_at s1 a <> Some DOWN.
Proof.
  revert s. induction events as [|e events IH]; intros s Hrun Hbefore.
  - cbn in Hrun. unfold ret in Hrun. injection Hrun as <-. exact Hbefore.
  - cbn [run] in Hrun. apply bind_inv in Hrun as ([] & s' & Hstep & Hrun).
    apply (IH s' Hrun). exact (step_not_down _ _ _ _ Hstep Hbefore).
Qed.

Lemma run_operational (events : list event) (s s1 : state) (a : ptr) :
  run events s = Some (tt, s1) ->
  adjacency_state_at s1 a = Some OPERATIONAL ->
  adjacency_state_at s a = Some OPERATIONAL \/ In (Peer_hello a) events.
Proof.
  revert s. induction events as [|e events IH]; intros s Hrun Hop.
  - cbn in Hrun. unfold ret in Hrun. injection Hrun as <-. left. exact Hop.
  - cbn [run] in Hrun. apply bind_inv in Hrun as ([] & s' & Hstep & Hrun).
    destruct (IH _ Hrun Hop) as [Hmid|Hin].
    + destruct (step_operational _ _ _ _ Hstep Hmid) as [Hbefore| ->].
      * left. exact Hbefore.
      * right. left. reflexivity.
    + right. right. exact Hin.
Qed.

(** C3.  With memory for it, the adjacency that [calloc] delivers is in
    state DOWN.  An attachment (valid pointers, memory for the adjacency)
    returns with the new adjacency in state HELLO_ACTIVE, and no send mask
    has changed: no hello timer has fired yet.  Over every run of events, an
    adjacency that the run creates is never seen in state DOWN afterwards:
    it is HELLO_ACTIVE, or it is OPERATIONAL and the run holds a peer Hello
    for it; and an adjacency that is OPERATIONAL after a run was OPERATIONAL
    before or has received a peer Hello. *)
Theorem adjacency_state_machine :
  (forall s,
      calloc_left (mem s) <> O ->
      exists s0,
        calloc_adjacency s = Some (Some (length (ldp_adjacencies (mem s))), s0)
        /\ adjacency_state_at s0 (length (ldp_adjacencies (mem s))) = Some DOWN)
  /\ (forall interface interface_config instance s inst ni,
      ldp_instances (mem s) !! instance = Some inst ->
      network_interfaces (mem s) !! interface = Some ni ->
      calloc_left (mem s) <> O ->
      exists s1,
        ldp_interface_init interface interface_config instance s = Some (true, s1)
        /\ adjacency_state_at s (length (ldp_adjacencies (mem s))) = None
        /\ adjacency_state_at s1 (length (ldp_adjacencies (mem s))) = Some HELLO_ACTIVE
        /\ (forall j, nif_send_requests <$> network_interfaces (mem s1) !! j
                      = nif_send_requests <$> network_interfaces (mem s) !! j))
  /\ (forall events s s1 a st,
      run events s = Some (tt, s1) ->
      adjacency_state_at s a = None ->
      adjacency_state_at s1 a = Some st ->
      st = HELLO_ACTIVE \/ (st = OPERATIONAL /\ In (Peer_hello a) events))
  /\ (forall events s s1 a,
      run events s = Some (tt, s1) ->
      adjacency_state_at s1 a = Some OPERATIONAL ->
      adjacency_state_at s a = Some OPERATIONAL \/ In (Peer_hello a) events).
Proof.
  split; [|split; [|split]].
  - intros s Hleft. unfold calloc_adjacency. unfold_monad.
    destruct (calloc_left (mem s)) as [|n]; [congruence|].
    eexists. split; [reflexivity|].
    unfold adjacency_state_at. cbn. rewrite snoc_lookup. reflexivity.
  - intros interface interface_config instance s inst ni Hinst Hni Hleft.
    destruct (ldp_interface_init_run interface interface_config instance s inst ni
                Hinst Hni Hleft) as (s1 & Hrun & Hadjs & _ & Hnifs & _).
    exists s1. split; [exact Hrun|]. unfold adjacency_state_at. split; [|split].
    + rewrite lookup_ge_None_2 by lia. reflexivity.
    + rewrite Hadjs, snoc_lookup. reflexivity.
    + intros j. rewrite Hnifs.
      destruct (decide (interface = j)) as [->|Hne].
      * rewrite list_lookup_insert_eq by (eapply lookup_lt_Some; exact Hni).
        rewrite Hni. reflexivity.
      * rewrite list_lookup_insert_ne by exact Hne. reflexivity.
  - intros events s s1 a st Hrun Hnew Hst.
    assert (Hnot : adjacency_state_at s1 a <> Some DOWN).
    { apply (run_not_down events s s1 a Hrun). rewrite Hnew. discriminate. }
    destruct st.
    + congruence.
    + left. reflexivity.
    + right. split; [reflexivity|].
      destruct (run_operational events s s1 a Hrun Hst) as [Hbefore|Hin];
        [congruence|exact Hin].
  - intros events s s1 a. apply run_operational.
Qed.

End attach_claims.

(** ** The adjacency engine on a concrete machine *)

Example eth0_attached :
  (fun r => (fst r, ldp_adjacencies (mem (snd r)), timer_root (g_ctx (snd r))))
    <$> ldp_interface_init 0 example_network_config 0 example_ldp_state
  = Some (true,
          [{| adj_next := None; adj_instance := Some 0%nat; adj_interface := Some 0%nat;
              adj_hello_timer := Some 0%nat; adj_state := HELLO_ACTIVE |}],
          [{| timer_name := "LDP hello"; timer_sec := 5; timer_nsec := 0;
              timer_periodic := true; timer_data := 0%nat;
              timer_cb_fn := ldp_interface_hello_job_cb |}]).
Proof. vm_compute. reflexivity. Qed.

Example eth0_hello_requested :
  (fun r => network_interfaces (mem (snd r)))
    <$> fire (defs := example_defs) 3 0 example_attached
  = Some [{| nif_name := "eth0"; nif_send_requests := 1024;
             nif_ldp_adjacency := Some 0%nat |}].
Proof. vm_compute. reflexivity. Qed.

(** C2, witness: three firings of the hello timer of the adjacency of eth0. *)
Lemma hello_firings_coalesce_witness :
  exists s1,
    fire (defs := example_defs) 3 0 example_attached = Some (tt, s1)
    /\ ldp_interface_hello_job (defs := example_defs) 0 s1 = Some (tt, s1)
    /\ exists t a interface ni1,
         timer_root (g_ctx example_attached) !! 0%nat = Some t
         /\ ldp_adjacencies (mem example_attached) !! timer_data t = Some a
         /\ adj_interface a = Some interface
         /\ network_interfaces (mem s1) !! interface = Some ni1
         /\ Z.land (nif_send_requests ni1) (wrap32 1024) = wrap32 1024.
Proof.
  eexists.
  eapply (hello_firings_coalesce (defs := example_defs) 0 3 example_attached).
  - lia.
  - vm_compute. reflexivity.
Defined.

(** C8, witness: one firing of the hello timer of the adjacency of eth0. *)
Lemma hello_job_frame_witness :
  exists s1,
    ldp_interface_hello_job (defs := example_defs) 0 example_attached = Some (tt, s1)
    /\ ldp_adjacencies (mem s1) = ldp_adjacencies (mem example_attached)
    /\ log s1 = log example_attached.
Proof.
  eexists. split; [vm_compute; reflexivity|].
  edestruct (hello_job_frame (defs := example_defs) 0 example_attached)
    as (t & a & interface & ni & _ & _ & _ & _ & _ & _ & Hlog & _ & _ & Hadjs & _).
  - vm_compute. reflexivity.
  - split; [exact Hadjs | exact Hlog].
Defined.

(** C7, witness: the LDP instance is attached to eth0. *)
Lemma attach_creates_adjacency_witness :
  exists s1 adj,
    ldp_interface_init 0 example_network_config 0 example_ldp_state
      = Some (true, s1)
    /\ ldp_adjacencies (mem s1) = [] ++ [adj]
    /\ adj_instance adj = Some 0%nat
    /\ adj_interface adj = Some 0%nat.
Proof.
  edestruct (attach_creates_adjacency 0 example_network_config 0
               example_ldp_state)
    as (s1 & adj & t & Hrun & Hadjs & _ & _ & _ & Hinst & Hif & _).
  - vm_compute. reflexivity.
  - vm_compute. reflexivity.
  - vm_compute. discriminate.
  - exists s1, adj. repeat split; assumption.
Defined.

(** C3, witness: the allocation; the attachment; then a firing of the hello
    timer and a peer Hello. *)
Lemma adjacency_state_machine_witness :
  let events := [Attach 0 example_network_config 0; Timer_fired 0; Peer_hello 0] in
  (exists s0,
      calloc_adjacency example_ldp_state = Some (Some 0%nat, s0)
      /\ adjacency_state_at s0 0 = Some DOWN)
  /\ (exists s1,
      ldp_interface_init 0 example_network_config 0 example_ldp_state
        = Some (true, s1)
      /\ adjacency_state_at example_ldp_state 0 = None
      /\ adjacency_state_at s1 0 = Some HELLO_ACTIVE
      /\ (forall j, nif_send_requests <$> network_interfaces (mem s1) !! j
                    = nif_send_requests <$> network_interfaces (mem example_ldp_state) !! j))
  /\ (exists s1,
      run (defs := example_defs) events example_ldp_state = Some (tt, s1)
      /\ adjacency_state_at s1 0 = Some OPERATIONAL
      /\ (OPERATIONAL = HELLO_ACTIVE
          \/ (OPERATIONAL = OPERATIONAL /\ In (Peer_hello 0) events)))
  /\ (adjacency_state_at example_ldp_state 0 = Some OPERATIONAL
      \/ In (Peer_hello 0) events).
Proof.
  intros events.
  assert (Hrun : exists s1,
    run (defs := example_defs) events example_ldp_state = Some (tt, s1)
    /\ adjacency_state_at s1 0 = Some OPERATIONAL)
    by (eexists; split; vm_compute; reflexivity).
  destruct Hrun as (s1 & Hrun & Hst).
  split; [|split; [|split]].
  - apply (proj1 (adjacency_state_machine (defs := example_defs)) example_ldp_state).
    vm_compute. discriminate.
  - apply (proj1 (proj2 (adjacency_state_machine (defs := example_defs)))
             0%nat example_network_config 0%nat example_ldp_state
             example_ldp_instance example_network_interface);
      vm_compute; first [reflexivity | discriminate].
  - exists s1. split; [exact Hrun|]. split; [exact Hst|].
    apply (proj1 (proj2 (proj2 (adjacency_state_machine (defs := example_defs))))
             events example_ldp_state s1 0%nat OPERATIONAL Hrun);
      [vm_compute; reflexivity | exact Hst].
  - apply (proj2 (proj2 (proj2 (adjacency_state_machine (defs := example_defs))))
             events example_ldp_state s1 0%nat Hrun Hst).
Defined.

(** Two processes and one interface: process 1234 takes the lock of eth0;
    process 4711, on a machine where 1234 is alive, reads the identifier
    back from the lock file and does not get the lock. *)
Example second_process_is_locked_out :
  let first_os :=
    {| os_pid := 1234; os_files := empty; os_fopen_w := writable;
       os_stat := os_stat (example_os empty writable);
       os_siocgifhwaddr := os_siocgifhwaddr (example_os empty writable);
       os_siocgifindex := os_siocgifindex (example_os empty writable);
       os_io_open := os_io_open (example_os empty writable);
       os_remove := os_remove (example_os empty writable) |} in
  match bbl_interface_lock (defs := example_defs) "eth0" (example_state false first_os) with
  | Some (true, s1) =>
      (fun r => (fst r, log (snd r)))
        <$> bbl_interface_lock (defs := example_defs) "eth0"
              (example_state false (example_os (os_files (os s1)) writable))
      = Some (false,
              [(ERROR, Interface_in_use "eth0" 1234 "/run/lock/bngblaster_eth0.lock")])
  | _ => False
  end.
Proof. vm_compute. reflexivity. Qed.

(** * Further properties *)

(** ** Every outcome of a registration *)

Section registration_outcomes.
Context `{defs : bbl_defs}.

Local Arguments snprintf : simpl never.
Local Arguments sprintf_d : simpl never.
Local Arguments wrap32 : simpl never.
Local Arguments load_le : simpl never.
Local Arguments Z.land : simpl never.
Local Arguments bbl_interface_lock : simpl never.
Local Arguments bbl_interface_set_kernel_info : simpl never.

Ltac exec :=
  repeat first [ rewrite snoc_lookup | rewrite snoc_insert | progress cbn ].

Ltac attempted :=
  unfold registration_attempted, same_os_but_files; cbn;
  repeat split; try reflexivity; try assumption.

(** [bbl_interface_set_kernel_info] on a valid pointer always returns; it
    changes the log and, in the record of the interface, the hardware address
    and the index only. *)
Lemma set_kernel_info_fields (interface : ptr) (s : state) (i : bbl_interface) :
  interfaces (mem s) !! interface = Some i ->
  exists (b : bool) (msgs : list (log_id * log_msg)) (i' : bbl_interface),
    bbl_interface_set_kernel_info interface s =
      Some (b, set_log (fun l => l ++ msgs)
                 (set_interfaces (fun l => <[interface := i']> l) s))
    /\ same_but_kernel_fields i i'.
Proof.
  destruct s as [g [c ifs nifs insts adjs] o lg]. cbn [mem interfaces]. intros Hi.
  assert (Hlt : (interface < length ifs)%nat) by (eapply lookup_lt_Some; eassumption).
  unfold bbl_interface_set_kernel_info, same_but_kernel_fields.
  unfold_monad. unfold_setters. rewrite Hi.
  destruct (if_io_mode i =? IO_MODE_DPDK).
  - exists true, [], i. rewrite list_insert_id by exact Hi. rewrite app_nil_r.
    repeat split; reflexivity.
  - cbn.
    destruct (os_siocgifhwaddr o (snprintf IFNAMSIZ (if_name i))) as [sa_data|e]; cbn.
    + rewrite Hi. cbn.
      destruct (os_siocgifindex o (snprintf IFNAMSIZ (if_name i)))
        as [ifr_ifindex|e]; cbn.
      * rewrite list_lookup_insert_eq by exact Hlt. cbn.
        rewrite list_insert_insert_eq.
        eexists true, [], _. rewrite app_nil_r. repeat split; reflexivity.
      * eexists false, _, _. repeat split; reflexivity.
    + eexists false, _, i. rewrite list_insert_id by exact Hi.
      repeat split; reflexivity.
Qed.

(** [bbl_interface_add] with memory left, on every path.  The lock decides:
    without it the registry, the files and the timers stay; with it the
    interface is at the tail of the registry and the lock file is written,
    whatever happens afterwards. *)
Lemma bbl_interface_add_outcome (interface_name : string)
    (link_config : bbl_link_config) (s : state) (n : nat) :
  calloc_left (mem s) = S n ->
  exists r s1 i' locked s_lock,
    bbl_interface_add interface_name link_config s = Some (r, s1)
    /\ bbl_interface_lock interface_name s = Some (locked, s_lock)
    /\ registration_attempted interface_name s s1 i'
    /\ if locked
       then interface_qhead (g_ctx s1) =
              interface_qhead (g_ctx s) ++ [length (interfaces (mem s))]
            /\ os_files (os s1) =
                 <[lock_path_of interface_name := sprintf_d (os_pid (os s))]>
                   (os_files (os s))
            /\ match r with
               | Some p =>
                   p = length (interfaces (mem s))
                   /\ timer_root (g_ctx s1) = timer_root (g_ctx s) ++ [rate_timer p]
                   /\ if_rate_job i' = Some (length (timer_root (g_ctx s)))
                   /\ if_config i' = Some link_config
                   /\ if_io_mode i' = lc_io_mode link_config
                   /\ if_io_rx_buf i' = Some IO_BUFFER_LEN
                   /\ if_io_tx_buf i' = Some IO_BUFFER_LEN
               | None => timer_root (g_ctx s1) = timer_root (g_ctx s)
               end
       else r = None
            /\ interface_qhead (g_ctx s1) = interface_qhead (g_ctx s)
            /\ os_files (os s1) = os_files (os s)
            /\ timer_root (g_ctx s1) = timer_root (g_ctx s)
            /\ log s1 = log s_lock.
Proof.
  intros Hleft.
  unfold bbl_interface_add, calloc_interface.
  destruct s as [[q pi force lcs lags timers] [left ifs nifs insts adjs] o lg].
  cbn in Hleft. subst left. unfold_monad. cbn. unfold_setters. exec.
  match goal with
  | |- context [bbl_interface_lock ?nm ?st] =>
      destruct (bbl_interface_lock_spec nm st) as (locked & msgs & Hspec);
      pose proof (fun H1 H2 => bbl_interface_lock_cong nm st
                    {| g_ctx := {| interface_qhead := q; pcap_index := pi;
                                   interface_lock_force := force; link_config := lcs;
                                   lag_groups := lags; timer_root := timers |};
                       mem := {| calloc_left := S n; interfaces := ifs;
                                 network_interfaces := nifs; ldp_instances := insts;
                                 ldp_adjacencies := adjs |};
                       os := o; log := lg |} _ _ H1 H2 Hspec) as Hc;
      destruct (Hc eq_refl eq_refl) as (s_lock & Hlock & _ & Hlog); clear Hc;
      rewrite Hspec; clear Hspec
  end.
  specialize (Hlog eq_refl).
  destruct locked.
  - unfold_setters. exec.
    match goal with
    | |- context [bbl_interface_set_kernel_info (length ?l) ?st] =>
        destruct (set_kernel_info_fields (length l) st _ (snoc_lookup l _))
          as (bound & kmsgs & i' & Hk & Hname & Hpcap & _);
        rewrite Hk; clear Hk
    end.
    cbn in Hname, Hpcap.
    destruct bound.
    + unfold_setters. exec.
      destruct (negb _); exec;
        (unfold bbl_lag_interface_add, bbl_io_add_interface, timer_add_periodic;
         unfold_monad; unfold_setters; exec;
         destruct (lc_lag link_config) as [group|]; exec;
         [destruct (existsb _ lags); exec |];
         try (destruct (os_io_open o _ _); exec);
         eexists _, _, _, true, s_lock;
         (split; [reflexivity|]); (split; [exact Hlock|]);
         (split; [attempted|]); cbn; repeat split; reflexivity).
    + unfold_setters. exec.
      eexists _, _, _, true, s_lock.
      split; [reflexivity|]. split; [exact Hlock|].
      split; [attempted|]. cbn. repeat split; reflexivity.
  - unfold_setters. exec.
    eexists _, _, _, false, s_lock.
    split; [reflexivity|]. split; [exact Hlock|].
    split; [attempted|]. cbn. repeat split; try reflexivity.
    symmetry. exact Hlog.
Qed.

End registration_outcomes.

Section registration_extras.
Context `{defs : bbl_defs}.

(** X1.  When the lock is refused, [bbl_interface_add] returns NULL and
    neither the registry nor any file nor any timer has changed; the log is
    the one of the lock.  What the attempt has used up stays used up: the
    record from [calloc] is in the arena, with the name, and one
    packet-capture index is gone. *)
Theorem refused_lock_leaves_registry_and_files (interface_name : string)
    (link_config : bbl_link_config) (s s_lock : state) :
  calloc_left (mem s) <> O ->
  bbl_interface_lock interface_name s = Some (false, s_lock) ->
  exists s1 i',
    bbl_interface_add interface_name link_config s = Some (None, s1)
    /\ interface_qhead (g_ctx s1) = interface_qhead (g_ctx s)
    /\ os_files (os s1) = os_files (os s)
    /\ timer_root (g_ctx s1) = timer_root (g_ctx s)
    /\ log s1 = log s_lock
    /\ interfaces (mem s1) = interfaces (mem s) ++ [i']
    /\ if_name i' = interface_name
    /\ S (calloc_left (mem s1)) = calloc_left (mem s)
    /\ pcap_index (g_ctx s1) = wrap32 (pcap_index (g_ctx s) + 1).
Proof.
  intros Hleft Hlock.
  destruct (calloc_left (mem s)) as [|n] eqn:Hn; [congruence|].
  destruct (bbl_interface_add_outcome interface_name link_config s n Hn)
    as (r & s1 & i' & locked & s_lock' & Hadd & Hlock' & Hbase & Hcase).
  rewrite Hlock in Hlock'. injection Hlock' as <- <-.
  destruct Hcase as (-> & Hq & Hfiles & Htimers & Hlog).
  destruct Hbase as (Hc & Hpcap & _ & _ & _ & _ & _ & _ & _ & Hifs & Hname & _).
  exists s1, i'. rewrite Hn in Hc. injection Hc as Hc. rewrite <- Hc.
  repeat split; assumption.
Qed.

(** X2.  The registry and the lock file go together.  Whatever
    [bbl_interface_add] returns, either the registry and the files are as
    they were, or the interface with the name is the new tail of the
    registry and the lock file of the name records this process. *)
Theorem registry_entry_iff_lock_file (interface_name : string)
    (link_config : bbl_link_config) (s s1 : state) (r : option ptr) :
  bbl_interface_add interface_name link_config s = Some (r, s1) ->
  (r = None
   /\ interface_qhead (g_ctx s1) = interface_qhead (g_ctx s)
   /\ os_files (os s1) = os_files (os s))
  \/ (exists i,
        interface_qhead (g_ctx s1) =
          interface_qhead (g_ctx s) ++ [length (interfaces (mem s))]
        /\ interfaces (mem s1) !! length (interfaces (mem s)) = Some i
        /\ if_name i = interface_name
        /\ os_files (os s1) =
             <[lock_path_of interface_name := sprintf_d (os_pid (os s))]>
               (os_files (os s))).
Proof.
  intros Hadd.
  destruct (calloc_left (mem s)) as [|n] eqn:Hn.
  - left. revert Hadd. unfold bbl_interface_add, calloc_interface.
    unfold_monad. rewrite Hn. intros [= <- <-]. auto.
  - destruct (bbl_interface_add_outcome interface_name link_config s n Hn)
      as (r' & s1' & i' & locked & s_lock & Hadd' & _ & Hbase & Hcase).
    rewrite Hadd in Hadd'. injection Hadd' as <- <-.
    destruct Hbase as (_ & _ & _ & _ & _ & _ & _ & _ & _ & Hifs & Hname & _).
    destruct locked.
    + right. destruct Hcase as (Hq & Hfiles & _).
      exists i'. repeat split; try assumption.
      rewrite Hifs. apply snoc_lookup.
    + left. destruct Hcase as (-> & Hq & Hfiles & _). auto.
Qed.

(** X3.  A registration that returns the interface has filled its record:
    the link configuration and its I/O mode are stored, both buffers are
    allocated with [IO_BUFFER_LEN] bytes, the interface has the
    packet-capture index that the counter showed and the counter has
    advanced, and the periodic one-second timer of the rate job is armed on
    the interface and kept in it. *)
Theorem registered_interface_is_set_up (interface_name : string)
    (link_config : bbl_link_config) (s s1 : state) (p : ptr) :
  bbl_interface_add interface_name link_config s = Some (Some p, s1) ->
  exists i t,
    interfaces (mem s1) !! p = Some i
    /\ if_name i = interface_name
    /\ if_config i = Some link_config
    /\ if_io_mode i = lc_io_mode link_config
    /\ if_io_rx_buf i = Some IO_BUFFER_LEN
    /\ if_io_tx_buf i = Some IO_BUFFER_LEN
    /\ if_pcap_index i = pcap_index (g_ctx s)
    /\ pcap_index (g_ctx s1) = wrap32 (pcap_index (g_ctx s) + 1)
    /\ if_rate_job i = Some t
    /\ timer_root (g_ctx s) !! t = None
    /\ timer_root (g_ctx s1) !! t = Some (rate_timer p).
Proof.
  intros Hadd.
  destruct (calloc_left (mem s)) as [|n] eqn:Hn.
  - revert Hadd. unfold bbl_interface_add, calloc_interface.
    unfold_monad. rewrite Hn. discriminate.
  - destruct (bbl_interface_add_outcome interface_name link_config s n Hn)
      as (r' & s1' & i' & locked & s_lock & Hadd' & _ & Hbase & Hcase).
    rewrite Hadd in Hadd'. injection Hadd' as <- <-.
    destruct Hbase as (_ & Hpcap & _ & _ & _ & _ & _ & _ & _ & Hifs & Hname & Hidx).
    destruct locked; [|destruct Hcase as (Hr & _); discriminate].
    destruct Hcase as (_ & _ & -> & Htimers & Hjob & Hconfig & Hmode & Hrx & Htx).
    exists i', (length (timer_root (g_ctx s))).
    repeat split; try assumption.
    + rewrite Hifs. apply snoc_lookup.
    + apply lookup_ge_None. lia.
    + rewrite Htimers. apply snoc_lookup.
Qed.

End registration_extras.

(** X1, witness: eth0 is held by the live process 1234. *)
Lemma refused_lock_leaves_registry_and_files_witness :
  exists s1 i',
    bbl_interface_add (defs := example_defs) "eth0" (example_link "eth0" 0)
      (example_state false (example_os (eth0_lock_file "1234") writable)) = Some (None, s1)
    /\ interface_qhead (g_ctx s1) = []
    /\ os_files (os s1) = eth0_lock_file "1234"
    /\ interfaces (mem s1) = [] ++ [i']
    /\ if_name i' = "eth0"%string.
Proof.
  edestruct (refused_lock_leaves_registry_and_files (defs := example_defs) "eth0"
               (example_link "eth0" 0)
               (example_state false (example_os (eth0_lock_file "1234") writable)))
    as (s1 & i' & Hadd & Hq & Hfiles & _ & _ & Hifs & Hname & _).
  - vm_compute. discriminate.
  - vm_compute. reflexivity.
  - exists s1, i'. repeat split; assumption.
Defined.

(** X2, witness: the registration of eth7, which fails after the lock. *)
Lemma registry_entry_iff_lock_file_witness :
  exists s1,
    bbl_interface_add (defs := example_defs) "eth7" (example_link "eth7" 0)
      (example_state false (example_os empty writable)) = Some (None, s1)
    /\ interface_qhead (g_ctx s1) = [0%nat]
    /\ os_files (os s1) !! "/run/lock/bngblaster_eth7.lock"%string = Some "4711"%string.
Proof.
  eexists. split; [vm_compute; reflexivity|].
  edestruct (registry_entry_iff_lock_file (defs := example_defs) "eth7"
               (example_link "eth7" 0) (example_state false (example_os empty writable)))
    as [(_ & Hq & _)|(i & Hq & _ & _ & Hfiles)].
  - vm_compute. reflexivity.
  - vm_compute in Hq. discriminate.
  - split; [exact Hq|]. rewrite Hfiles. vm_compute. reflexivity.
Defined.

(** X3, witness: the registration of eth0 at startup. *)
Lemma registered_interface_is_set_up_witness :
  exists s1 i t,
    bbl_interface_add (defs := example_defs) "eth0" (example_link "eth0" 0)
      (example_state false (example_os empty writable)) = Some (Some 0%nat, s1)
    /\ interfaces (mem s1) !! 0%nat = Some i
    /\ if_config i = Some (example_link "eth0" 0)
    /\ if_rate_job i = Some t
    /\ timer_root (g_ctx s1) !! t = Some (rate_timer 0).
Proof.
  assert (Hadd : exists s1,
    bbl_interface_add (defs := example_defs) "eth0" (example_link "eth0" 0)
      (example_state false (example_os empty writable)) = Some (Some 0%nat, s1))
    by (eexists; vm_compute; reflexivity).
  destruct Hadd as (s1 & Hadd).
  destruct (registered_interface_is_set_up (defs := example_defs) "eth0"
              (example_link "eth0" 0) (example_state false (example_os empty writable))
              s1 0%nat Hadd)
    as (i & t & Hi & _ & Hconfig & _ & _ & _ & _ & _ & Hjob & _ & Ht).
  exists s1, i, t. auto.
Defined.

(** ** The loop of [bbl_interface_init], whatever it returns *)

Section loop_extras.
Context `{defs : bbl_defs}.

(** [bbl_interface_add] always returns. *)
Lemma bbl_interface_add_returns (interface_name : string)
    (link_config : bbl_link_config) (s : state) :
  exists r s1, bbl_interface_add interface_name link_config s = Some (r, s1).
Proof.
  destruct (calloc_left (mem s)) as [|n] eqn:Hn.
  - unfold bbl_interface_add, calloc_interface. unfold_monad. rewrite Hn. eauto.
  - destruct (bbl_interface_add_outcome interface_name link_config s n Hn)
      as (r & s1 & _ & _ & _ & Hadd & _). eauto.
Qed.

(** The two invariants of the registry pass through [bbl_interface_add]. *)
Lemma bbl_interface_add_keeps_invariants (interface_name : string)
    (link_config : bbl_link_config) (s s1 : state) (r : option ptr) :
  bbl_interface_add interface_name link_config s = Some (r, s1) ->
  registry_valid s -> locks_held s ->
  registry_valid s1 /\ locks_held s1.
Proof.
  intros Hadd Hvalid Hheld.
  destruct (calloc_left (mem s)) as [|n] eqn:Hn.
  - revert Hadd. unfold bbl_interface_add, calloc_interface.
    unfold_monad. rewrite Hn. intros [= <- <-]. auto.
  - destruct (bbl_interface_add_outcome interface_name link_config s n Hn)
      as (r' & s1' & i' & locked & s_lock & Hadd' & _ & Hbase & Hcase).
    rewrite Hadd in Hadd'. injection Hadd' as <- <-.
    destruct Hbase as (_ & _ & (Hpid & _) & _ & _ & _ & _ & _ & _ & Hifs & Hname & _).
    assert (Hold : forall p, In p (interface_qhead (g_ctx s)) ->
                   interfaces (mem s1) !! p = interfaces (mem s) !! p).
    { intros p Hp. rewrite Hifs. apply lookup_app_l.
      unfold registry_valid in Hvalid. rewrite Forall_forall in Hvalid.
      apply Hvalid. apply list_elem_of_In. exact Hp. }
    assert (Hgrow : Forall (fun p => (p < length (interfaces (mem s1)))%nat)
                      (interface_qhead (g_ctx s))).
    { eapply Forall_impl; [exact Hvalid|]. cbn. intros x Hx.
      rewrite Hifs, length_app. lia. }
    unfold registry_valid, locks_held. rewrite Hpid.
    destruct locked.
    + destruct Hcase as (Hq & Hfiles & _). rewrite Hq, Hfiles. split.
      * apply Forall_app. split; [exact Hgrow|].
        apply Forall_cons. split; [|apply Forall_nil; exact I].
        rewrite Hifs, length_app. cbn. lia.
      * intros p i Hin Hi. apply in_app_or in Hin as [Hin|[<-|[]]].
        -- rewrite (Hold p Hin) in Hi.
           destruct (decide (lock_path_of interface_name = lock_path_of (if_name i)))
             as [<-|Hne].
           ++ apply lookup_insert_eq.
           ++ rewrite lookup_insert_ne by exact Hne. exact (Hheld p i Hin Hi).
        -- rewrite Hifs, snoc_lookup in Hi. injection Hi as <-.
           rewrite Hname. apply lookup_insert_eq.
    + destruct Hcase as (_ & Hq & Hfiles & _). rewrite Hq, Hfiles. split.
      * exact Hgrow.
      * intros p i Hin Hi. rewrite (Hold p Hin) in Hi. exact (Hheld p i Hin Hi).
Qed.

(** [bbl_interface_get] on a valid registry leaves the state and returns the
    first entry with the name. *)
Lemma bbl_interface_get_run (interface_name : string) (s : state) :
  registry_valid s ->
  bbl_interface_get interface_name s = Some (head (entries_named interface_name s), s).
Proof.
  intros Hvalid. unfold bbl_interface_get, bind, gets.
  apply interface_find_run. exact Hvalid.
Qed.

(** X4.  From a state whose registry entries all point into the arena, the
    loop of [bbl_interface_init] returns for every chain of link
    configurations (no pointer it follows is dangling), and the registry is
    valid again afterwards; when every registered interface held its lock
    before, every registered interface holds its lock afterwards, whether
    the loop returns true or false. *)
Theorem init_loop_is_safe_and_keeps_locks (chain : list bbl_link_config) (s : state) :
  registry_valid s ->
  exists r s1,
    links_add chain s = Some (r, s1)
    /\ registry_valid s1
    /\ (locks_held s -> locks_held s1).
Proof.
  revert s. induction chain as [|link_config chain IH]; intros s Hvalid.
  - exists true, s. cbn. auto.
  - cbn [links_add]. unfold bind at 1.
    rewrite (bbl_interface_get_run _ _ Hvalid).
    destruct (head (entries_named (lc_interface link_config) s)) as [found|].
    + eexists false, _. split; [reflexivity|]. auto.
    + destruct (bbl_interface_add_returns (lc_interface link_config) link_config s)
        as (r & s' & Hadd).
      unfold bind at 1. rewrite Hadd.
      assert (Hinv : registry_valid s' /\ (locks_held s -> locks_held s')).
      { destruct (calloc_left (mem s)) as [|n] eqn:Hn.
        - revert Hadd. unfold bbl_interface_add, calloc_interface.
          unfold_monad. rewrite Hn. intros [= <- <-]. auto.
        - split.
          + destruct (bbl_interface_add_outcome (lc_interface link_config)
                        link_config s n Hn)
              as (r' & s1' & i' & locked & s_lock & Hadd' & _ & Hbase & Hcase).
            rewrite Hadd in Hadd'. injection Hadd' as <- <-.
            destruct Hbase as (_ & _ & _ & _ & _ & _ & _ & _ & _ & Hifs & _).
            unfold registry_valid in *. rewrite Hifs, length_app.
            assert (Hq : interface_qhead (g_ctx s') = interface_qhead (g_ctx s)
                         \/ interface_qhead (g_ctx s') =
                              interface_qhead (g_ctx s) ++ [length (interfaces (mem s))])
              by (destruct locked; tauto).
            destruct Hq as [-> | ->].
            * eapply Forall_impl; [exact Hvalid|]. cbn. intros; lia.
            * apply Forall_app. split.
              -- eapply Forall_impl; [exact Hvalid|]. cbn. intros; lia.
              -- apply Forall_cons. split; [cbn; lia | apply Forall_nil; exact I].
          + intros Hheld.
            exact (proj2 (bbl_interface_add_keeps_invariants _ _ _ _ _ Hadd Hvalid Hheld)). }
      destruct Hinv as (Hvalid' & Hheld').
      destruct r as [p|].
      * destruct (IH s' Hvalid') as (r & s1 & Hrun & Hvalid1 & Hheld1).
        exists r, s1. auto.
      * eexists false, _. split; [reflexivity|]. auto.
Qed.

(** A name whose registry entries are none is not among the registered
    names. *)
Lemma not_registered (interface_name : string) (s : state) :
  entries_named interface_name s = [] ->
  ~ In (Some interface_name) (registered_names s).
Proof.
  unfold entries_named, registered_names. intros Hnone Hin.
  apply in_map_iff in Hin as (p & Hp & Hin).
  assert (Hfil : In p (List.filter (is_named interface_name s) (interface_qhead (g_ctx s)))).
  { apply List.filter_In. split; [exact Hin|]. unfold is_named.
    destruct (interfaces (mem s) !! p) as [i|]; [|discriminate].
    cbn in Hp. injection Hp as ->. apply String.eqb_refl. }
  rewrite Hnone in Hfil. destruct Hfil.
Qed.

(** X5.  When the loop of [bbl_interface_init] returns true, the registry
    is the old registry followed by the interfaces of the chain in the order
    of the configuration; the names of the chain were pairwise different and
    none of them was registered before. *)
Theorem init_loop_registers_in_order (chain : list bbl_link_config) (s s1 : state) :
  links_add chain s = Some (true, s1) ->
  registered_names s1 =
    registered_names s ++ map (fun lc => Some (lc_interface lc)) chain
  /\ NoDup (map lc_interface chain)
  /\ (forall lc, In lc chain -> ~ In (Some (lc_interface lc)) (registered_names s)).
Proof.
  revert s. induction chain as [|link_config chain IH]; intros s Hrun.
  - cbn in Hrun. unfold ret in Hrun. injection Hrun as <-.
    cbn. rewrite app_nil_r. split; [reflexivity|]. split; [constructor|].
    intros lc [].
  - apply links_add_cons_true in Hrun as (p & s' & Hget & Hadd & Hrest).
    apply bbl_interface_get_none in Hget as (_ & Hvalid & Hnone).
    apply bbl_interface_add_success in Hadd
      as (Hp & Hq & _ & _ & _ & _ & _ & i' & Hifs & Hname).
    assert (Hnames : registered_names s' =
                     registered_names s ++ [Some (lc_interface link_config)]).
    { unfold registered_names. rewrite Hq, map_app. f_equal.
      - apply map_ext_in. intros a Ha. rewrite Hifs, lookup_app_l; [reflexivity|].
        unfold registry_valid in Hvalid. rewrite Forall_forall in Hvalid.
        apply Hvalid. apply list_elem_of_In. exact Ha.
      - cbn. rewrite Hifs, Hp, snoc_lookup. cbn. rewrite Hname. reflexivity. }
    destruct (IH s' Hrest) as (Hall & Hnodup & Hfresh).
    split; [|split].
    + rewrite Hall, Hnames, <- app_assoc. reflexivity.
    + cbn [map]. apply NoDup_cons. split; [|exact Hnodup].
      intros Hin. apply list_elem_of_In in Hin.
      apply in_map_iff in Hin as (lc & Heq & Hlc).
      apply (Hfresh lc Hlc). rewrite Hnames, Heq.
      apply in_or_app. right. left. reflexivity.
    + intros lc [<-|Hlc].
      * apply not_registered. exact Hnone.
      * intros Hin. apply (Hfresh lc Hlc). rewrite Hnames.
        apply in_or_app. left. exact Hin.
Qed.

(** X6.  The loop of [bbl_interface_init] stops at the first link
    configuration that fails: the link configurations behind it play no
    part, neither in the result nor in the state. *)
Theorem init_loop_fails_fast (chain rest : list bbl_link_config) (s s1 : state) :
  links_add chain s = Some (false, s1) ->
  links_add (chain ++ rest) s = Some (false, s1).
Proof.
  revert s. induction chain as [|link_config chain IH]; intros s.
  - cbn. unfold ret. discriminate.
  - cbn [links_add app]. unfold bind.
    destruct (bbl_interface_get (lc_interface link_config) s) as [[[found|] s0]|];
      try (intros H; exact H).
    destruct (bbl_interface_add (lc_interface link_config) link_config s0)
      as [[[p|] s']|]; try (intros H; exact H).
    apply IH.
Qed.

End loop_extras.

(** X4, witness: the chain eth0, eth7, eth0 at startup; the loop stops at
    eth7, which the kernel does not know. *)
Lemma init_loop_is_safe_and_keeps_locks_witness :
  exists r s1,
    links_add (defs := example_defs)
      [example_link "eth0" 0; example_link "eth7" 0; example_link "eth0" 0]
      (example_state false (example_os empty writable)) = Some (r, s1)
    /\ registry_valid s1
    /\ locks_held (defs := example_defs) s1.
Proof.
  edestruct (init_loop_is_safe_and_keeps_locks (defs := example_defs)
               [example_link "eth0" 0; example_link "eth7" 0; example_link "eth0" 0]
               (example_state false (example_os empty writable)))
    as (r & s1 & Hrun & Hvalid & Hheld).
  - vm_compute. constructor.
  - exists r, s1. repeat split; try assumption.
    apply Hheld. intros p i Hin. vm_compute in Hin. destruct Hin.
Defined.

(** X5, witness: the chain eth0 at startup. *)
Lemma init_loop_registers_in_order_witness :
  exists s1,
    links_add (defs := example_defs) [example_link "eth0" 0]
      (example_state false (example_os empty writable)) = Some (true, s1)
    /\ registered_names s1 = [] ++ [Some "eth0"%string].
Proof.
  assert (Hrun : exists s1,
    links_add (defs := example_defs) [example_link "eth0" 0]
      (example_state false (example_os empty writable)) = Some (true, s1))
    by (eexists; vm_compute; reflexivity).
  destruct Hrun as (s1 & Hrun). exists s1. split; [exact Hrun|].
  exact (proj1 (init_loop_registers_in_order (defs := example_defs) _ _ _ Hrun)).
Defined.

(** X6, witness: the chain eth7, followed by eth0 or not. *)
Lemma init_loop_fails_fast_witness :
  exists s1,
    links_add (defs := example_defs) ([example_link "eth7" 0] ++ [example_link "eth0" 0])
      (example_state false (example_os empty writable)) = Some (false, s1)
    /\ registered_names s1 = [Some "eth7"%string].
Proof.
  assert (Hrun : exists s1,
    links_add (defs := example_defs) [example_link "eth7" 0]
      (example_state false (example_os empty writable)) = Some (false, s1)
    /\ registered_names s1 = [Some "eth7"%string])
    by (eexists; split; vm_compute; reflexivity).
  destruct Hrun as (s1 & Hrun & Hnames). exists s1. split; [|exact Hnames].
  exact (init_loop_fails_fast (defs := example_defs) _ _ _ _ Hrun).
Defined.

(** ** The lock file between two processes *)

Lemma scan_digits_string_of_uint (d : Decimal.uint) (acc : Z) :
  scan_digits acc (NilEmpty.string_of_uint d) = uint_value acc d.
Proof.
  revert acc. induction d; intros acc;
    cbn [NilEmpty.string_of_uint uint_value scan_digits]; auto;
    match goal with
    | |- context [digit_of ?c] =>
        let v := eval vm_compute in (digit_of c) in change (digit_of c) with v
    end; apply IHd.
Qed.

Lemma uint_value_acc (d : Decimal.uint) (acc : positive) :
  uint_value (Z.pos acc) d = Z.pos (Pos.of_uint_acc d acc).
Proof.
  revert acc. induction d; intros acc; cbn [uint_value Pos.of_uint_acc];
    try reflexivity;
    match goal with
    | |- uint_value ?z _ = Z.pos (Pos.of_uint_acc _ ?q) =>
        replace z with (Z.pos q) by lia; apply IHd
    end.
Qed.

Lemma uint_value_of_uint (d : Decimal.uint) :
  uint_value 0 d = Z.of_N (Pos.of_uint d).
Proof.
  induction d; cbn [uint_value Pos.of_uint]; try reflexivity;
    try exact IHd; cbn [Z.of_N]; apply (uint_value_acc d).
Qed.

(** A text that starts with a digit is read by ["%d"] as its digits. *)
Lemma fscanf_d_digits (c : ascii) (rest : string) (k : Z) :
  digit_of c = Some k ->
  fscanf_d (String c rest)
    = Some (to_int32 (strtol_clamp (scan_digits 0 (String c rest)))).
Proof.
  intros Hc. unfold fscanf_d.
  assert (Hfacts : isspace c = false /\ Ascii.eqb c "-" = false
                   /\ Ascii.eqb c "+" = false).
  { destruct c as [[|] [|] [|] [|] [|] [|] [|] [|]];
      vm_compute in Hc; try discriminate; vm_compute; auto. }
  destruct Hfacts as (Hspace & Hminus & Hplus).
  cbn [skip_space]. rewrite Hspace, Hminus, Hplus.
  cbn [starts_with_digit]. rewrite Hc. reflexivity.
Qed.

(** What ["%d"] prints of a number of an [int] that is not negative,
    ["%d"] reads back. *)
Lemma fscanf_d_sprintf_d (z : Z) :
  0 <= z < 2 ^ 31 -> fscanf_d (sprintf_d z) = Some z.
Proof.
  intros Hz. unfold sprintf_d.
  assert (Hclamp : to_int32 (strtol_clamp z) = z).
  { unfold to_int32, strtol_clamp, LONG_MIN, LONG_MAX.
    rewrite Z.min_r, Z.max_r by lia. rewrite Z.mod_small by lia. lia. }
  destruct z as [|p|p]; [reflexivity| |lia].
  cbn [Z.to_int NilZero.string_of_int].
  pose proof (DecimalPos.Unsigned.of_to p) as Hof.
  pose proof (DecimalPos.Unsigned.to_uint_nonnil p) as Hnil.
  assert (Hval : scan_digits 0 (NilEmpty.string_of_uint (Pos.to_uint p)) = Z.pos p)
    by (rewrite scan_digits_string_of_uint, uint_value_of_uint, Hof; reflexivity).
  destruct (Pos.to_uint p) as [|d|d|d|d|d|d|d|d|d|d]; [congruence|..];
    cbn [NilZero.string_of_uint NilEmpty.string_of_uint] in *;
    (erewrite fscanf_d_digits by (vm_compute; reflexivity));
    rewrite Hval, Hclamp; reflexivity.
Qed.

Section lock_extras.
Context `{defs : bbl_defs}.

(** X7.  [bbl_interface_lock] always returns, and it touches nothing but
    the log and its own lock file: the context, the heap, the rest of the
    operating system and every other file are as before; the log only
    grows.  When it returns false no file has changed; when it returns true
    its lock file records this process. *)
Theorem lock_touches_only_its_file (interface_name : string) (s : state) :
  exists b s1 msgs,
    bbl_interface_lock interface_name s = Some (b, s1)
    /\ g_ctx s1 = g_ctx s /\ mem s1 = mem s
    /\ same_os_but_files (os s) (os s1)
    /\ log s1 = log s ++ msgs
    /\ (forall path, path <> lock_path_of interface_name ->
          os_files (os s1) !! path = os_files (os s) !! path)
    /\ (if b
        then os_files (os s1) !! lock_path_of interface_name
               = Some (sprintf_d (os_pid (os s)))
        else os_files (os s1) = os_files (os s)).
Proof.
  destruct (bbl_interface_lock_spec interface_name s) as (b & msgs & Hspec).
  eexists b, _, msgs. split; [exact Hspec|].
  unfold same_os_but_files.
  destruct b; cbn; repeat split; try reflexivity.
  - intros path Hne. apply lookup_insert_ne. congruence.
  - apply lookup_insert_eq.
Qed.

(** X8.  The lock excludes a second process.  After a process (with an
    identifier above 1) has taken the lock of an interface, a process that
    finds this lock file while the first one is alive, and that does not
    force the lock, is refused: [bbl_interface_lock] reads the identifier
    back from the file, logs that the interface is in use by that process
    and returns false, leaving the files as they are.  The same process is
    refused as well when it takes the lock a second time. *)
Theorem lock_excludes_second_process (interface_name : string) (s s1 s' : state) :
  bbl_interface_lock interface_name s = Some (true, s1) ->
  1 < os_pid (os s) < 2 ^ 31 ->
  os_files (os s') !! lock_path_of interface_name
    = os_files (os s1) !! lock_path_of interface_name ->
  process_alive (os s') (os_pid (os s)) = true ->
  interface_lock_force (g_ctx s') = false ->
  bbl_interface_lock interface_name s' =
    Some (false,
          logged ERROR
            (Interface_in_use interface_name (os_pid (os s)) (lock_path_of interface_name))
            s').
Proof.
  intros Hlock Hpid Hfile Halive Hforce.
  destruct (bbl_interface_lock_spec interface_name s) as (b & msgs & Hspec).
  rewrite Hspec in Hlock. injection Hlock as -> <-.
  cbn in Hfile. rewrite lookup_insert_eq in Hfile.
  assert (Hrec : recorded_pid (sprintf_d (os_pid (os s))) = Some (os_pid (os s))).
  { unfold recorded_pid. rewrite fscanf_d_sprintf_d by lia.
    destruct (1 <? os_pid (os s)) eqn:Hlt; [reflexivity|].
    apply Z.ltb_ge in Hlt. lia. }
  pose proof (lock_live_holder _ _ _ _ Hfile Hrec Halive) as Hrun.
  cbn zeta in Hrun. rewrite Hforce in Hrun. exact Hrun.
Qed.

End lock_extras.

(** X8, witness: process 4711 takes the lock of eth0 and asks for it
    again. *)
Lemma lock_excludes_second_process_witness :
  let s := example_state false (example_os empty writable) in
  let s1 := lock_written (defs := example_defs) "eth0" s in
  bbl_interface_lock (defs := example_defs) "eth0" s = Some (true, s1)
  /\ bbl_interface_lock (defs := example_defs) "eth0" (relock_example s1)
     = Some (false,
             logged ERROR
               (Interface_in_use "eth0" 4711 (lock_path_of (defs := example_defs) "eth0"))
               (relock_example s1)).
Proof.
  intros s s1.
  assert (Hlock : bbl_interface_lock (defs := example_defs) "eth0" s = Some (true, s1))
    by (vm_compute; reflexivity).
  split; [exact Hlock|].
  apply (lock_excludes_second_process (defs := example_defs) "eth0" s s1
           (relock_example s1) Hlock).
  - vm_compute. split; reflexivity.
  - vm_compute. reflexivity.
  - vm_compute. reflexivity.
  - vm_compute. reflexivity.
Defined.

(** ** Lookup by name *)

(** The first element of a list that passes a test. *)
Lemma head_filter_first {A} (f : A -> bool) (l : list A) :
  match head (List.filter f l) with
  | Some x => exists before after,
                l = before ++ x :: after /\ f x = true
                /\ Forall (fun y => f y = false) before
  | None => Forall (fun y => f y = false) l
  end.
Proof.
  induction l as [|a l IH]; cbn [List.filter]; [constructor|].
  destruct (f a) eqn:Ha.
  - cbn. exists [], l. repeat split; auto.
  - destruct (head (List.filter f l)) as [x|].
    + destruct IH as (before & after & -> & Hx & Hbefore).
      exists (a :: before), after. repeat split; auto.
    + constructor; assumption.
Qed.

Section lookup_extras.
Context `{defs : bbl_defs}.

(** [bbl_interface_add] keeps the registry valid, whatever it returns. *)
Lemma bbl_interface_add_keeps_valid (interface_name : string)
    (link_config : bbl_link_config) (s s1 : state) (r : option ptr) :
  bbl_interface_add interface_name link_config s = Some (r, s1) ->
  registry_valid s -> registry_valid s1.
Proof.
  intros Hadd Hvalid.
  destruct (calloc_left (mem s)) as [|n] eqn:Hn.
  - revert Hadd. unfold bbl_interface_add, calloc_interface.
    unfold_monad. rewrite Hn. intros [= <- <-]. exact Hvalid.
  - destruct (bbl_interface_add_outcome interface_name link_config s n Hn)
      as (r' & s1' & i' & locked & s_lock & Hadd' & _ & Hbase & Hcase).
    rewrite Hadd in Hadd'. injection Hadd' as <- <-.
    destruct Hbase as (_ & _ & _ & _ & _ & _ & _ & _ & _ & Hifs & _).
    unfold registry_valid in *. rewrite Hifs, length_app.
    assert (Hq : interface_qhead (g_ctx s1) = interface_qhead (g_ctx s)
                 \/ interface_qhead (g_ctx s1) =
                      interface_qhead (g_ctx s) ++ [length (interfaces (mem s))])
      by (destruct locked; tauto).
    destruct Hq as [-> | ->].
    + eapply Forall_impl; [exact Hvalid|]. cbn. intros; lia.
    + apply Forall_app. split.
      * eapply Forall_impl; [exact Hvalid|]. cbn. intros; lia.
      * apply Forall_cons. split; [cbn; lia | apply Forall_nil; exact I].
Qed.

(** X9.  On a registry whose entries all point into the arena,
    [bbl_interface_get] changes nothing and returns the first entry whose
    interface has the name: the entries before it have other names.  It
    returns NULL exactly when no entry has the name. *)
Theorem get_returns_first_entry_with_name (interface_name : string) (s : state) :
  registry_valid s ->
  exists r,
    bbl_interface_get interface_name s = Some (r, s)
    /\ match r with
       | Some p =>
           exists before after i,
             interface_qhead (g_ctx s) = before ++ p :: after
             /\ interfaces (mem s) !! p = Some i /\ if_name i = interface_name
             /\ Forall (fun q => is_named interface_name s q = false) before
       | None =>
           Forall (fun q => is_named interface_name s q = false)
             (interface_qhead (g_ctx s))
       end.
Proof.
  intros Hvalid. eexists. split; [apply bbl_interface_get_run; exact Hvalid|].
  unfold entries_named.
  pose proof (head_filter_first (is_named interface_name s) (interface_qhead (g_ctx s)))
    as Hfirst.
  destruct (head (List.filter (is_named interface_name s) (interface_qhead (g_ctx s))))
    as [p|]; [|exact Hfirst].
  destruct Hfirst as (before & after & Hq & Hp & Hbefore).
  unfold is_named in Hp.
  destruct (interfaces (mem s) !! p) as [i|] eqn:Hi; [|discriminate].
  apply String.eqb_eq in Hp.
  exists before, after, i. auto.
Qed.

(** X10.  Registration and lookup.  After a registration on a valid
    registry has returned the interface, [bbl_interface_get] finds an
    interface for the name, and it is the new interface when the name was
    not registered before; for every other name the answer of
    [bbl_interface_get] is the one it gave before. *)
Theorem get_after_registration (interface_name : string) (link_config : bbl_link_config)
    (s s1 : state) (p : ptr) :
  registry_valid s ->
  bbl_interface_add interface_name link_config s = Some (Some p, s1) ->
  (exists found,
      bbl_interface_get interface_name s1 = Some (Some found, s1)
      /\ (entries_named interface_name s = [] -> found = p))
  /\ (forall other,
        other <> interface_name ->
        fst <$> bbl_interface_get other s1 = fst <$> bbl_interface_get other s).
Proof.
  intros Hvalid Hadd.
  destruct (bbl_interface_add_registry _ _ _ _ _ Hvalid Hadd) as (Hvalid1 & Hentries).
  split.
  - rewrite (bbl_interface_get_run _ _ Hvalid1), Hentries, String.eqb_refl.
    destruct (entries_named interface_name s) as [|first others].
    + exists p. split; [reflexivity|auto].
    + exists first. split; [reflexivity|]. discriminate.
  - intros other Hother.
    rewrite (bbl_interface_get_run _ _ Hvalid1), (bbl_interface_get_run _ _ Hvalid).
    rewrite Hentries.
    destruct (String.eqb interface_name other) eqn:Heq.
    + apply String.eqb_eq in Heq. congruence.
    + rewrite app_nil_r. reflexivity.
Qed.

(** X11.  A name whose registration has failed after the lock cannot be
    tried again: the interface has stayed in the registry, and the loop of
    [bbl_interface_init] answers the next link configuration of that name
    with the error of a duplicate link configuration, without touching
    anything but the log. *)
Theorem failed_registration_blocks_its_name (interface_name : string)
    (link_config retry : bbl_link_config) (rest : list bbl_link_config)
    (s s1 s_lock : state) :
  registry_valid s ->
  bbl_interface_lock interface_name s = Some (true, s_lock) ->
  bbl_interface_add interface_name link_config s = Some (None, s1) ->
  lc_interface retry = interface_name ->
  calloc_left (mem s) <> O ->
  links_add (retry :: rest) s1 =
    Some (false, logged ERROR (Failed_to_add_link_duplicate interface_name) s1).
Proof.
  intros Hvalid Hlock Hadd Hretry Hleft.
  pose proof (bbl_interface_add_keeps_valid _ _ _ _ _ Hadd Hvalid) as Hvalid1.
  destruct (calloc_left (mem s)) as [|n] eqn:Hn; [congruence|].
  destruct (bbl_interface_add_outcome interface_name link_config s n Hn)
    as (r' & s1' & i' & locked & s_lock' & Hadd' & Hlock' & Hbase & Hcase).
  rewrite Hadd in Hadd'. injection Hadd' as <- <-.
  rewrite Hlock in Hlock'. injection Hlock' as <- <-.
  destruct Hbase as (_ & _ & _ & _ & _ & _ & _ & _ & _ & Hifs & Hname & _).
  destruct Hcase as (Hq & _).
  destruct (bbl_interface_get_found interface_name s1 Hvalid1) as (found & Hget).
  - unfold entries_named. rewrite Hq, List.filter_app. cbn [List.filter].
    unfold is_named at 2. rewrite Hifs, snoc_lookup, Hname, String.eqb_refl.
    intros Hnil. apply app_eq_nil in Hnil as (_ & Hnil). discriminate.
  - cbn [links_add]. rewrite Hretry. unfold bind at 1. rewrite Hget. reflexivity.
Qed.

End lookup_extras.

(** X9, witness: eth1 among eth0, eth1. *)
Lemma get_returns_first_entry_with_name_witness :
  exists p before after i,
    bbl_interface_get "eth1" two_registered = Some (Some p, two_registered)
    /\ interface_qhead (g_ctx two_registered) = before ++ p :: after
    /\ interfaces (mem two_registered) !! p = Some i /\ if_name i = "eth1"%string
    /\ Forall (fun q => is_named "eth1" two_registered q = false) before.
Proof.
  destruct (get_returns_first_entry_with_name "eth1" two_registered)
    as (r & Hget & Hr).
  - vm_compute. repeat constructor.
  - assert (Hsome : bbl_interface_get "eth1" two_registered
                    = Some (Some 1%nat, two_registered)) by (vm_compute; reflexivity).
    rewrite Hsome in Hget. injection Hget as <-.
    destruct Hr as (before & after & i & Hq & Hi & Hname & Hbefore).
    exists 1%nat, before, after, i. auto.
Defined.

(** X10, witness: eth0 is registered at startup and looked up. *)
Lemma get_after_registration_witness :
  exists s1 found,
    bbl_interface_add (defs := example_defs) "eth0" (example_link "eth0" 0)
      (example_state false (example_os empty writable)) = Some (Some 0%nat, s1)
    /\ bbl_interface_get "eth0" s1 = Some (Some found, s1)
    /\ found = 0%nat.
Proof.
  assert (Hadd : exists s1,
    bbl_interface_add (defs := example_defs) "eth0" (example_link "eth0" 0)
      (example_state false (example_os empty writable)) = Some (Some 0%nat, s1))
    by (eexists; vm_compute; reflexivity).
  destruct Hadd as (s1 & Hadd).
  destruct (get_after_registration (defs := example_defs) "eth0" (example_link "eth0" 0)
              (example_state false (example_os empty writable)) s1 0%nat)
    as ((found & Hget & Hnew) & _).
  - vm_compute. constructor.
  - exact Hadd.
  - exists s1, found. repeat split; try assumption.
    apply Hnew. vm_compute. reflexivity.
Defined.

(** X11, witness: eth7, which the kernel does not know, is tried twice. *)
Lemma failed_registration_blocks_its_name_witness :
  exists s1,
    bbl_interface_add (defs := example_defs) "eth7" (example_link "eth7" 0)
      (example_state false (example_os empty writable)) = Some (None, s1)
    /\ links_add (defs := example_defs) [example_link "eth7" 0] s1
       = Some (false, logged ERROR (Failed_to_add_link_duplicate "eth7") s1).
Proof.
  assert (Hadd : exists s1,
    bbl_interface_add (defs := example_defs) "eth7" (example_link "eth7" 0)
      (example_state false (example_os empty writable)) = Some (None, s1))
    by (eexists; vm_compute; reflexivity).
  destruct Hadd as (s1 & Hadd). exists s1. split; [exact Hadd|].
  eapply (failed_registration_blocks_its_name (defs := example_defs) "eth7"
            (example_link "eth7" 0) (example_link "eth7" 0) []
            (example_state false (example_os empty writable))).
  - vm_compute. constructor.
  - vm_compute. reflexivity.
  - exact Hadd.
  - reflexivity.
  - vm_compute. discriminate.
Defined.

(** ** Release of the locks *)

Section release_extras.
Context `{defs : bbl_defs}.

(** The loop of [bbl_interface_unlock_all] over pointers into the arena
    returns, and removes exactly the lock files of their interfaces that
    [remove] removes. *)
Lemma unlock_each_exact (q : list ptr) (s : state) :
  Forall (fun p => (p < length (interfaces (mem s)))%nat) q ->
  exists s',
    unlock_each q s = Some (tt, s')
    /\ g_ctx s' = g_ctx s /\ mem s' = mem s /\ log s' = log s
    /\ same_os_but_files (os s) (os s')
    /\ forall path,
         os_files (os s') !! path =
           if bool_decide (path ∈ lock_paths_of (mem s) q) && removable (os s) path
           then None
           else os_files (os s) !! path.
Proof.
  revert s. induction q as [|a q IH]; intros s Hvalid.
  - exists s. cbn. unfold ret, same_os_but_files. repeat split; auto.
  - apply Forall_cons in Hvalid as (Ha & Hq).
    destruct (lookup_lt_is_Some_2 _ _ Ha) as (ia & Hia).
    assert (Hpaths : lock_paths_of (mem s) (a :: q)
                     = lock_path_of (if_name ia) :: lock_paths_of (mem s) q).
    { unfold lock_paths_of. cbn [omap list_omap]. rewrite Hia. reflexivity. }
    assert (Hstep : forall s0, unlock_each (a :: q) s =
              match remove (lock_path_of (if_name ia)) s with
              | Some (_, s_mid) => unlock_each q s_mid
              | None => s0
              end).
    { intros s0. cbn [unlock_each]. unfold bind at 1, interface_at, deref.
      rewrite Hia. unfold bind at 1.
      destruct (remove (lock_path_of (if_name ia)) s) as [[[] s_mid]|] eqn:Hremove;
        [reflexivity|].
      unfold remove, bind, gets in Hremove.
      destruct (os_remove (os s) (lock_path_of (if_name ia))); discriminate. }
    rewrite (Hstep None), Hpaths. clear Hstep.
    unfold remove, bind, gets, removable.
    destruct (os_remove (os s) (lock_path_of (if_name ia))) as [[]|e] eqn:Hremove;
      unfold modify, ret.
    + destruct (IH (set_os_files
                      (fun files => delete (lock_path_of (if_name ia)) files) s))
        as (s' & Hrun & Hg & Hm & Hl & Hos & Hfiles); [exact Hq|].
      exists s'. split; [exact Hrun|].
      assert (Hfiles' : forall path,
                os_files (os s') !! path =
                  if bool_decide (path ∈ lock_paths_of (mem s) q)
                     && removable (os s) path
                  then None
                  else delete (lock_path_of (if_name ia)) (os_files (os s)) !! path)
        by exact Hfiles.
      clear Hfiles. unfold same_os_but_files in *. cbn in Hos, Hg, Hm, Hl.
      repeat split; try tauto.
      intros path. rewrite Hfiles'. unfold removable.
      destruct (decide (path = lock_path_of (if_name ia))) as [->|Hne].
      * rewrite lookup_delete_eq, Hremove.
        rewrite (bool_decide_eq_true_2 (_ ∈ _ :: _)) by (apply list_elem_of_here).
        destruct (bool_decide _); reflexivity.
      * rewrite lookup_delete_ne by congruence.
        apply (f_equal (fun b : bool =>
                 if b && match os_remove (os s) path with
                         | SysOk _ => true
                         | SysErr _ => false
                         end
                 then None else os_files (os s) !! path)).
        apply bool_decide_ext. rewrite elem_of_cons. tauto.
    + destruct (IH s) as (s' & Hrun & Hg & Hm & Hl & Hos & Hfiles); [exact Hq|].
      exists s'. split; [exact Hrun|].
      repeat split; try tauto; try apply Hos.
      intros path. rewrite Hfiles. unfold removable.
      destruct (decide (path = lock_path_of (if_name ia))) as [->|Hne].
      * rewrite Hremove, !andb_false_r. reflexivity.
      * apply (f_equal (fun b : bool =>
                 if b && match os_remove (os s) path with
                         | SysOk _ => true
                         | SysErr _ => false
                         end
                 then None else os_files (os s) !! path)).
        apply bool_decide_ext. rewrite elem_of_cons. tauto.
Qed.

(** When the lock files that [remove] removes are gone the loop changes
    nothing. *)
Lemma unlock_each_noop (q : list ptr) (s : state) :
  Forall (fun p => (p < length (interfaces (mem s)))%nat) q ->
  (forall path, path ∈ lock_paths_of (mem s) q -> removable (os s) path = true ->
     os_files (os s) !! path = None) ->
  unlock_each q s = Some (tt, s).
Proof.
  induction q as [|a q IH]; intros Hvalid Hgone; [reflexivity|].
  apply Forall_cons in Hvalid as (Ha & Hq).
  destruct (lookup_lt_is_Some_2 _ _ Ha) as (ia & Hia).
  assert (Hpaths : lock_paths_of (mem s) (a :: q)
                   = lock_path_of (if_name ia) :: lock_paths_of (mem s) q).
  { unfold lock_paths_of. cbn [omap list_omap]. rewrite Hia. reflexivity. }
  rewrite Hpaths in Hgone.
  assert (Hsame : remove (lock_path_of (if_name ia)) s = Some (tt, s)).
  { unfold remove, bind, gets.
    pose proof (Hgone (lock_path_of (if_name ia)) (list_elem_of_here _ _)) as Hthis.
    unfold removable in Hthis.
    destruct (os_remove (os s) (lock_path_of (if_name ia))) as [[]|e]; [|reflexivity].
    unfold modify. f_equal. f_equal.
    destruct s as [g m o lg]. destruct o. unfold set_os_files. cbn in *.
    rewrite delete_id; [reflexivity|]. apply Hthis. reflexivity. }
  cbn [unlock_each]. unfold bind at 1, interface_at, deref. rewrite Hia.
  unfold bind at 1. rewrite Hsame. apply IH; [exact Hq|].
  intros path Hpath. apply Hgone. apply list_elem_of_further. exact Hpath.
Qed.

(** X12.  On a registry whose entries all point into the arena,
    [bbl_interface_unlock_all] returns.  Afterwards a file is gone when its
    path is the lock path of a registered interface and [remove] succeeds
    on it, and is as before otherwise: the result of [remove] is not looked
    at, so a lock file that cannot be removed stays.  The registry, the
    heap, the log and the rest of the operating system are unchanged, and a
    second release changes nothing. *)
Theorem unlock_all_removes_the_registered_locks (s : state) :
  registry_valid s ->
  exists s',
    bbl_interface_unlock_all s = Some (tt, s')
    /\ g_ctx s' = g_ctx s /\ mem s' = mem s /\ log s' = log s
    /\ same_os_but_files (os s) (os s')
    /\ (forall path,
          os_files (os s') !! path =
            if bool_decide (path ∈ registered_lock_paths s) && removable (os s) path
            then None
            else os_files (os s) !! path)
    /\ bbl_interface_unlock_all s' = Some (tt, s').
Proof.
  intros Hvalid.
  destruct (unlock_each_exact (interface_qhead (g_ctx s)) s Hvalid)
    as (s' & Hrun & Hg & Hm & Hl & Hos & Hfiles).
  exists s'. unfold bbl_interface_unlock_all, bind, gets.
  repeat split; try assumption; try apply Hos.
  rewrite Hg. apply unlock_each_noop.
  - rewrite Hm. exact Hvalid.
  - intros path Hpath Hremovable. rewrite Hfiles. rewrite Hm in Hpath.
    rewrite bool_decide_eq_true_2 by exact Hpath.
    assert (Hsame : removable (os s) path = removable (os s') path).
    { unfold removable. destruct Hos as (_ & _ & _ & _ & _ & _ & ->). reflexivity. }
    rewrite Hsame, Hremovable. reflexivity.
Qed.

End release_extras.

(** X12, witness: eth0 is released, the lock file of eth1 cannot be removed
    and stays, and so does the third file. *)
Lemma unlock_all_removes_the_registered_locks_witness :
  exists s',
    bbl_interface_unlock_all (defs := example_defs) two_locked = Some (tt, s')
    /\ os_files (os s') !! lock_path_of (defs := example_defs) "eth0" = None
    /\ os_files (os s') !! lock_path_of (defs := example_defs) "eth1"
         = Some "4711"%string
    /\ os_files (os s') !! "/run/lock/other.lock"%string = Some "1"%string.
Proof.
  destruct (unlock_all_removes_the_registered_locks (defs := example_defs) two_locked)
    as (s' & Hrun & _ & _ & _ & _ & Hfiles & _).
  - vm_compute. repeat constructor.
  - exists s'. split; [exact Hrun|].
    rewrite !Hfiles. repeat split; reflexivity.
Defined.

(** ** The kernel binding *)

Section kernel_extras.
Context `{defs : bbl_defs}.

(** X13.  [bbl_interface_set_kernel_info] on an interface of the arena
    returns true exactly when the interface is in DPDK mode or both kernel
    lookups succeed.  It changes at most the hardware address and the index
    of that interface (nothing at all in DPDK mode); when it returns true
    it logs nothing, and when it returns false it logs exactly one error,
    which names the interface. *)
Theorem kernel_binding_contract (interface : ptr) (s : state) (i : bbl_interface) :
  interfaces (mem s) !! interface = Some i ->
  exists (b : bool) (msgs : list (log_id * log_msg)) (i' : bbl_interface),
    bbl_interface_set_kernel_info interface s =
      Some (b, set_log (fun l => l ++ msgs)
                 (set_interfaces (fun l => <[interface := i']> l) s))
    /\ same_but_kernel_fields i i'
    /\ (b = true <->
        if_io_mode i = IO_MODE_DPDK \/ kernel_lookups_ok (os s) (if_name i) = true)
    /\ (if_io_mode i = IO_MODE_DPDK -> i' = i)
    /\ (if b then msgs = []
        else exists entry, msgs = [entry] /\ kernel_binding_error (if_name i) entry).
Proof.
  destruct s as [g [c ifs nifs insts adjs] o lg]. cbn [mem interfaces os]. intros Hi.
  assert (Hlt : (interface < length ifs)%nat) by (eapply lookup_lt_Some; eassumption).
  unfold bbl_interface_set_kernel_info, same_but_kernel_fields, kernel_lookups_ok,
    kernel_binding_error.
  unfold_monad. unfold_setters. rewrite Hi.
  destruct (if_io_mode i =? IO_MODE_DPDK) eqn:Hmode.
  - apply Z.eqb_eq in Hmode.
    exists true, [], i. rewrite list_insert_id by exact Hi. rewrite app_nil_r.
    repeat split; auto.
  - apply Z.eqb_neq in Hmode. cbn.
    destruct (os_siocgifhwaddr o (snprintf IFNAMSIZ (if_name i))) as [sa_data|e]; cbn.
    + rewrite Hi. cbn.
      destruct (os_siocgifindex o (snprintf IFNAMSIZ (if_name i)))
        as [ifr_ifindex|e]; cbn.
      * rewrite list_lookup_insert_eq by exact Hlt. cbn.
        rewrite list_insert_insert_eq.
        eexists true, [], _. rewrite app_nil_r.
        repeat split; auto; try reflexivity. intros; contradiction.
      * eexists false, _, _. split; [reflexivity|].
        repeat split; try reflexivity; try discriminate; try (intros; contradiction).
        -- intros [?|?]; [contradiction|discriminate].
        -- eexists. split; [reflexivity|]. exists e. right. reflexivity.
    + eexists false, _, i. rewrite list_insert_id by exact Hi.
      split; [reflexivity|].
      repeat split; try reflexivity; try discriminate.
      * intros [?|?]; [contradiction|discriminate].
      * eexists. split; [reflexivity|]. exists e. left. reflexivity.
Qed.

End kernel_extras.

(** X13, witness: the registered interface eth0, which the kernel knows. *)
Lemma kernel_binding_contract_witness :
  exists s1,
    bbl_interface_set_kernel_info (defs := example_defs) 0%nat two_registered
      = Some (true, s1)
    /\ log s1 = log two_registered.
Proof.
  destruct (kernel_binding_contract (defs := example_defs) 0%nat two_registered
              (with_if_name "eth0" bbl_interface_zero))
    as (b & msgs & i' & Hrun & _ & Hiff & _ & Hmsgs).
  - reflexivity.
  - assert (b = true) as -> by (apply Hiff; right; vm_compute; reflexivity).
    subst msgs. eexists. split; [exact Hrun|]. reflexivity.
Defined.

(** ** The packet-capture indexes *)

Section pcap_extras.
Context `{defs : bbl_defs}.

(** X14.  When the loop of [bbl_interface_init] returns true from a state
    whose packet-capture indexes follow the registry, they follow the
    registry afterwards: the interface at position [k] of the registry has
    the packet-capture index [k], provided the index does not wrap around
    at 2^32. *)
Theorem init_loop_numbers_the_interfaces (chain : list bbl_link_config) (s s1 : state) :
  links_add chain s = Some (true, s1) ->
  pcap_numbered s ->
  Z.of_nat (length (interface_qhead (g_ctx s)) + length chain) < 2 ^ 32 ->
  pcap_numbered s1
  /\ length (interface_qhead (g_ctx s1)) =
       (length (interface_qhead (g_ctx s)) + length chain)%nat.
Proof.
  revert s. induction chain as [|link_config chain IH]; intros s Hrun Hnum Hbound.
  - cbn in Hrun. unfold ret in Hrun. injection Hrun as <-.
    split; [exact Hnum|]. cbn. lia.
  - apply links_add_cons_true in Hrun as (p & s' & Hget & Hadd & Hrest).
    apply bbl_interface_get_none in Hget as (_ & Hvalid & _).
    assert (Hleft : exists n, calloc_left (mem s) = S n).
    { destruct (calloc_left (mem s)) as [|n] eqn:Hn; [|eauto].
      revert Hadd. unfold bbl_interface_add, calloc_interface.
      unfold_monad. rewrite Hn. discriminate. }
    destruct Hleft as (n & Hn).
    destruct (bbl_interface_add_outcome (lc_interface link_config) link_config s n Hn)
      as (r' & s1' & i' & locked & s_lock & Hadd' & _ & Hbase & Hcase).
    rewrite Hadd in Hadd'. injection Hadd' as <- <-.
    destruct Hbase as (_ & Hpcap & _ & _ & _ & _ & _ & _ & _ & Hifs & _ & Hidx).
    assert (Hq : interface_qhead (g_ctx s') =
                 interface_qhead (g_ctx s) ++ [length (interfaces (mem s))]).
    { destruct locked; [tauto|]. destruct Hcase as (Hnone & _). discriminate. }
    destruct Hnum as (Hnext & Hpos).
    cbn [length] in Hbound.
    assert (Hnum' : pcap_numbered s').
    { split.
      - rewrite Hpcap, Hq, length_app, Hnext. cbn [length]. unfold wrap32.
        rewrite Z.mod_small by lia. lia.
      - intros k q i Hk Hi. rewrite Hq in Hk.
        destruct (decide (k < length (interface_qhead (g_ctx s)))%nat) as [Hlt|Hge].
        + rewrite lookup_app_l in Hk by exact Hlt.
          assert (Hqlt : (q < length (interfaces (mem s)))%nat).
          { unfold registry_valid in Hvalid. rewrite Forall_forall in Hvalid.
            apply Hvalid. eapply list_elem_of_lookup_2. exact Hk. }
          rewrite Hifs, lookup_app_l in Hi by exact Hqlt.
          exact (Hpos k q i Hk Hi).
        + assert (Hlen : (k < length (interface_qhead (g_ctx s) ++
                                     [length (interfaces (mem s))]))%nat)
            by (eapply lookup_lt_Some; exact Hk).
          rewrite length_app in Hlen. cbn [length] in Hlen.
          assert (k = length (interface_qhead (g_ctx s))) as -> by lia.
          rewrite snoc_lookup in Hk. injection Hk as <-.
          rewrite Hifs, snoc_lookup in Hi. injection Hi as <-.
          rewrite Hidx. exact Hnext. }
    destruct (IH s' Hrest Hnum') as (Hnum1 & Hlen1).
    + rewrite Hq, length_app. cbn [length]. lia.
    + split; [exact Hnum1|]. rewrite Hlen1, Hq, length_app. cbn [length]. lia.
Qed.

End pcap_extras.

(** X14, witness: eth0 is registered at startup. *)
Lemma init_loop_numbers_the_interfaces_witness :
  exists s1,
    links_add (defs := example_defs) [example_link "eth0" 0]
      (example_state false (example_os empty writable)) = Some (true, s1)
    /\ pcap_numbered s1
    /\ length (interface_qhead (g_ctx s1)) = 1%nat.
Proof.
  assert (Hrun : exists s1,
    links_add (defs := example_defs) [example_link "eth0" 0]
      (example_state false (example_os empty writable)) = Some (true, s1))
    by (eexists; vm_compute; reflexivity).
  destruct Hrun as (s1 & Hrun). exists s1. split; [exact Hrun|].
  apply (init_loop_numbers_the_interfaces (defs := example_defs) _ _ _ Hrun).
  - split; [vm_compute; reflexivity|]. intros k p i Hk. destruct k; discriminate Hk.
  - vm_compute. reflexivity.
Defined.

(** ** The hello jobs of several timers *)

Lemma insert_alter_lookup {A} (f : A -> A) (l : list A) (i : nat) (x : A) :
  l !! i = Some x -> <[i := f x]> l = alter f i l.
Proof.
  revert i. induction l as [|y l IH]; intros [|i] Hi; try discriminate; cbn in *.
  - injection Hi as ->. reflexivity.
  - f_equal. apply IH. exact Hi.
Qed.

Section hello_extras.
Context `{defs : bbl_defs}.

(** The hello job in terms of its target. *)
Lemma hello_job_target (timer : ptr) (s : state) :
  ldp_interface_hello_job timer s =
    match hello_target timer s with
    | Some interface => Some (tt, request_hello interface s)
    | None => None
    end.
Proof.
  unfold hello_target.
  destruct (timer_root (g_ctx s) !! timer) as [t|] eqn:Ht;
    [|unfold ldp_interface_hello_job; unfold_monad; rewrite Ht; reflexivity].
  destruct (ldp_adjacencies (mem s) !! timer_data t) as [a|] eqn:Ha;
    [|unfold ldp_interface_hello_job; unfold_monad; rewrite Ht, Ha; reflexivity].
  destruct (adj_interface a) as [interface|] eqn:Hai;
    [|unfold ldp_interface_hello_job; unfold_monad; rewrite Ht, Ha, Hai; reflexivity].
  destruct (Nat.ltb_spec interface (length (network_interfaces (mem s)))) as [Hlt|Hge].
  - destruct (lookup_lt_is_Some_2 _ _ Hlt) as (ni & Hni).
    rewrite (ldp_interface_hello_job_run timer s t a interface ni Ht Ha Hai Hni).
    unfold request_hello, set_network_interfaces.
    rewrite (insert_alter_lookup hello_requested _ _ _ Hni). reflexivity.
  - unfold ldp_interface_hello_job. unfold_monad.
    rewrite Ht, Ha, Hai, (lookup_ge_None_2 _ _ Hge). reflexivity.
Qed.

Lemma hello_target_request (timer interface : ptr) (s : state) :
  hello_target timer (request_hello interface s) = hello_target timer s.
Proof.
  unfold hello_target, request_hello, set_network_interfaces. cbn.
  rewrite length_alter. reflexivity.
Qed.

Lemma request_hello_commute (i j : ptr) (s : state) :
  request_hello i (request_hello j s) = request_hello j (request_hello i s).
Proof.
  unfold request_hello, set_network_interfaces. cbn.
  destruct (decide (i = j)) as [->|Hne]; [reflexivity|].
  rewrite (list_alter_alter_ne hello_requested hello_requested _ i j Hne). reflexivity.
Qed.

(** X15.  The hello jobs of two timers commute: fired in either order they
    give the same outcome, the same state when both return, and undefined
    behaviour in both orders when one of them follows a dangling pointer. *)
Theorem hello_jobs_commute (timer1 timer2 : ptr) (s : state) :
  (ldp_interface_hello_job timer1 ;; ldp_interface_hello_job timer2) s
  = (ldp_interface_hello_job timer2 ;; ldp_interface_hello_job timer1) s.
Proof.
  unfold bind.
  rewrite (hello_job_target timer1 s), (hello_job_target timer2 s).
  destruct (hello_target timer1 s) as [i1|] eqn:H1;
    destruct (hello_target timer2 s) as [i2|] eqn:H2;
    rewrite ?hello_job_target, ?hello_target_request, ?H1, ?H2; try reflexivity.
  rewrite request_hello_commute. reflexivity.
Qed.

End hello_extras.

(** ** Attachments and the references of the LDP objects *)

Lemma adjacency_chain_more_fuel (fuel : nat) (arena : list ldp_adjacency)
    (head : option ptr) (l : list ptr) :
  adjacency_chain fuel arena head = Some l ->
  adjacency_chain (S fuel) arena head = Some l.
Proof.
  revert head l. induction fuel as [|fuel IH]; intros [a|] l; try discriminate; auto.
  cbn [adjacency_chain].
  destruct (arena !! a) as [adj|] eqn:Ha; [|discriminate].
  destruct (adjacency_chain fuel arena (adj_next adj)) as [l'|] eqn:Hrest; [|discriminate].
  intros Hl. apply IH in Hrest. cbn [adjacency_chain] in Hrest. rewrite Hrest. exact Hl.
Qed.

(** X16.  [ldp_interface_init] keeps the references of the LDP objects in
    agreement: when every adjacency of a network interface refers back to
    that interface, and every adjacency collection is a chain that ends and
    whose members refer back to their instance, the same holds after an
    attachment (with [ldp_hello_start] modelled from the spec). *)
Theorem attach_keeps_references_consistent (interface : ptr)
    (interface_config : bbl_network_config) (instance : ptr) (s s1 : state) (b : bool) :
  ldp_consistent s ->
  ldp_interface_init interface interface_config instance s = Some (b, s1) ->
  ldp_consistent s1.
Proof.
  intros (Hback & Hchains) Hinit.
  destruct (ldp_interface_init_inv _ _ _ _ _ Hinit)
    as (inst & ni & Hinst & Hni & Hleft).
  destruct (ldp_interface_init_run interface interface_config instance s inst ni
              Hinst Hni Hleft)
    as (s1' & Hrun & Hadjs & Hinsts & Hnifs & _).
  rewrite Hinit in Hrun. injection Hrun as -> ->.
  split.
  - intros n ni' a Hn Ha. rewrite Hnifs in Hn. rewrite Hadjs.
    destruct (decide (n = interface)) as [->|Hne].
    + rewrite list_lookup_insert_eq in Hn by (eapply lookup_lt_Some; exact Hni).
      injection Hn as <-. cbn in Ha. injection Ha as <-.
      eexists. split; [apply snoc_lookup|reflexivity].
    + rewrite list_lookup_insert_ne in Hn by congruence.
      destruct (Hback n ni' a Hn Ha) as (adj & Hadj & Hif).
      exists adj. split; [apply lookup_app_l_Some; exact Hadj|exact Hif].
  - intros k inst' Hk. rewrite Hinsts in Hk. rewrite Hadjs, length_app.
    cbn [length]. rewrite Nat.add_1_r.
    destruct (decide (k = instance)) as [->|Hne].
    + rewrite list_lookup_insert_eq in Hk by (eapply lookup_lt_Some; exact Hinst).
      injection Hk as <-.
      destruct (Hchains instance inst Hinst) as (l & Hl & Hmembers).
      exists (length (ldp_adjacencies (mem s)) :: l). split.
      * cbn [adjacency_chain inst_adjacencies with_inst_adjacencies].
        rewrite snoc_lookup. cbn [adj_next attached_adjacency].
        rewrite (adjacency_chain_extend _ _ _ _ _ Hl). reflexivity.
      * intros a [<-|Hin].
        -- eexists. split; [apply snoc_lookup|reflexivity].
        -- destruct (Hmembers a Hin) as (adj & Hadj & Hback').
           exists adj. split; [apply lookup_app_l_Some; exact Hadj|exact Hback'].
    + rewrite list_lookup_insert_ne in Hk by congruence.
      destruct (Hchains k inst' Hk) as (l & Hl & Hmembers).
      exists l. split.
      * apply adjacency_chain_extend. apply adjacency_chain_more_fuel. exact Hl.
      * intros a Hin. destruct (Hmembers a Hin) as (adj & Hadj & Hback').
        exists adj. split; [apply lookup_app_l_Some; exact Hadj|exact Hback'].
Qed.

(** X16, witness: the attachment of eth0 to the instance. *)
Lemma attach_keeps_references_consistent_witness : ldp_consistent example_attached.
Proof.
  assert (Hinit : exists s1,
    ldp_interface_init 0 example_network_config 0 example_ldp_state = Some (true, s1)
    /\ example_attached = s1) by (eexists; split; vm_compute; reflexivity).
  destruct Hinit as (s1 & Hinit & ->).
  apply (attach_keeps_references_consistent 0%nat example_network_config 0%nat
           example_ldp_state s1 true); [|exact Hinit].
  split.
  - intros [|[|n]] ni a Hn Ha; try discriminate Hn.
    injection Hn as <-. discriminate Ha.
  - intros [|[|k]] inst Hk; try discriminate Hk.
    injection Hk as <-. exists []. split; [reflexivity|]. intros a [].
Defined.

(** ** The event loop *)

Section event_extras.
Context `{defs : bbl_defs}.

(** A write to an adjacency that keeps its interface keeps the timers
    well-formed. *)
Lemma timers_wf_adjacency_upd (s : state) (a : ptr) (adj adj' : ldp_adjacency) :
  ldp_adjacencies (mem s) !! a = Some adj ->
  adj_interface adj' = adj_interface adj ->
  timers_wf s ->
  timers_wf (set_ldp_adjacencies (fun l => <[a := adj']> l) s).
Proof.
  intros Ha Hif Hwf k t Hk. unfold set_ldp_adjacencies in *. cbn in *.
  specialize (Hwf k t Hk). destruct (timer_cb_fn t); [exact Hwf|].
  destruct Hwf as (a0 & interface & Ha0 & Hif0 & Hlt).
  destruct (decide (a = timer_data t)) as [->|Hne].
  - exists adj', interface. rewrite Ha in Ha0. injection Ha0 as <-.
    split; [|split; [congruence|exact Hlt]].
    apply list_lookup_insert_eq. eapply lookup_lt_Some. exact Ha.
  - exists a0, interface.
    rewrite list_lookup_insert_ne by exact Hne. auto.
Qed.

(** One event on well-formed timers. *)
Lemma step_safe (e : event) (s : state) :
  timers_wf s ->
  event_in_range (length (network_interfaces (mem s))) (length (ldp_instances (mem s)))
    (length (ldp_adjacencies (mem s))) (length (timer_root (g_ctx s)))
    (calloc_left (mem s)) e = true ->
  exists s1,
    step e s = Some (tt, s1)
    /\ timers_wf s1
    /\ length (network_interfaces (mem s1)) = length (network_interfaces (mem s))
    /\ length (ldp_instances (mem s1)) = length (ldp_instances (mem s))
    /\ length (ldp_adjacencies (mem s1)) = (created e + length (ldp_adjacencies (mem s)))%nat
    /\ length (timer_root (g_ctx s1)) = (created e + length (timer_root (g_ctx s)))%nat
    /\ calloc_left (mem s1) = (calloc_left (mem s) - created e)%nat.
Proof.
  intros Hwf Hrange. destruct e as [interface cfg instance|timer|adjacency|adjacency];
    cbn [event_in_range created] in *.
  - apply andb_prop in Hrange as (Hrange & Hleft).
    apply andb_prop in Hrange as (Hi & Hk).
    apply Nat.ltb_lt in Hi, Hk, Hleft.
    destruct (lookup_lt_is_Some_2 _ _ Hi) as (ni & Hni).
    destruct (lookup_lt_is_Some_2 _ _ Hk) as (inst & Hinst).
    assert (Hmemory : calloc_left (mem s) <> O) by lia.
    destruct (ldp_interface_init_run interface cfg instance s inst ni Hinst Hni Hmemory)
      as (s1 & Hrun & Hadjs & Hinsts & Hnifs & Htimers & _ & _ & Hifs & _ & Hcalloc).
    exists s1. split; [cbn [step]; unfold bind; rewrite Hrun; reflexivity|].
    split.
    + intros k t Hkt. rewrite Htimers in Hkt.
      destruct (decide (k < length (timer_root (g_ctx s)))%nat) as [Hlt|Hge].
      * rewrite lookup_app_l in Hkt by exact Hlt.
        specialize (Hwf k t Hkt). destruct (timer_cb_fn t).
        -- rewrite Hifs. exact Hwf.
        -- destruct Hwf as (a & i & Ha & Hai & Hlti).
           exists a, i. rewrite Hadjs, Hnifs, length_insert.
           split; [apply lookup_app_l_Some; exact Ha|auto].
      * assert (Hlen : (k < length (timer_root (g_ctx s) ++ [hello_timer s inst]))%nat)
          by (eapply lookup_lt_Some; exact Hkt).
        rewrite length_app in Hlen. cbn [length] in Hlen.
        assert (k = length (timer_root (g_ctx s))) as -> by lia.
        rewrite snoc_lookup in Hkt. injection Hkt as <-. cbn.
        eexists _, interface. rewrite Hadjs, snoc_lookup, Hnifs, length_insert.
        split; [reflexivity|]. split; [reflexivity|exact Hi].
    + rewrite Hnifs, Hinsts, Hadjs, Htimers, !length_insert, !length_app. cbn [length].
      repeat split; lia.
  - apply Nat.ltb_lt in Hrange.
    destruct (lookup_lt_is_Some_2 _ _ Hrange) as (t & Ht).
    pose proof (Hwf timer t Ht) as Hthis.
    cbn [step]. unfold bind at 1, timer_at, deref. rewrite Ht.
    destruct (timer_cb_fn t).
    + destruct (lookup_lt_is_Some_2 _ _ Hthis) as (i & Hi).
      unfold bbl_interface_rate_job. unfold_monad. rewrite Ht, Hi.
      exists s. repeat split; auto. lia.
    + destruct Hthis as (a & i & Ha & Hai & Hlti).
      destruct (lookup_lt_is_Some_2 _ _ Hlti) as (ni & Hni).
      rewrite (ldp_interface_hello_job_run timer s t a i ni Ht Ha Hai Hni).
      eexists. split; [reflexivity|]. unfold set_network_interfaces. cbn.
      rewrite length_insert. split; [|repeat split; auto; lia].
      intros k t' Hk. specialize (Hwf k t' Hk). cbn in *.
      destruct (timer_cb_fn t'); [exact Hwf|].
      rewrite length_insert. exact Hwf.
  - apply Nat.ltb_lt in Hrange.
    destruct (lookup_lt_is_Some_2 _ _ Hrange) as (adj & Hadj).
    cbn [step]. unfold ldp_peer_hello. unfold_monad. rewrite Hadj.
    eexists. split; [reflexivity|]. split.
    + apply (timers_wf_adjacency_upd s adjacency adj); [exact Hadj| |exact Hwf].
      destruct (adj_state adj); reflexivity.
    + unfold set_ldp_adjacencies. cbn. rewrite length_insert. repeat split; auto. lia.
  - apply Nat.ltb_lt in Hrange.
    destruct (lookup_lt_is_Some_2 _ _ Hrange) as (adj & Hadj).
    cbn [step]. unfold ldp_hold_expired. unfold_monad. rewrite Hadj.
    eexists. split; [reflexivity|]. split.
    + apply (timers_wf_adjacency_upd s adjacency adj); [exact Hadj| |exact Hwf].
      destruct (adj_state adj); reflexivity.
    + unfold set_ldp_adjacencies. cbn. rewrite length_insert. repeat split; auto. lia.
Qed.

(** X17.  The event loop follows no dangling pointer as long as [calloc]
    has memory.  From a state whose armed timers are well-formed, every run
    of attachments, timer firings, peer Hellos and hold-timer expiries whose
    pointers are in range when the event occurs, and whose attachments all
    find memory for their adjacency, returns, and the timers are well-formed
    again: [ldp_interface_init] stores the interface in the adjacency before
    the hello timer is armed, so that [ldp_interface_hello_job] always finds
    it.  An attachment for which [calloc] has no memory left dereferences
    the null pointer: that run is undefined.  ([ldp_hello_start],
    [timer_add_periodic] and the two adjacency events are modelled from the
    spec.) *)
Theorem event_loop_is_safe (events : list event) (s : state) :
  timers_wf s ->
  (events_in_range (length (network_interfaces (mem s))) (length (ldp_instances (mem s)))
     (length (ldp_adjacencies (mem s))) (length (timer_root (g_ctx s)))
     (calloc_left (mem s)) events = true ->
   exists s1, run events s = Some (tt, s1) /\ timers_wf s1)
  /\ (calloc_left (mem s) = O ->
      forall interface interface_config instance,
        run (Attach interface interface_config instance :: events) s = None).
Proof.
  intros Hwf. split.
  - revert s Hwf. induction events as [|e events IH]; intros s Hwf Hrange.
    + exists s. split; [reflexivity|exact Hwf].
    + cbn [events_in_range] in Hrange. apply andb_prop in Hrange as (He & Hrest).
      destruct (step_safe e s Hwf He)
        as (s' & Hstep & Hwf' & Hn & Hi & Ha & Ht & Hleft).
      destruct (IH s' Hwf') as (s1 & Hrun & Hwf1).
      * rewrite Hn, Hi, Ha, Ht, Hleft. exact Hrest.
      * exists s1. split; [|exact Hwf1].
        cbn [run]. unfold bind. rewrite Hstep. exact Hrun.
  - intros Hleft interface interface_config instance.
    cbn [run step]. unfold bind.
    rewrite (ldp_interface_init_out_of_memory _ _ _ _ Hleft). reflexivity.
Qed.

End event_extras.

(** X17, witness: eth0 is attached, its hello timer fires, the peer answers,
    the timer fires again and the hold timer expires; and an attachment
    when [calloc] has no memory left. *)
Lemma event_loop_is_safe_witness :
  (exists s1,
      run (defs := example_defs)
        [Attach 0 example_network_config 0; Timer_fired 0; Peer_hello 0;
         Timer_fired 0; Hold_expired 0] example_ldp_state = Some (tt, s1)
      /\ timers_wf s1)
  /\ run (defs := example_defs) [Attach 0 example_network_config 0]
       (set_calloc_left (fun _ => O) example_ldp_state) = None.
Proof.
  split.
  - apply (proj1 (event_loop_is_safe (defs := example_defs) _ example_ldp_state
                    ltac:(intros [|k] t Hk; discriminate Hk))).
    vm_compute. reflexivity.
  - apply (proj2 (event_loop_is_safe (defs := example_defs) []
                    (set_calloc_left (fun _ => O) example_ldp_state)
                    ltac:(intros [|k] t Hk; discriminate Hk))).
    reflexivity.
Defined.

(** ** The configured hardware address *)

(** The value of a little-endian load, byte by byte. *)
Lemma load_le_cons (b : Z) (rest : list Z) :
  load_le (b :: rest) = b mod 256 + 256 * load_le rest.
Proof.
  cbn [load_le]. change 255 with (Z.ones 8). rewrite Z.land_ones by lia.
  rewrite Z.shiftl_mul_pow2 by lia.
  assert (Hdisjoint : Z.land (b mod 2 ^ 8) (load_le rest * 2 ^ 8) = 0).
  { apply Z.bits_inj'. intros n Hn. rewrite Z.land_spec, Z.bits_0.
    destruct (Z.lt_ge_cases n 8) as [Hlt|Hge].
    - rewrite Z.mul_pow2_bits_low by lia. apply andb_false_r.
    - rewrite Z.mod_pow2_bits_high by lia. reflexivity. }
  pose proof (Z.add_lor_land (b mod 2 ^ 8) (load_le rest * 2 ^ 8)) as Hsum.
  rewrite Hdisjoint in Hsum. change (2 ^ 8) with 256 in *. lia.
Qed.

(** The mask [0xffffffffffff00] selects the bytes 1 to 6 of the load. *)
Lemma mask_bytes_1_to_6 (x : Z) :
  Z.land x 0xffffffffffff00 = 0 <-> (x / 256) mod 2 ^ 48 = 0.
Proof.
  change 0xffffffffffff00 with (Z.shiftl (Z.ones 48) 8).
  assert (Hshift : Z.land x (Z.shiftl (Z.ones 48) 8)
                   = Z.shiftl (Z.land (Z.shiftr x 8) (Z.ones 48)) 8).
  { apply Z.bits_inj'. intros n Hn. rewrite Z.land_spec.
    destruct (Z.lt_ge_cases n 8) as [Hlt|Hge].
    - rewrite !Z.shiftl_spec_low by lia. apply andb_false_r.
    - rewrite !Z.shiftl_spec by lia. rewrite Z.land_spec, Z.shiftr_spec by lia.
      replace (n - 8 + 8) with n by lia. reflexivity. }
  rewrite Hshift, Z.shiftl_eq_0_iff by lia.
  rewrite Z.land_ones, Z.shiftr_div_pow2 by lia. reflexivity.
Qed.

(** The test of [bbl_interface_add] on the configured hardware address, in
    terms of the bytes. *)
Lemma mac_test_bytes (b0 b1 b2 b3 b4 b5 b6 b7 : Z) :
  Forall (fun b => 0 <= b < 256) [b0; b1; b2; b3; b4; b5; b6; b7] ->
  (Z.land (load_le [b0; b1; b2; b3; b4; b5; b6; b7]) 0xffffffffffff00 =? 0)
  = forallb (Z.eqb 0) [b1; b2; b3; b4; b5; b6].
Proof.
  intros Hbytes.
  repeat (apply Forall_cons in Hbytes as (? & Hbytes)).
  assert (Hlow : (load_le [b0; b1; b2; b3; b4; b5; b6; b7] / 256) mod 2 ^ 48
                 = b1 + 256 * (b2 + 256 * (b3 + 256 * (b4 + 256 * (b5 + 256 * b6))))).
  { rewrite !load_le_cons. cbn [load_le].
    rewrite (Z.mod_small b0 256), (Z.mod_small b1 256), (Z.mod_small b2 256),
      (Z.mod_small b3 256), (Z.mod_small b4 256), (Z.mod_small b5 256),
      (Z.mod_small b6 256), (Z.mod_small b7 256) by lia.
    assert (Hdiv : (b0 + 256 * (b1 + 256 * (b2 + 256 * (b3 + 256 * (b4 + 256 *
                      (b5 + 256 * (b6 + 256 * (b7 + 256 * 0)))))))) / 256
                   = b1 + 256 * (b2 + 256 * (b3 + 256 * (b4 + 256 *
                      (b5 + 256 * (b6 + 256 * (b7 + 256 * 0)))))))
      by (symmetry; apply (Z.div_unique _ 256 _ b0); lia).
    rewrite Hdiv. symmetry.
    apply (Z.mod_unique _ (2 ^ 48) b7); lia. }
  destruct (Z.land _ _ =? 0) eqn:Htest.
  - apply Z.eqb_eq, mask_bytes_1_to_6 in Htest. rewrite Hlow in Htest.
    assert (b1 = 0 /\ b2 = 0 /\ b3 = 0 /\ b4 = 0 /\ b5 = 0 /\ b6 = 0)
      as (-> & -> & -> & -> & -> & ->) by lia.
    reflexivity.
  - apply Z.eqb_neq in Htest. rewrite mask_bytes_1_to_6, Hlow in Htest.
    symmetry. apply not_true_is_false. intros Hall. apply Htest.
    cbn [forallb] in Hall.
    repeat (apply andb_prop in Hall as (?%Z.eqb_eq & Hall)). lia.
Qed.

Section mac_extras.
Context `{defs : bbl_defs}.

Local Arguments snprintf : simpl never.
Local Arguments sprintf_d : simpl never.
Local Arguments wrap32 : simpl never.
Local Arguments load_le : simpl never.
Local Arguments Z.land : simpl never.
Local Arguments bbl_interface_lock : simpl never.
Local Arguments bbl_interface_set_kernel_info : simpl never.

Ltac exec :=
  repeat first [ rewrite snoc_lookup | rewrite snoc_insert | progress cbn ].

(** A kernel binding that returns true outside the DPDK mode has stored the
    hardware address and the index that the kernel gave. *)
Lemma set_kernel_info_true (interface : ptr) (s s' : state) (i : bbl_interface) :
  bbl_interface_set_kernel_info interface s = Some (true, s') ->
  interfaces (mem s) !! interface = Some i ->
  if_io_mode i <> IO_MODE_DPDK ->
  exists sa_data ifr_ifindex,
    os_siocgifhwaddr (os s) (snprintf IFNAMSIZ (if_name i)) = SysOk sa_data
    /\ s' = set_interfaces
              (fun l => <[interface := with_if_ifindex ifr_ifindex
                                         (with_if_mac (take IFHWADDRLEN sa_data) i)]> l) s.
Proof.
  intros Hrun Hi Hmode.
  destruct (os_siocgifhwaddr (os s) (snprintf IFNAMSIZ (if_name i)))
    as [sa_data|e] eqn:Hhw.
  - destruct (os_siocgifindex (os s) (snprintf IFNAMSIZ (if_name i)))
      as [ifr_ifindex|e] eqn:Hidx.
    + rewrite (set_kernel_info_ok _ _ _ _ _ Hi Hmode Hhw Hidx) in Hrun.
      injection Hrun as <-. eauto.
    + rewrite (set_kernel_info_ifindex_error _ _ _ _ _ Hi Hmode Hhw Hidx) in Hrun.
      discriminate.
  - rewrite (set_kernel_info_hwaddr_error _ _ _ _ Hi Hmode Hhw) in Hrun. discriminate.
Qed.

(** The hardware address of a registered interface: the configured one when
    the test of [bbl_interface_add] holds, the kernel's otherwise. *)
Lemma bbl_interface_add_mac (interface_name : string) (link_config : bbl_link_config)
    (s s1 : state) (p : ptr) (i : bbl_interface) :
  IO_MODE_DPDK <> 0 ->
  bbl_interface_add interface_name link_config s = Some (Some p, s1) ->
  interfaces (mem s1) !! p = Some i ->
  exists sa_data,
    os_siocgifhwaddr (os s) (snprintf IFNAMSIZ interface_name) = SysOk sa_data
    /\ if_mac i =
         if Z.land (load_le (lc_mac link_config ++ lc_mac_next link_config))
              0xffffffffffff00 =? 0
         then take IFHWADDRLEN sa_data
         else take ETH_ADDR_LEN (lc_mac link_config).
Proof.
  intros Hdpdk.
  unfold bbl_interface_add, calloc_interface.
  destruct s as [[q pi force lcs lags timers] [left ifs nifs insts adjs] o lg].
  unfold_monad. cbn.
  destruct left as [|n]; [discriminate|].
  unfold_setters. exec.
  match goal with
  | |- context [bbl_interface_lock ?n ?st] =>
      destruct (bbl_interface_lock_spec n st) as (locked & msgs & Hspec);
      rewrite Hspec; clear Hspec
  end.
  destruct locked; [|discriminate].
  unfold_setters. exec.
  match goal with
  | |- context [bbl_interface_set_kernel_info (length ?l) ?st] =>
      destruct (bbl_interface_set_kernel_info (length l) st) as [[bound sk]|] eqn:Hk;
      [|discriminate]
  end.
  destruct bound; [|discriminate].
  destruct (set_kernel_info_true _ _ _ _ Hk (snoc_lookup _ _))
    as (sa_data & ifr_ifindex & Hhw & ->); [cbn; congruence|].
  cbn in Hhw. clear Hk.
  unfold_setters. exec.
  destruct (Z.land _ _ =? 0); exec;
    unfold bbl_lag_interface_add, bbl_io_add_interface, timer_add_periodic;
    unfold_monad; unfold_setters; exec;
    destruct (lc_lag link_config) as [group|]; exec;
    try (destruct (existsb _ lags); exec; [|discriminate]);
    (destruct (os_io_open o _ _); exec; [|discriminate]);
    intros [= <- <-]; exec; intros [= <-];
    exists sa_data; (split; [exact Hhw|reflexivity]).
Qed.

(** X18.  The hardware address of a registered interface, on a
    little-endian machine.  The configured address replaces the address
    that the kernel gave exactly when one of its bytes 1 to 5, or the byte
    that follows the array in the link configuration, is not zero: the
    first byte of the configured address plays no part in the decision. *)
Theorem configured_mac_needs_a_later_byte (interface_name : string)
    (link_config : bbl_link_config) (s s1 : state) (p : ptr) (i : bbl_interface)
    (b0 b1 b2 b3 b4 b5 b6 b7 : Z) :
  IO_MODE_DPDK <> 0 ->
  bbl_interface_add interface_name link_config s = Some (Some p, s1) ->
  interfaces (mem s1) !! p = Some i ->
  lc_mac link_config = [b0; b1; b2; b3; b4; b5] ->
  lc_mac_next link_config = [b6; b7] ->
  Forall (fun b => 0 <= b < 256) [b0; b1; b2; b3; b4; b5; b6; b7] ->
  exists sa_data,
    os_siocgifhwaddr (os s) (snprintf IFNAMSIZ interface_name) = SysOk sa_data
    /\ if_mac i =
         if forallb (Z.eqb 0) [b1; b2; b3; b4; b5; b6]
         then take IFHWADDRLEN sa_data
         else [b0; b1; b2; b3; b4; b5].
Proof.
  intros Hdpdk Hadd Hi Hmac Hnext Hbytes.
  destruct (bbl_interface_add_mac _ _ _ _ _ _ Hdpdk Hadd Hi) as (sa_data & Hhw & Hif).
  exists sa_data. split; [exact Hhw|].
  rewrite Hif, Hmac, Hnext. cbn [app].
  rewrite (mac_test_bytes _ _ _ _ _ _ _ _ Hbytes). reflexivity.
Qed.

End mac_extras.

(** X18, witness: the configured address 02:00:00:00:00:00 is not used, the
    interface keeps the address 02:00:00:00:00:01 of the kernel. *)
Lemma configured_mac_needs_a_later_byte_witness :
  exists s1 i,
    bbl_interface_add (defs := example_defs) "eth0" first_byte_link
      (example_state false (example_os empty writable)) = Some (Some 0%nat, s1)
    /\ interfaces (mem s1) !! 0%nat = Some i
    /\ if_mac i = [2; 0; 0; 0; 0; 1].
Proof.
  assert (Hadd : exists s1 i,
    bbl_interface_add (defs := example_defs) "eth0" first_byte_link
      (example_state false (example_os empty writable)) = Some (Some 0%nat, s1)
    /\ interfaces (mem s1) !! 0%nat = Some i)
    by (eexists _, _; split; vm_compute; reflexivity).
  destruct Hadd as (s1 & i & Hadd & Hi).
  destruct (configured_mac_needs_a_later_byte (defs := example_defs) "eth0"
              first_byte_link (example_state false (example_os empty writable))
              s1 0%nat i 2 0 0 0 0 0 0 0) as (sa_data & Hhw & Hmac);
    try assumption; try reflexivity.
  - vm_compute. discriminate.
  - repeat constructor; lia.
  - exists s1, i. split; [exact Hadd|]. split; [exact Hi|].
    rewrite Hmac. vm_compute in Hhw. injection Hhw as <-. reflexivity.
Defined.

(** * The lock, its override and its release *)

Section release_claims.
Context `{defs : bbl_defs}.

(** C4 (as amended).  Registering while the lock file records the process
    identifier of a process that is still alive fails when the force flag is
    not set, and only the log changes.  With the force flag set the lock is
    taken whatever the lock file records, provided the lock file can be opened
    for writing; when that [fopen] fails, the lock fails, forced or not.
    After a registration and a clean release, one whose [remove] of the lock
    file succeeds, the lock file is gone and the lock is free: a second
    [bbl_interface_add] of the name returns the interface as long as
    [calloc] has memory left and returns NULL when it has none, whereas the
    loop of [bbl_interface_init] rejects the name as a duplicate, the
    interface being still in the registry.  After a release whose [remove]
    fails the lock file is still there, and the process is refused by its
    own lock. *)
Theorem lock_conflict_override_and_release (interface_name : string) (s : state) :
  (forall content pid,
      os_files (os s) !! lock_path_of interface_name = Some content ->
      fscanf_d content = Some pid ->
      process_alive (os s) pid = true ->
      interface_lock_force (g_ctx s) = false ->
      exists msg, bbl_interface_lock interface_name s = Some (false, logged ERROR msg s))
  /\ (interface_lock_force (g_ctx s) = true ->
      os_fopen_w (os s) (lock_path_of interface_name) = SysOk tt ->
      exists s1, bbl_interface_lock interface_name s = Some (true, s1)
                 /\ os_files (os s1) !! lock_path_of interface_name
                      = Some (sprintf_d (os_pid (os s))))
  /\ (forall errno,
      os_fopen_w (os s) (lock_path_of interface_name) = SysErr errno ->
      exists s1, bbl_interface_lock interface_name s = Some (false, s1)
                 /\ os_files (os s1) = os_files (os s))
  /\ (forall link_config p s1 s2,
      bbl_interface_add interface_name link_config s = Some (Some p, s1) ->
      bbl_interface_unlock_all s1 = Some (tt, s2) ->
      os_remove (os s) (lock_path_of interface_name) = SysOk tt ->
      os_files (os s2) !! lock_path_of interface_name = None
      /\ (exists s3, bbl_interface_lock interface_name s2 = Some (true, s3)
                     /\ os_files (os s3) !! lock_path_of interface_name
                          = Some (sprintf_d (os_pid (os s))))
      /\ (calloc_left (mem s2) <> O ->
          exists p' s3,
            bbl_interface_add interface_name link_config s2 = Some (Some p', s3)
            /\ os_files (os s3) !! lock_path_of interface_name
                 = Some (sprintf_d (os_pid (os s))))
      /\ (calloc_left (mem s2) = O ->
          bbl_interface_add interface_name link_config s2
            = Some (None, logged ERROR (No_memory_for_interface interface_name) s2))
      /\ (registry_valid s ->
          forall retry rest,
            lc_interface retry = interface_name ->
            links_add (retry :: rest) s2 =
              Some (false,
                    logged ERROR (Failed_to_add_link_duplicate interface_name) s2)))
  /\ (forall link_config p s1 s2 errno,
      bbl_interface_add interface_name link_config s = Some (Some p, s1) ->
      bbl_interface_unlock_all s1 = Some (tt, s2) ->
      os_remove (os s) (lock_path_of interface_name) = SysErr errno ->
      os_files (os s2) !! lock_path_of interface_name = Some (sprintf_d (os_pid (os s)))
      /\ (1 < os_pid (os s) < 2 ^ 31 ->
          process_alive (os s) (os_pid (os s)) = true ->
          interface_lock_force (g_ctx s) = false ->
          bbl_interface_lock interface_name s2 =
            Some (false,
                  logged ERROR
                    (Interface_in_use interface_name (os_pid (os s))
                       (lock_path_of interface_name)) s2))).
Proof.
  split; [|split; [|split; [|split]]].
  - intros content pid Hfile Hscan Halive Hforce.
    destruct (1 <? pid) eqn:Hpid.
    + assert (Hrec : recorded_pid content = Some pid)
        by (unfold recorded_pid; rewrite Hscan, Hpid; reflexivity).
      pose proof (lock_live_holder _ _ _ _ Hfile Hrec Halive) as Hlock.
      cbn zeta in Hlock. rewrite Hforce in Hlock. eauto.
    + assert (Hrec : recorded_pid content = None)
        by (unfold recorded_pid; rewrite Hscan, Hpid; reflexivity).
      pose proof (lock_invalid_file _ _ _ Hfile Hrec) as Hlock.
      cbn zeta in Hlock. rewrite Hforce in Hlock. eauto.
  - intros Hforce Hw.
    destruct (lock_force_writable _ _ Hforce Hw) as (msgs & Hlock).
    eexists. split; [exact Hlock|]. cbn. apply lookup_insert_eq.
  - intros errno Hw.
    destruct (bbl_interface_lock_fopen_error _ _ _ Hw) as (s1 & Hlock & Hos).
    exists s1. split; [exact Hlock|]. rewrite Hos. reflexivity.
  - intros link_config p s1 s2 Hadd Hunlock Hclean.
    pose proof (bbl_interface_add_success_conditions _ _ _ _ _ Hadd)
      as (Hlag & Hio & _ & Hlags).
    pose proof Hadd as Hfirst.
    apply bbl_interface_add_success in Hadd
      as (Hp & Hq & Hfiles & Hw & Hos & Hforce & Hkernel & i' & Hifs & Hname).
    unfold bbl_interface_unlock_all, gets in Hunlock.
    apply bind_inv in Hunlock as (q & s1' & [= <- <-] & Hunlock).
    apply unlock_each_spec in Hunlock as (Hg & Hm & Hl & Hos2 & Hnone & Hgone & _).
    destruct Hos as (Hpid & Hw1 & _ & Hhw1 & Hidx1 & Hio1 & Hrm1).
    destruct Hos2 as (Hpid2 & Hw2 & _ & Hhw2 & Hidx2 & Hio2 & _).
    assert (Habsent : os_files (os s2) !! lock_path_of interface_name = None).
    { rewrite <- Hname. apply (Hgone p i').
      - rewrite Hq. apply in_or_app. right. left. reflexivity.
      - rewrite Hifs, Hp. apply snoc_lookup.
      - rewrite Hname, Hrm1. exact Hclean. }
    assert (Hlock : bbl_interface_lock interface_name s2
                    = Some (true, lock_written interface_name s2)).
    { apply lock_absent; [exact Habsent|]. rewrite Hw2, Hw1. exact Hw. }
    split; [exact Habsent|]. split; [|split; [|split]].
    + exists (lock_written interface_name s2). split; [exact Hlock|].
      rewrite lock_written_file, Hpid2, Hpid. reflexivity.
    + intros Hleft.
      destruct (bbl_interface_add_succeeds interface_name link_config s2
                  (lock_written interface_name s2) Hleft Hlock) as (s3 & Hagain).
      * destruct (Z.eq_dec IO_MODE_DPDK 0) as [Hzero|Hdpdk]; [left; exact Hzero|].
        right. specialize (Hkernel Hdpdk). unfold kernel_lookups_ok in *.
        rewrite Hhw2, Hidx2, Hhw1, Hidx1. exact Hkernel.
      * unfold lag_known in *. rewrite Hg, Hlags. exact Hlag.
      * rewrite Hio2, Hio1. exact Hio.
      * eexists _, s3. split; [exact Hagain|].
        apply bbl_interface_add_success in Hagain as (_ & _ & Hfiles3 & _).
        rewrite Hfiles3, lookup_insert_eq, Hpid2, Hpid. reflexivity.
    + intros Hzero. unfold bbl_interface_add, calloc_interface.
      unfold_monad. rewrite Hzero. reflexivity.
    + intros Hvalid retry rest Hretry.
      destruct (bbl_interface_add_registry _ _ _ _ _ Hvalid Hfirst)
        as (Hvalid1 & Hentries).
      assert (Hvalid2 : registry_valid s2)
        by (unfold registry_valid in *; rewrite Hg, Hm; exact Hvalid1).
      assert (Hsame : entries_named interface_name s2 = entries_named interface_name s1)
        by (unfold entries_named, is_named; rewrite Hg, Hm; reflexivity).
      destruct (bbl_interface_get_found interface_name s2 Hvalid2) as (found & Hget).
      * rewrite Hsame, Hentries, String.eqb_refl.
        intros Hnil. apply app_eq_nil in Hnil as (_ & Hnil). discriminate.
      * cbn [links_add]. rewrite Hretry. unfold bind at 1. rewrite Hget. reflexivity.
  - intros link_config p s1 s2 errno Hadd Hunlock Hdirty.
    apply bbl_interface_add_success in Hadd
      as (Hp & Hq & Hfiles & Hw & Hos & Hforce & Hkernel & i' & Hifs & Hname).
    unfold bbl_interface_unlock_all, gets in Hunlock.
    apply bind_inv in Hunlock as (q & s1' & [= <- <-] & Hunlock).
    apply unlock_each_spec in Hunlock as (Hg & Hm & Hl & Hos2 & _ & _ & Hkept).
    destruct Hos as (Hpid & _ & Hstat1 & _ & _ & _ & Hrm1).
    destruct Hos2 as (_ & _ & Hstat2 & _).
    assert (Hfile : os_files (os s2) !! lock_path_of interface_name
                    = Some (sprintf_d (os_pid (os s)))).
    { rewrite (Hkept (lock_path_of interface_name) errno)
        by (rewrite Hrm1; exact Hdirty).
      rewrite Hfiles. apply lookup_insert_eq. }
    split; [exact Hfile|].
    intros Hrange Halive Hnoforce.
    assert (Hrec : recorded_pid (sprintf_d (os_pid (os s))) = Some (os_pid (os s))).
    { unfold recorded_pid. rewrite fscanf_d_sprintf_d by lia.
      destruct (1 <? os_pid (os s)) eqn:Hlt; [reflexivity|].
      apply Z.ltb_ge in Hlt. lia. }
    assert (Halive2 : process_alive (os s2) (os_pid (os s)) = true)
      by (unfold process_alive in *; rewrite Hstat2, Hstat1; exact Halive).
    pose proof (lock_live_holder _ _ _ _ Hfile Hrec Halive2) as Hrun.
    cbn zeta in Hrun. rewrite Hg, Hforce, Hnoforce in Hrun. exact Hrun.
Qed.

End release_claims.

(** C4, counterexample.  The lock file of eth0 records the live process
    1234, the force flag is set and the lock file cannot be opened for
    writing: the lock fails.  After eth0 has been registered and its lock
    has been released, the lock file being gone, the loop of
    [bbl_interface_init] refuses eth0 as a duplicate; and with memory for
    one interface only, a second [bbl_interface_add] of eth0 returns
    NULL. *)
Lemma forced_lock_or_reregistration_fails :
  (let s := example_state true (example_os (eth0_lock_file "1234") read_only) in
   interface_lock_force (g_ctx s) = true
   /\ os_files (os s) !! lock_path_of (defs := example_defs) "eth0" = Some "1234"%string
   /\ recorded_pid "1234" = Some 1234
   /\ process_alive (defs := example_defs) (os s) 1234 = true
   /\ fst <$> bbl_interface_lock (defs := example_defs) "eth0" s = Some false)
  /\ (let o := example_os empty writable in
      links_add (defs := example_defs) [example_link "eth0" 0] (startup_example 4 o)
        = Some (true, registered_example 4 o)
      /\ bbl_interface_unlock_all (defs := example_defs) (registered_example 4 o)
         = Some (tt, released_example 4 o)
      /\ os_files (os (released_example 4 o)) !! "/run/lock/bngblaster_eth0.lock"%string
         = None
      /\ (fun r => (fst r, log (snd r)))
           <$> links_add (defs := example_defs) [example_link "eth0" 0]
                 (released_example 4 o)
         = Some (false, [(ERROR, Failed_to_add_link_duplicate "eth0")]))
  /\ (let o := example_os empty writable in
      bbl_interface_add (defs := example_defs) "eth0" (example_link "eth0" 0)
        (startup_example 1 o) = Some (Some 0%nat, registered_example 1 o)
      /\ bbl_interface_unlock_all (defs := example_defs) (registered_example 1 o)
         = Some (tt, released_example 1 o)
      /\ os_files (os (released_example 1 o)) !! "/run/lock/bngblaster_eth0.lock"%string
         = None
      /\ (fun r => (fst r, log (snd r)))
           <$> bbl_interface_add (defs := example_defs) "eth0" (example_link "eth0" 0)
                 (released_example 1 o)
         = Some (None, [(ERROR, No_memory_for_interface "eth0")])).
Proof. vm_compute. repeat split. Qed.

(** C4, witness: eth0 held by the live process 1234, without and with the
    force flag; an unwritable lock file; registration, clean release and
    registration again, with memory, without memory and through the loop;
    and a release that cannot remove the lock file. *)
Lemma lock_conflict_override_and_release_witness :
  let held := example_os (eth0_lock_file "1234") writable in
  let o := example_os empty writable in
  let eth0 := example_link "eth0" 0 in
  let path := lock_path_of (defs := example_defs) "eth0" in
  (exists msg, bbl_interface_lock (defs := example_defs) "eth0" (example_state false held)
               = Some (false, logged ERROR msg (example_state false held)))
  /\ (exists s1, bbl_interface_lock (defs := example_defs) "eth0" (example_state true held)
                 = Some (true, s1)
                 /\ os_files (os s1) !! path = Some (sprintf_d 4711))
  /\ (exists s1, bbl_interface_lock (defs := example_defs) "eth0"
                   (example_state true (example_os (eth0_lock_file "1234") read_only))
                 = Some (false, s1)
                 /\ os_files (os s1) = eth0_lock_file "1234")
  /\ (os_files (os (released_example 4 o)) !! path = None
      /\ (exists s3, bbl_interface_lock (defs := example_defs) "eth0" (released_example 4 o)
                     = Some (true, s3)
                     /\ os_files (os s3) !! path = Some (sprintf_d 4711))
      /\ (exists p' s3,
             bbl_interface_add (defs := example_defs) "eth0" eth0 (released_example 4 o)
               = Some (Some p', s3)
             /\ os_files (os s3) !! path = Some (sprintf_d 4711))
      /\ links_add (defs := example_defs) [eth0] (released_example 4 o)
         = Some (false, logged ERROR (Failed_to_add_link_duplicate "eth0")
                          (released_example 4 o)))
  /\ bbl_interface_add (defs := example_defs) "eth0" eth0 (released_example 1 o)
     = Some (None, logged ERROR (No_memory_for_interface "eth0") (released_example 1 o))
  /\ (os_files (os (released_example 4 sticky_os)) !! path = Some (sprintf_d 4711)
      /\ bbl_interface_lock (defs := example_defs) "eth0" (released_example 4 sticky_os)
         = Some (false, logged ERROR (Interface_in_use "eth0" 4711 path)
                          (released_example 4 sticky_os))).
Proof.
  intros held o eth0 path. split; [|split; [|split; [|split; [|split]]]].
  - apply (proj1 (lock_conflict_override_and_release (defs := example_defs) "eth0"
                    (example_state false held)) "1234"%string 1234);
      vm_compute; reflexivity.
  - apply (proj1 (proj2 (lock_conflict_override_and_release (defs := example_defs) "eth0"
                    (example_state true held))));
      vm_compute; reflexivity.
  - apply (proj1 (proj2 (proj2 (lock_conflict_override_and_release (defs := example_defs)
                    "eth0"
                    (example_state true (example_os (eth0_lock_file "1234") read_only)))))
             13).
    vm_compute; reflexivity.
  - destruct (proj1 (proj2 (proj2 (proj2 (lock_conflict_override_and_release
                (defs := example_defs) "eth0" (startup_example 4 o)))))
                eth0 0%nat (registered_example 4 o) (released_example 4 o))
      as (Habsent & Hlock & Hagain & _ & Hloop).
    + vm_compute. reflexivity.
    + vm_compute. reflexivity.
    + vm_compute. reflexivity.
    + split; [exact Habsent|]. split; [exact Hlock|]. split.
      * apply Hagain. vm_compute. discriminate.
      * apply (Hloop ltac:(vm_compute; constructor) eth0 []). reflexivity.
  - destruct (proj1 (proj2 (proj2 (proj2 (lock_conflict_override_and_release
                (defs := example_defs) "eth0" (startup_example 1 o)))))
                eth0 0%nat (registered_example 1 o) (released_example 1 o))
      as (_ & _ & _ & Hnomem & _).
    + vm_compute. reflexivity.
    + vm_compute. reflexivity.
    + vm_compute. reflexivity.
    + apply Hnomem. vm_compute. reflexivity.
  - destruct (proj2 (proj2 (proj2 (proj2 (lock_conflict_override_and_release
                (defs := example_defs) "eth0" (startup_example 4 sticky_os)))))
                eth0 0%nat (registered_example 4 sticky_os)
                (released_example 4 sticky_os) 13)
      as (Hfile & Hrefused).
    + vm_compute. reflexivity.
    + vm_compute. reflexivity.
    + vm_compute. reflexivity.
    + split; [exact Hfile|]. apply Hrefused.
      * vm_compute. split; reflexivity.
      * vm_compute. reflexivity.
      * vm_compute. reflexivity.
Defined.
